(** * Health-and-safety reports backend: report, observation and company handlers

    A shallow embedding of the request handlers of the backend: the
    controllers that the Express routes call, the functions of
    services/reportService.js and services/companyService.js, which no route
    calls, and utils/imageUtils.js; together with the properties of the
    observation reconciliation that the specification states, and with
    properties of the image helpers, of the creation and the deletion of
    reports, of the company handlers and of the authentication middleware
    that the code shows.  What a request to the server does is what the
    controllers do; the functions of the services are stated on their own
    text.

    The remote store, the object storage, the clock, the local file system
    and the JSON parser are external collaborators.  Their answers are taken
    from an environment record [env]; the tables and the bucket they manage
    are kept in an explicit [world] that every handler threads through a
    small state-and-exception monad.  Every request sent to a collaborator is
    appended to the [trace] of the world, so that the order of the requests
    can be stated. *)

From stdpp Require Import base option list strings gmap pretty.
From Stdlib Require Import ZArith Ascii.

Local Open Scope string_scope.
Local Open Scope list_scope.

(** ** JavaScript values carried by request bodies *)

(** Fields of a request body are JSON values (or strings of a multipart
    form).  The handlers observe two things of such a value: whether it is
    truthy, and the text it converts to in a template literal or as a
    property key.  A number is therefore given by the text that
    [Number::toString] yields for it (["42"], ["0.5"], ["1e+21"], ["NaN"];
    both zeros give ["0"]), and an object or array by the text its
    conversion yields (["[object Object]"] for a plain object, the joined
    elements for an array); objects whose conversion throws are left out. *)
Inductive jsval : Type :=
| VUndefined
| VNull
| VBool (b : bool)
| VNum (text : string)
| VStr (s : string)
| VObj (text : string).

#[global] Instance jsval_eq_dec : EqDecision jsval.
Proof. solve_decision. Defined.

(** ToBoolean *)
Definition truthy (v : jsval) : bool :=
  match v with
  | VUndefined | VNull => false
  | VBool b => b
  | VNum text => negb (bool_decide (text = "0") || bool_decide (text = "NaN"))
  | VStr s => negb (bool_decide (s = ""))
  | VObj _ => true
  end.

(** [a || b] *)
Definition js_or (a b : jsval) : jsval := if truthy a then a else b.

(** ToString, as performed by a template literal and by a property key. *)
Definition to_string (v : jsval) : string :=
  match v with
  | VUndefined => "undefined"
  | VNull => "null"
  | VBool true => "true"
  | VBool false => "false"
  | VNum text => text
  | VStr s => s
  | VObj text => text
  end.

(** [v === 'lit'] and [v === true] *)
Definition strict_eq_string (v : jsval) (lit : string) : bool :=
  match v with VStr s => bool_decide (s = lit) | _ => false end.

Definition strict_eq_true (v : jsval) : bool :=
  match v with VBool true => true | _ => false end.

(** [s.split(sep)] for a one-character separator. *)
Fixpoint split_on (sep : Ascii.ascii) (s : string) : list string :=
  match s with
  | EmptyString => [EmptyString]
  | String c rest =>
      if bool_decide (c = sep) then EmptyString :: split_on sep rest
      else match split_on sep rest with
           | [] => [String c EmptyString]
           | hd :: tl => String c hd :: tl
           end
  end.

(** [arr[i]] on an array of strings; out of range reads give [undefined]. *)
Definition js_index (arr : list string) (i : Z) : jsval :=
  if (i <? 0)%Z then VUndefined
  else match arr !! Z.to_nat i with
       | Some s => VStr s
       | None => VUndefined
       end.

(** [arr.pop()] read as a value (the array is not used afterwards). *)
Definition js_pop (arr : list string) : jsval :=
  js_index arr (Z.of_nat (length arr) - 1).

(** ** Exceptions and the handler monad *)

Inductive exn : Type :=
| ApiError (status : nat) (message : string)
| JsError (message : string).

Inductive result (A : Type) : Type :=
| Ok (a : A)
| Throw (e : exn).
Arguments Ok {A} a.
Arguments Throw {A} e.

(** A computation reads and writes a world and either returns or throws.
    A throw keeps the effects performed before it: nothing is rolled back. *)
Definition M (W A : Type) : Type := W → result A * W.

#[global] Instance M_ret {W} : MRet (M W) := λ A a w, (Ok a, w).

#[global] Instance M_bind {W} : MBind (M W) := λ A B f m w,
  match m w with
  | (Ok a, w') => f a w'
  | (Throw e, w') => (Throw e, w')
  end.

Definition throw {W A} (e : exn) : M W A := λ w, (Throw e, w).

(** A primitive step given by its effect on the world. *)
Definition act {W A} (f : W → result A * W) : M W A := f.

(** [try { m } catch (error) { h }] *)
Definition try_catch {W A} (m : M W A) (h : exn → M W A) : M W A := λ w,
  match m w with
  | (Ok a, w') => (Ok a, w')
  | (Throw e, w') => h e w'
  end.

(** [for (const x of l) { await f(x) }] *)
Fixpoint for_of {W A} (l : list A) (f : A → M W unit) : M W unit :=
  match l with
  | [] => mret tt
  | x :: rest => f x ;; for_of rest f
  end.

(** [await Promise.all(l.map(async x => f(x)))], the callbacks taken in list
    order: each is started in turn and runs up to its first [await], the
    upload, so files are read, names drawn and uploads requested in list
    order.  The statements below concern the value each callback resolves to
    and the store requests issued after all of them settled; neither depends
    on how the uploads interleave.  When a callback rejects, the callbacks
    after it have been started all the same: the model stops at the first
    rejection in list order and does not show their effects. *)
Fixpoint map_all {W A B} (l : list A) (f : A → M W B) : M W (list B) :=
  match l with
  | [] => mret []
  | x :: rest => y ← f x; ys ← map_all rest f; mret (y :: ys)
  end.

(** ** Rows, request payloads and the world *)

(** Table [companies] as the services and the report handlers query it:
    the owner is the column [user_id]. *)
Record company_row : Type := {
  co_id : string;
  co_name : jsval;
  co_cuit : jsval;
  co_address : jsval;
  co_industry : jsval;
  co_user_id : string;
}.

(** Columns of table [reports] that the handlers write ([newReport]). *)
Record report_fields : Type := {
  rp_company_id : jsval;
  rp_user_id : string;
  rp_date : jsval;
  rp_contact : jsval;
  rp_description : jsval;
  rp_verification : jsval;
  rp_recommendations : jsval;
  rp_signature : jsval;
  rp_visit_confirmation : bool;
  rp_status : jsval;
}.

Record report_row : Type := {
  rp_id : string;
  rp_fields : report_fields;
}.

(** The [updates] object of [updateReport]: a key is present or not. *)
Record report_updates : Type := {
  upd_date : option jsval;
  upd_contact : option jsval;
  upd_description : option jsval;
  upd_verification : option jsval;
  upd_recommendations : option jsval;
  upd_signature : option jsval;
  upd_visit_confirmation : option bool;
  upd_status : option jsval;
}.

Record observation_row : Type := {
  ob_id : string;
  ob_report_id : string;
  ob_observation : jsval;
  ob_risk_level : jsval;
  ob_image_url : jsval;
}.

(** Payload of an insert into [observations]. *)
Record new_observation : Type := {
  report_id : string;
  observation : jsval;
  risk_level : jsval;
  image_url : jsval;
}.

(** Payload of an update of one observation. *)
Record observation_patch : Type := {
  set_observation : jsval;
  set_risk_level : jsval;
  set_image_url : jsval;
}.

(** One incoming observation of an update call. *)
Record edit_entry : Type := {
  entry_id : jsval;
  entry_observation : jsval;
  riskLevel : jsval;
  imageUrl : jsval;
  newImage : jsval;
  tempId : jsval;
}.

(** A file stored by the multipart middleware. *)
Record upload_file : Type := {
  fieldname : string;
  file_path : string;
  originalname : string;
}.

(** The field [observations] of a body: absent, a JSON text, or an array. *)
Inductive observations_field : Type :=
| ObsAbsent
| ObsText (s : string)
| ObsArray (l : list edit_entry).

(** The field [observationsToDelete] of a body. *)
Inductive ids_field : Type :=
| IdsAbsent
| IdsText (s : string)
| IdsArray (l : list jsval).

(** [reportData] of the services, [req.body] of the controllers. *)
Record report_data : Type := {
  companyId : jsval;
  date : jsval;
  contact : jsval;
  description : jsval;
  verification : jsval;
  recommendations : jsval;
  signature : jsval;
  visitConfirmation : jsval;
  status : jsval;
  observations : observations_field;
  observationsToDelete : ids_field;
}.

Record tables : Type := {
  tbl_companies : list company_row;
  tbl_reports : list report_row;
  tbl_observations : list observation_row;
}.

(** Requests sent to the remote store. *)
Inductive db_request : Type :=
| SelectCompany (company user : string)
| InsertCompany (name cuit address industry : jsval) (user : string)
| DeleteCompany (company user : string)
| SelectReport (report user : string)
| SelectReportById (report : string)
| InsertReport (r : report_fields)
| UpdateReport (report user : string) (u : report_updates)
| DeleteReport (report user : string)
| SelectObservations (report : string)
| UpdateObservation (obs report : string) (p : observation_patch)
| InsertObservations (rows : list new_observation)
| DeleteObservation (obs report : string).

(** Requests sent to the store, to the object storage and to the local file
    system.  The removal of a temporary upload file ([fs.unlinkSync]) is not
    an event: see [ReportController.upload_file_of]. *)
Inductive event : Type :=
| EvDb (q : db_request)
| EvReadFile (p : string)
| EvUpload (storagePath : string)
| EvRemove (paths : list string).

Inductive remove_outcome : Type :=
| RemoveDone
| RemoveError (message : string)
| RemoveThrows (message : string).

(** The answers of the collaborators. *)
Record env : Type := {
  (** error message the store answers to a request, given its tables *)
  db_refuses : tables → db_request → option string;
  (** identifiers produced by [gen_random_uuid()] and [uuidv4()] *)
  gen_uuid : nat → string;
  (** whether [fs.readFileSync] finds the file *)
  read_file : string → bool;
  (** error message of the storage for an upload to a path *)
  upload_refused : string → option string;
  (** [getPublicUrl(path).data.publicUrl] *)
  public_url : string → string;
  (** [new URL(s).pathname]; [None] when the constructor throws *)
  url_pathname : string → option string;
  (** answer of the storage to [remove([path])] *)
  remove_answer : string → remove_outcome;
  (** [Date.now()] at the n-th reading *)
  now : nat → Z;
  (** [JSON.parse] of the observations text; [None] when it throws *)
  JSON_parse : string → option (list edit_entry);
  (** [JSON.parse] of the deletion ids text *)
  JSON_parse_ids : string → option (list jsval);
}.

Record world : Type := {
  db : tables;
  bucket : list string;
  issued : nat;
  ticks : nat;
  trace : list event;
}.

Definition set_db (t : tables) (w : world) : world :=
  {| db := t; bucket := bucket w; issued := issued w; ticks := ticks w;
     trace := trace w |}.

Definition set_bucket (b : list string) (w : world) : world :=
  {| db := db w; bucket := b; issued := issued w; ticks := ticks w;
     trace := trace w |}.

Definition set_observations (l : list observation_row) (t : tables) : tables :=
  {| tbl_companies := tbl_companies t; tbl_reports := tbl_reports t;
     tbl_observations := l |}.

Definition set_reports (l : list report_row) (t : tables) : tables :=
  {| tbl_companies := tbl_companies t; tbl_reports := l;
     tbl_observations := tbl_observations t |}.

Definition set_companies (l : list company_row) (t : tables) : tables :=
  {| tbl_companies := l; tbl_reports := tbl_reports t;
     tbl_observations := tbl_observations t |}.

(** [{ data, error }]: the client library sets exactly one of the two. *)
Inductive response (A : Type) : Type :=
| Answer (a : A)
| Failure (message : string).
Arguments Answer {A} a.
Arguments Failure {A} message.

Definition data {A} (r : response A) : option A :=
  match r with Answer a => Some a | Failure _ => None end.

Definition error {A} (r : response A) : option string :=
  match r with Answer _ => None | Failure msg => Some msg end.

(** [.single()]: exactly one row, or an error. *)
Definition single {A} (rows : list A) : response A :=
  match rows with
  | [x] => Answer x
  | _ => Failure "PGRST116"
  end.

(** The report with its embedded observations, as [getReport] selects it. *)
Record report_view : Type := {
  view_report : report_row;
  view_observations : list observation_row;
}.

(** ** The collaborators *)

Section Collaborators.
Variable E : env.

Definition emit (ev : event) : M world unit := λ w,
  (Ok tt, {| db := db w; bucket := bucket w; issued := issued w;
             ticks := ticks w; trace := trace w ++ [ev] |}).

(** [Date.now()] *)
Definition Date_now : M world Z := λ w,
  (Ok (now E (ticks w)),
   {| db := db w; bucket := bucket w; issued := issued w;
      ticks := S (ticks w); trace := trace w |}).

Definition fresh_uuid : M world string := λ w,
  (Ok (gen_uuid E (issued w)),
   {| db := db w; bucket := bucket w; issued := S (issued w);
      ticks := ticks w; trace := trace w |}).

(** A request to the store: it is logged; the store refuses it with an
    error message, or performs it on its tables. *)
Definition store {A} (q : db_request) (perform : world → response A * world)
  : M world (response A) :=
  emit (EvDb q);;
  act (λ w,
    match db_refuses E (db w) q with
    | Some msg => (Ok (Failure msg), w)
    | None => let '(r, w') := perform w in (Ok r, w')
    end).

Definition observations_of (report : string) (t : tables) : list observation_row :=
  filter (λ o, ob_report_id o = report) (tbl_observations t).

Definition owned_reports (report user : string) (t : tables) : list report_row :=
  filter (λ r, rp_id r = report ∧ rp_user_id (rp_fields r) = user) (tbl_reports t).

(** [from('companies').select('*').eq('id', c).eq('user_id', u).single()] *)
Definition select_company (company user : string) : M world (response company_row) :=
  store (SelectCompany company user) (λ w,
    (single (filter (λ c, co_id c = company ∧ co_user_id c = user)
                    (tbl_companies (db w))), w)).

(** [from('companies').insert(newCompany).select().single()] *)
Definition insert_company (name cuit address industry : jsval) (user : string)
  : M world (response company_row) :=
  store (InsertCompany name cuit address industry user) (λ w,
    let row := {| co_id := gen_uuid E (issued w); co_name := name;
                  co_cuit := cuit; co_address := address;
                  co_industry := industry; co_user_id := user |} in
    (Answer row,
     {| db := set_companies (tbl_companies (db w) ++ [row]) (db w);
        bucket := bucket w; issued := S (issued w); ticks := ticks w;
        trace := trace w |})).

(** [from('companies').delete().eq('id', c).eq('user_id', u)]; the reports
    of a deleted company and their observations go with it
    ([ON DELETE CASCADE]). *)
Definition delete_company (company user : string) : M world (response unit) :=
  store (DeleteCompany company user) (λ w,
    let t := db w in
    let hit := λ c, co_id c = company ∧ co_user_id c = user in
    match filter hit (tbl_companies t) with
    | [] => (Answer tt, w)
    | _ :: _ =>
        let gone := filter (λ r, to_string (rp_company_id (rp_fields r)) = company)
                           (tbl_reports t) in
        (Answer tt,
         set_db
           {| tbl_companies := filter (λ c, ¬ hit c) (tbl_companies t);
              tbl_reports :=
                filter (λ r, to_string (rp_company_id (rp_fields r)) ≠ company)
                       (tbl_reports t);
              tbl_observations :=
                filter (λ o, ob_report_id o ∉ (rp_id <$> gone))
                       (tbl_observations t) |} w)
    end).

Definition with_observations (t : tables) (r : report_row) : report_view :=
  {| view_report := r; view_observations := observations_of (rp_id r) t |}.

Definition map_response {A B} (f : A → B) (r : response A) : response B :=
  match r with Answer a => Answer (f a) | Failure msg => Failure msg end.

(** [from('reports').select('*, companies(..), observations(..)')
      .eq('id', r).eq('user_id', u).single()] *)
Definition select_report (report user : string) : M world (response report_view) :=
  store (SelectReport report user) (λ w,
    (map_response (with_observations (db w))
       (single (owned_reports report user (db w))), w)).

(** [from('reports').select('*, observations(..)').eq('id', r).single()] *)
Definition select_report_by_id (report : string) : M world (response report_view) :=
  store (SelectReportById report) (λ w,
    (map_response (with_observations (db w))
       (single (filter (λ r, rp_id r = report) (tbl_reports (db w)))), w)).

(** [from('reports').insert(newReport).select().single()] *)
Definition insert_report (r : report_fields) : M world (response report_row) :=
  store (InsertReport r) (λ w,
    let row := {| rp_id := gen_uuid E (issued w); rp_fields := r |} in
    (Answer row,
     {| db := set_reports (tbl_reports (db w) ++ [row]) (db w);
        bucket := bucket w; issued := S (issued w); ticks := ticks w;
        trace := trace w |})).

Definition apply_updates (u : report_updates) (f : report_fields) : report_fields :=
  {| rp_company_id := rp_company_id f;
     rp_user_id := rp_user_id f;
     rp_date := default (rp_date f) (upd_date u);
     rp_contact := default (rp_contact f) (upd_contact u);
     rp_description := default (rp_description f) (upd_description u);
     rp_verification := default (rp_verification f) (upd_verification u);
     rp_recommendations := default (rp_recommendations f) (upd_recommendations u);
     rp_signature := default (rp_signature f) (upd_signature u);
     rp_visit_confirmation :=
       default (rp_visit_confirmation f) (upd_visit_confirmation u);
     rp_status := default (rp_status f) (upd_status u) |}.

Definition update_row (report user : string) (u : report_updates) (r : report_row)
  : report_row :=
  if decide (rp_id r = report ∧ rp_user_id (rp_fields r) = user)
  then {| rp_id := rp_id r; rp_fields := apply_updates u (rp_fields r) |}
  else r.

(** [from('reports').update(updates).eq('id', r).eq('user_id', u)];
    the answer lists the rows after the update. *)
Definition update_report (report user : string) (u : report_updates)
  : M world (response (list report_row)) :=
  store (UpdateReport report user u) (λ w,
    let rows := update_row report user u <$> tbl_reports (db w) in
    (Answer (filter (λ r, rp_id r = report ∧ rp_user_id (rp_fields r) = user) rows),
     set_db (set_reports rows (db w)) w)).

(** [from('reports').delete().eq('id', r).eq('user_id', u)]; the
    observations of a deleted report go with it ([ON DELETE CASCADE]). *)
Definition delete_report (report user : string) : M world (response unit) :=
  store (DeleteReport report user) (λ w,
    let t := db w in
    let kept :=
      filter (λ r, ¬ (rp_id r = report ∧ rp_user_id (rp_fields r) = user))
             (tbl_reports t) in
    let obs :=
      match owned_reports report user t with
      | [] => tbl_observations t
      | _ :: _ => filter (λ o, ob_report_id o ≠ report) (tbl_observations t)
      end in
    (Answer tt, set_db (set_observations obs (set_reports kept t)) w)).

(** [from('observations').select('*').eq('report_id', r)] *)
Definition select_observations (report : string)
  : M world (response (list observation_row)) :=
  store (SelectObservations report) (λ w,
    (Answer (observations_of report (db w)), w)).

Definition patch_row (obs report : string) (p : observation_patch)
    (o : observation_row) : observation_row :=
  if decide (ob_id o = obs ∧ ob_report_id o = report)
  then {| ob_id := ob_id o; ob_report_id := ob_report_id o;
          ob_observation := set_observation p;
          ob_risk_level := set_risk_level p;
          ob_image_url := set_image_url p |}
  else o.

(** [from('observations').update(p).eq('id', o).eq('report_id', r)] *)
Definition update_observation (obs report : string) (p : observation_patch)
  : M world (response unit) :=
  store (UpdateObservation obs report p) (λ w,
    (Answer tt,
     set_db (set_observations (patch_row obs report p <$> tbl_observations (db w))
                              (db w)) w)).

Definition new_row (first : nat) (k : nat) (n : new_observation) : observation_row :=
  {| ob_id := gen_uuid E (first + k); ob_report_id := report_id n;
     ob_observation := observation n; ob_risk_level := risk_level n;
     ob_image_url := image_url n |}.

(** [from('observations').insert(rows)] *)
Definition insert_observations (rows : list new_observation)
  : M world (response unit) :=
  store (InsertObservations rows) (λ w,
    (Answer tt,
     {| db := set_observations
                (tbl_observations (db w) ++ imap (new_row (issued w)) rows) (db w);
        bucket := bucket w; issued := issued w + length rows;
        ticks := ticks w; trace := trace w |})).

(** [from('observations').delete().eq('id', o).eq('report_id', r)] *)
Definition delete_observation (obs report : string) : M world (response unit) :=
  store (DeleteObservation obs report) (λ w,
    (Answer tt,
     set_db (set_observations
               (filter (λ o, ¬ (ob_id o = obs ∧ ob_report_id o = report))
                       (tbl_observations (db w))) (db w)) w)).

(** [fs.readFileSync(p)] *)
Definition readFileSync (p : string) : M world unit :=
  emit (EvReadFile p);;
  if read_file E p then mret tt else throw (JsError "ENOENT").

(** [storage.from('report-images').upload(path, buffer, ..)] *)
Definition storage_upload (storagePath : string) : M world (response unit) :=
  emit (EvUpload storagePath);;
  act (λ w,
    match upload_refused E storagePath with
    | Some msg => (Ok (Failure msg), w)
    | None => (Ok (Answer tt), set_bucket (bucket w ++ [storagePath]) w)
    end).

(** [storage.from('report-images').remove([path])] *)
Definition storage_remove (path : string) : M world (response unit) :=
  emit (EvRemove [path]);;
  act (λ w,
    match remove_answer E path with
    | RemoveDone =>
        (Ok (Answer tt), set_bucket (filter (λ p, p ≠ path) (bucket w)) w)
    | RemoveError msg => (Ok (Failure msg), w)
    | RemoveThrows msg => (Throw (JsError msg), w)
    end).
End Collaborators.

(** ** utils/imageUtils.js *)

Module ImageUtils.
Section Defs.
Variable E : env.

(** [uploadImageFromPath(filePath, userId)] *)
Definition uploadImageFromPath (filePath userId : string) : M world string :=
  try_catch
    (readFileSync E filePath;;
     let fileName := js_pop (split_on "/"%char filePath) in
     let fileExt := js_pop (split_on "."%char (to_string fileName)) in
     u ← fresh_uuid E;
     let storagePath := userId +:+ "/" +:+ u +:+ "." +:+ to_string fileExt in
     r ← storage_upload E storagePath;
     match r with
     | Failure msg => throw (JsError ("Error uploading image: " +:+ msg))
     | Answer _ => mret (public_url E storagePath)
     end)
    (λ e, throw e).

(** [uploadImageBuffer(fileBuffer, originalName, userId)] *)
Definition uploadImageBuffer (originalName userId : string) : M world string :=
  try_catch
    (let fileExt := js_pop (split_on "."%char originalName) in
     u ← fresh_uuid E;
     let storagePath := userId +:+ "/" +:+ u +:+ "." +:+ to_string fileExt in
     r ← storage_upload E storagePath;
     match r with
     | Failure msg => throw (JsError ("Error uploading image: " +:+ msg))
     | Answer _ => mret (public_url E storagePath)
     end)
    (λ e, throw e).

(** The object path that [deleteImage] rebuilds from the last two segments
    of [url.pathname]. *)
Definition storage_path (pathname : string) : string :=
  let pathParts := split_on "/"%char pathname in
  let fileName := js_index pathParts (Z.of_nat (length pathParts) - 1) in
  let userId := js_index pathParts (Z.of_nat (length pathParts) - 2) in
  to_string userId +:+ "/" +:+ to_string fileName.

(** [deleteImage(imageUrl)] *)
Definition deleteImage (imageUrl : jsval) : M world bool :=
  try_catch
    (if negb (truthy imageUrl) then mret true
     else
       match url_pathname E (to_string imageUrl) with
       | None => throw (JsError "Invalid URL")
       | Some pathname =>
           let path := storage_path pathname in
           r ← storage_remove E path;
           match r with
           | Failure _ => mret false
           | Answer _ => mret true
           end
       end)
    (λ _, mret false).
End Defs.
End ImageUtils.

(** ** Parts shared by the two variants of the report handlers *)

(** [files && files.length > 0] *)
Definition has_files (files : option (list upload_file)) : bool :=
  match files with
  | Some (_ :: _) => true
  | _ => false
  end.

Definition files_list (files : option (list upload_file)) : list upload_file :=
  default [] files.

(** [files.find(f => f.fieldname === name)] *)
Definition find_field (name : string) (files : list upload_file) : option upload_file :=
  List.find (λ f, bool_decide (fieldname f = name)) files.

(** [acc[obs.id] = obs] folded over the existing rows: the own properties
    of the object [existingObsMap].  The ids of the rows are drawn by the
    store (column [id UUID DEFAULT gen_random_uuid()]), so no own key is the
    name of a member of [Object.prototype]. *)
Definition index_by_id (existingObs : list observation_row)
  : gmap string observation_row :=
  foldl (λ acc obs, <[ob_id obs := obs]> acc) ∅ existingObs.

(** The existing observation that an entry names: the row stored under the
    key [obs.id], for an entry whose id is truthy. *)
Definition existing_of (existingObsMap : gmap string observation_row)
    (obs : edit_entry) : option observation_row :=
  if truthy (entry_id obs) then existingObsMap !! to_string (entry_id obs)
  else None.

(** [existingObsMap] is built from the literal [{}]: besides its own keys
    it answers to the names of the members of [Object.prototype]. *)
Definition Object_prototype_names : list string :=
  ["constructor"; "__defineGetter__"; "__defineSetter__"; "hasOwnProperty";
   "__lookupGetter__"; "__lookupSetter__"; "isPrototypeOf";
   "propertyIsEnumerable"; "toString"; "valueOf"; "__proto__";
   "toLocaleString"].

(** What the handlers read of such a member, a function or
    [Object.prototype] itself: it is truthy and its properties
    [observation], [risk_level] and [image_url] are [undefined]. *)
Definition inherited_member : observation_row :=
  {| ob_id := ""; ob_report_id := "";
     ob_observation := VUndefined; ob_risk_level := VUndefined;
     ob_image_url := VUndefined |}.

(** [existingObsMap[key]], when it is truthy *)
Definition js_get (existingObsMap : gmap string observation_row) (key : string)
  : option observation_row :=
  match existingObsMap !! key with
  | Some row => Some row
  | None =>
      if bool_decide (key ∈ Object_prototype_names) then Some inherited_member
      else None
  end.

(** [obs.id && existingObsMap[obs.id]] *)
Definition found_of (existingObsMap : gmap string observation_row)
    (obs : edit_entry) : option observation_row :=
  if truthy (entry_id obs) then js_get existingObsMap (to_string (entry_id obs))
  else None.

(** [typeof x === 'string' ? JSON.parse(x) : x] on the observations, an
    absent field being the empty array; [None] when [JSON.parse] throws. *)
Definition parse_entries (E : env) (o : observations_field) : option (list edit_entry) :=
  match o with
  | ObsAbsent => Some []
  | ObsArray l => Some l
  | ObsText s => JSON_parse E s
  end.

(** The same on the deletion ids. *)
Definition parse_ids (E : env) (d : ids_field) : option (list jsval) :=
  match d with
  | IdsAbsent => Some []
  | IdsArray l => Some l
  | IdsText s => JSON_parse_ids E s
  end.

(** The observations of a body as the routed handlers read them: the field
    is parsed only when it is truthy, so an empty text gives no entry. *)
Definition body_entries (E : env) (o : observations_field) : option (list edit_entry) :=
  match o with
  | ObsText "" => Some []
  | _ => parse_entries E o
  end.

(** [visitConfirmation === 'true' || visitConfirmation === true] *)
Definition visit_confirmed (v : jsval) : bool :=
  strict_eq_string v "true" || strict_eq_true v.

(** The object literal [newReport] of [createReport] (the destructuring
    default ['draft'] applies to an absent status only). *)
Definition newReport (reportData : report_data) (userId : string) : report_fields :=
  {| rp_company_id := companyId reportData;
     rp_user_id := userId;
     rp_date := date reportData;
     rp_contact := js_or (contact reportData) (VStr "");
     rp_description := description reportData;
     rp_verification := js_or (verification reportData) (VStr "");
     rp_recommendations := js_or (recommendations reportData) (VStr "");
     rp_signature := js_or (signature reportData) (VStr "");
     rp_visit_confirmation := visit_confirmed (visitConfirmation reportData);
     rp_status :=
       match status reportData with
       | VUndefined => VStr "draft"
       | v => v
       end |}.

Definition when_truthy (v : jsval) : option jsval :=
  if truthy v then Some v else None.

Definition when_defined (v : jsval) : option jsval :=
  match v with VUndefined => None | _ => Some v end.

(** The object [updates] of [updateReport]. *)
Definition build_updates (reportData : report_data) : report_updates :=
  {| upd_date := when_truthy (date reportData);
     upd_contact := when_defined (contact reportData);
     upd_description := when_truthy (description reportData);
     upd_verification := when_defined (verification reportData);
     upd_recommendations := when_defined (recommendations reportData);
     upd_signature := when_defined (signature reportData);
     upd_visit_confirmation :=
       match visitConfirmation reportData with
       | VUndefined => None
       | v => Some (visit_confirmed v)
       end;
     upd_status := when_truthy (status reportData) |}.

(** [Object.keys(updates).length > 0] *)
Definition has_keys (u : report_updates) : bool :=
  bool_decide (is_Some (upd_date u)) || bool_decide (is_Some (upd_contact u))
  || bool_decide (is_Some (upd_description u))
  || bool_decide (is_Some (upd_verification u))
  || bool_decide (is_Some (upd_recommendations u))
  || bool_decide (is_Some (upd_signature u))
  || bool_decide (is_Some (upd_visit_confirmation u))
  || bool_decide (is_Some (upd_status u)).

(** The key that the template [image_new_${obs.tempId || Date.now()}] is
    built from: the clock is read each time the template is evaluated and the
    entry has no truthy [tempId].  A reading of the clock is a whole number
    of milliseconds of at most sixteen digits, which converts to its decimal
    digits. *)
Definition temp_key (E : env) (obs : edit_entry) : M world jsval :=
  if truthy (tempId obs) then mret (tempId obs)
  else n ← Date_now E; mret (VNum (pretty n)).

(** [files.find(f => f.fieldname === `image_new_${obs.tempId || Date.now()}`)]:
    the callback evaluates the template for every file it is called on. *)
Fixpoint find_new_image (E : env) (obs : edit_entry) (files : list upload_file)
  : M world (option upload_file) :=
  match files with
  | [] => mret None
  | f :: rest =>
      k ← temp_key E obs;
      if bool_decide (fieldname f = "image_new_" +:+ to_string k)
      then mret (Some f)
      else find_new_image E obs rest
  end.

(** ** services/reportService.js *)

Module ReportService.
Section Defs.
Variable E : env.

(** [getReport(reportId, userId)] *)
Definition getReport (reportId userId : string) : M world report_view :=
  r ← select_report E reportId userId;
  match r with
  | Failure _ => throw (ApiError 404 "Report not found")
  | Answer v => mret v
  end.

(** [typeof observations === 'string' ? JSON.parse(observations) : observations],
    after the destructuring default [observations = []] *)
Definition parsedObservations (o : observations_field) : M world (list edit_entry) :=
  match parse_entries E o with
  | Some l => mret l
  | None => throw (JsError "SyntaxError")
  end.

(** [createReport(reportData, files, userId)] declares
    [const { data: reportData, error: reportError }] in the scope of its
    parameter [reportData]: the declaration is rejected when the module is
    read, so the function has no behaviour to embed.  The functions below
    are embedded from their own text. *)

(** [observations && observations.length > 0]: an array is truthy whatever
    its length, a string is truthy when it is not empty. *)
Definition observations_provided (o : observations_field) : bool :=
  match o with
  | ObsAbsent => false
  | ObsText s => negb (bool_decide (s = ""))
  | ObsArray l => negb (bool_decide (l = []))
  end.

(** [reportData.observationsToDelete && reportData.observationsToDelete.length > 0] *)
Definition deletions_specified (d : ids_field) : bool :=
  match d with
  | IdsAbsent => false
  | IdsText s => negb (bool_decide (s = ""))
  | IdsArray l => negb (bool_decide (l = []))
  end.

Definition parsedDeletions (d : ids_field) : M world (list jsval) :=
  match parse_ids E d with
  | Some l => mret l
  | None => throw (JsError "SyntaxError")
  end.

(** The image of an entry that names an existing observation:
    [let imageUrl = obs.imageUrl || existingObsMap[obs.id].image_url]
    and the block [if (obs.newImage && files && files.length > 0)]. *)
Definition existing_image (userId : string) (files : option (list upload_file))
    (existing : observation_row) (obs : edit_entry) : M world jsval :=
  let kept := js_or (imageUrl obs) (ob_image_url existing) in
  if truthy (newImage obs) && has_files files then
    match find_field ("image_" +:+ to_string (entry_id obs)) (files_list files) with
    | Some file =>
        url ← ImageUtils.uploadImageFromPath E (file_path file) userId;
        mret (VStr url)
    | None => mret kept
    end
  else mret kept.

(** The object passed to [.update(..)] for such an entry. *)
Definition patch_for (existing : observation_row) (obs : edit_entry)
    (img : jsval) : observation_patch :=
  {| set_observation := js_or (entry_observation obs) (ob_observation existing);
     set_risk_level := js_or (riskLevel obs) (ob_risk_level existing);
     set_image_url := img |}.

(** The branch of the loop for an entry that names an existing observation. *)
Definition update_existing (reportId userId : string)
    (files : option (list upload_file)) (existing : observation_row)
    (obs : edit_entry) : M world unit :=
  imageUrl ← existing_image userId files existing obs;
  update_observation E (to_string (entry_id obs)) reportId
    (patch_for existing obs imageUrl);;
  mret tt.

(** The image of any other entry: [let imageUrl = null] and the block
    [if (files && files.length > 0)]. *)
Definition new_image (userId : string) (files : option (list upload_file))
    (obs : edit_entry) : M world jsval :=
  if has_files files then
    found ← find_new_image E obs (files_list files);
    match found with
    | Some file =>
        url ← ImageUtils.uploadImageFromPath E (file_path file) userId;
        mret (VStr url)
    | None => mret VNull
    end
  else mret VNull.

(** The object passed to [.insert(..)] for such an entry. *)
Definition row_for (reportId : string) (obs : edit_entry) (img : jsval)
  : new_observation :=
  {| report_id := reportId;
     observation := entry_observation obs;
     risk_level := js_or (riskLevel obs) (VStr "low");
     image_url := img |}.

(** The branch of the loop for any other entry. *)
Definition insert_new (reportId userId : string)
    (files : option (list upload_file)) (obs : edit_entry) : M world unit :=
  imageUrl ← new_image userId files obs;
  insert_observations E [row_for reportId obs imageUrl];;
  mret tt.

(** The body of [for (const obs of parsedObservations)]. *)
Definition process_observation (reportId userId : string)
    (files : option (list upload_file))
    (existingObsMap : gmap string observation_row) (obs : edit_entry)
  : M world unit :=
  match found_of existingObsMap obs with
  | Some existing => update_existing reportId userId files existing obs
  | None => insert_new reportId userId files obs
  end.

(** The body of [for (const obsId of observationsToDelete)]. *)
Definition process_deletion (reportId : string)
    (existingObsMap : gmap string observation_row) (obsId : jsval) : M world unit :=
  match js_get existingObsMap (to_string obsId) with
  | Some existing =>
      (if truthy (ob_image_url existing)
       then ImageUtils.deleteImage E (ob_image_url existing);; mret tt
       else mret tt);;
      delete_observation E (to_string obsId) reportId;;
      mret tt
  | None => mret tt
  end.

(** The block guarded by [if (observations && observations.length > 0)]. *)
Definition process_observations (reportId userId : string)
    (reportData : report_data) (files : option (list upload_file)) : M world unit :=
  parsed ← parsedObservations (observations reportData);
  existingObs ← select_observations E reportId;
  let existingObsMap := index_by_id (default [] (data existingObs)) in
  for_of parsed (process_observation reportId userId files existingObsMap);;
  if deletions_specified (observationsToDelete reportData) then
    toDelete ← parsedDeletions (observationsToDelete reportData);
    for_of toDelete (process_deletion reportId existingObsMap)
  else mret tt.

(** The block guarded by [if (Object.keys(updates).length > 0)]. *)
Definition update_fields (reportId userId : string) (reportData : report_data)
  : M world unit :=
  let updates := build_updates reportData in
  if has_keys updates then
    r ← update_report E reportId userId updates;
    match r with
    | Failure msg => throw (ApiError 400 msg)
    | Answer _ => mret tt
    end
  else mret tt.

(** [updateReport(reportId, reportData, files, userId)] *)
Definition updateReport (reportId : string) (reportData : report_data)
    (files : option (list upload_file)) (userId : string) : M world report_view :=
  getReport reportId userId;;
  update_fields reportId userId reportData;;
  (if observations_provided (observations reportData)
   then process_observations reportId userId reportData files
   else mret tt);;
  getReport reportId userId.

(** [deleteReport(reportId, userId)] *)
Definition deleteReport (reportId userId : string) : M world bool :=
  report ← getReport reportId userId;
  r ← delete_report E reportId userId;
  match r with
  | Failure msg => throw (ApiError 400 msg)
  | Answer _ =>
      for_of (view_observations report) (λ obs,
        if truthy (ob_image_url obs)
        then ImageUtils.deleteImage E (ob_image_url obs);; mret tt
        else mret tt);;
      mret true
  end.
End Defs.
End ReportService.

(** ** The report handlers wired to the routes (unnamed/part_000)

    A handler receives [req] (here: [req.params.id], [req.user.id],
    [req.body], [req.files]) and answers through [res] or hands an error to
    [next]; the value returned below is the JSON answer, a throw is the
    error handed to [next]. *)

Module ReportController.
Section Defs.
Variable E : env.

(** [uploadImage(fileBuffer, fileName, userId)] *)
Definition uploadImage (fileName userId : string) : M world string :=
  try_catch
    (let fileExt := js_pop (split_on "."%char fileName) in
     u ← fresh_uuid E;
     let filePath := userId +:+ "/" +:+ u +:+ "." +:+ to_string fileExt in
     r ← storage_upload E filePath;
     match r with
     | Failure msg => throw (JsError ("Error uploading image: " +:+ msg))
     | Answer _ => mret (public_url E filePath)
     end)
    (λ e, throw e).

(** [fs.readFileSync(file.path)] followed by [uploadImage(..)].  The
    [fs.unlinkSync(file.path)] that follows the upload is left out: it fails
    only on a file that is already gone, that is when the same temporary
    file is uploaded a second time within the request.  The middleware
    stores every upload in a file of its own and [createReport] takes one
    file per position.  In [updateReport] an entry resolves to a file by a
    field name, [image_<id>] or [image_new_<tempId>]; the route delivers
    files of the field [images] only ([uploaded_as_images] below), on which
    no entry resolves to a file unless its id reads [s]. *)
Definition upload_file_of (file : upload_file) (userId : string) : M world jsval :=
  readFileSync E (file_path file);;
  url ← uploadImage (originalname file) userId;
  mret (VStr url).

(** [let observations = []; if (req.body.observations) { .. }] *)
Definition parse_body_observations (o : observations_field)
  : M world (list edit_entry) :=
  match body_entries E o with
  | Some l => mret l
  | None => throw (JsError "SyntaxError")
  end.

(** The callback of [observations.map] in [createReport]. *)
Definition observationItem (files : option (list upload_file))
    (reportId userId : string) (item : nat * edit_entry) : M world new_observation :=
  let '(index, obs) := item in
  imageUrl ←
    match files_list files !! index with
    | Some file => upload_file_of file userId
    | None => mret VNull
    end;
  mret {| report_id := reportId;
          observation := entry_observation obs;
          risk_level := js_or (riskLevel obs) (VStr "low");
          image_url := imageUrl |}.

(** [createReport(req, res, next)]; the answer is
    [{...reportData, observations: observationItems}]. *)
Definition createReport (userId : string) (body : report_data)
    (files : option (list upload_file))
  : M world (report_row * list new_observation) :=
  parsed ← parse_body_observations (observations body);
  if negb (truthy (companyId body)) || negb (truthy (date body))
     || negb (truthy (description body))
  then throw (ApiError 400 "Company ID, date, and description are required")
  else
    c ← select_company E (to_string (companyId body)) userId;
    match c with
    | Failure _ => throw (ApiError 404 "Company not found")
    | Answer _ =>
        r ← insert_report E (newReport body userId);
        match r with
        | Failure msg => throw (ApiError 400 msg)
        | Answer reportData =>
            observationItems ←
              map_all (zip (seq 0 (length parsed)) parsed)
                      (observationItem files (rp_id reportData) userId);
            match observationItems with
            | [] => mret tt
            | _ :: _ =>
                i ← insert_observations E observationItems;
                match i with
                | Failure msg => throw (ApiError 400 msg)
                | Answer _ => mret tt
                end
            end;;
            mret (reportData, observationItems)
        end
    end.

(** The object each callback of [observations.map] in [updateReport]
    resolves to; a key the literal does not set reads [undefined]. *)
Record processed_observation : Type := {
  p_id : jsval;
  p_report_id : jsval;
  p_observation : jsval;
  p_risk_level : jsval;
  p_image_url : jsval;
}.

(** The image of an entry that names an existing observation, before the
    fallback on the stored one: [let imageUrl = obs.imageUrl || null] and
    the block [if (obs.newImage && req.files && req.files.length > 0)]. *)
Definition existing_image (userId : string) (files : option (list upload_file))
    (obs : edit_entry) : M world jsval :=
  let initial := js_or (imageUrl obs) VNull in
  if truthy (newImage obs) && has_files files then
    match find_field ("image_" +:+ to_string (entry_id obs)) (files_list files) with
    | Some file => upload_file_of file userId
    | None => mret initial
    end
  else mret initial.

(** The image of any other entry. *)
Definition new_image (userId : string) (files : option (list upload_file))
    (obs : edit_entry) : M world jsval :=
  let initial := js_or (imageUrl obs) VNull in
  if has_files files then
    found ← find_new_image E obs (files_list files);
    match found with
    | Some file => upload_file_of file userId
    | None => mret initial
    end
  else mret initial.

(** The callback of [observations.map] in [updateReport]. *)
Definition process_observation (reportId userId : string)
    (files : option (list upload_file))
    (existingObsMap : gmap string observation_row) (obs : edit_entry)
  : M world processed_observation :=
  match found_of existingObsMap obs with
  | Some existing =>
      imageUrl ← existing_image userId files obs;
      mret {| p_id := entry_id obs;
              p_report_id := VUndefined;
              p_observation := js_or (entry_observation obs) (ob_observation existing);
              p_risk_level := js_or (riskLevel obs) (ob_risk_level existing);
              p_image_url := js_or imageUrl (ob_image_url existing) |}
  | None =>
      imageUrl ← new_image userId files obs;
      mret {| p_id := VUndefined;
              p_report_id := VStr reportId;
              p_observation := entry_observation obs;
              p_risk_level := js_or (riskLevel obs) (VStr "low");
              p_image_url := imageUrl |}
  end.

(** [processedObservations.filter(obs => obs.id)] and [.filter(obs => !obs.id)] *)
Definition observationsToUpdate (l : list processed_observation) :=
  filter (λ o, truthy (p_id o) = true) l.

Definition observationsToInsert (l : list processed_observation) :=
  filter (λ o, truthy (p_id o) = false) l.

Definition patch_of (o : processed_observation) : observation_patch :=
  {| set_observation := p_observation o;
     set_risk_level := p_risk_level o;
     set_image_url := p_image_url o |}.

Definition insert_of (o : processed_observation) : new_observation :=
  {| report_id := to_string (p_report_id o);
     observation := p_observation o;
     risk_level := p_risk_level o;
     image_url := p_image_url o |}.

(** The body of [for (const obs of observationsToUpdate)]. *)
Definition apply_update (reportId : string) (o : processed_observation)
  : M world unit :=
  r ← update_observation E (to_string (p_id o)) reportId (patch_of o);
  match r with
  | Failure msg => throw (ApiError 400 msg)
  | Answer _ => mret tt
  end.

(** The block guarded by [if (observations && observations.length > 0)]. *)
Definition process_observations (reportId userId : string)
    (files : option (list upload_file)) (parsed : list edit_entry) : M world unit :=
  existingObs ← select_observations E reportId;
  let existingObsMap := index_by_id (default [] (data existingObs)) in
  processedObservations ←
    map_all parsed (process_observation reportId userId files existingObsMap);
  for_of (observationsToUpdate processedObservations) (apply_update reportId);;
  match observationsToInsert processedObservations with
  | [] => mret tt
  | toInsert =>
      r ← insert_observations E (insert_of <$> toInsert);
      match r with
      | Failure msg => throw (ApiError 400 msg)
      | Answer _ => mret tt
      end
  end.

(** [.update(updates).eq(..).eq(..).select().single()]: the updated row,
    or an error when the store refused or no single row was updated. *)
Definition updated_single (u : response (list report_row)) : response report_row :=
  match u with
  | Failure msg => Failure msg
  | Answer rows => single rows
  end.

(** [updateReport(req, res, next)] *)
Definition updateReport (reportId userId : string) (body : report_data)
    (files : option (list upload_file)) : M world report_view :=
  parsed ← parse_body_observations (observations body);
  existingReport ← select_report E reportId userId;
  match existingReport with
  | Failure _ => throw (ApiError 404 "Report not found")
  | Answer _ =>
      u ← update_report E reportId userId (build_updates body);
      match updated_single u with
      | Failure msg => throw (ApiError 400 msg)
      | Answer _ =>
          (match parsed with
           | [] => mret tt
           | _ :: _ => process_observations reportId userId files parsed
           end);;
          finalReport ← select_report_by_id E reportId;
          match finalReport with
          | Failure msg => throw (ApiError 400 msg)
          | Answer v => mret v
          end
      end
  end.
End Defs.

Section Delete.
Variable E : env.
(** Answer of the storage to [remove(paths)] with a list of paths. *)
Variable remove_all_answer : list string → remove_outcome.

(** [storage.from('report-images').remove(imagePaths)]: one request for all
    the paths. *)
Definition storage_remove_all (paths : list string) : M world (response unit) :=
  emit (EvRemove paths);;
  act (λ w,
    match remove_all_answer paths with
    | RemoveDone =>
        (Ok (Answer tt), set_bucket (filter (λ p, p ∉ paths) (bucket w)) w)
    | RemoveError msg => (Ok (Failure msg), w)
    | RemoveThrows msg => (Throw (JsError msg), w)
    end).

(** The callback of [.map] in [deleteReport]: [new URL(obs.image_url)] and
    [url.pathname.split('/').pop()]; [None] when the constructor throws. *)
Definition image_path (obs : observation_row) : option string :=
  (λ pathname, to_string (js_pop (split_on "/"%char pathname)))
    <$> url_pathname E (to_string (ob_image_url obs)).

(** [observations.filter(obs => obs.image_url).map(..)] *)
Definition imagePaths (observations : list observation_row) : option (list string) :=
  mapM image_path (filter (λ obs, truthy (ob_image_url obs) = true) observations).

(** [deleteReport(req, res, next)]; the answer is the message. *)
Definition deleteReport (reportId userId : string) : M world string :=
  existingReport ← select_report E reportId userId;
  match existingReport with
  | Failure _ => throw (ApiError 404 "Report not found")
  | Answer _ =>
      observations ← select_observations E reportId;
      r ← delete_report E reportId userId;
      match r with
      | Failure msg => throw (ApiError 400 msg)
      | Answer _ =>
          match data observations with
          | Some ((_ :: _) as rows) =>
              match imagePaths rows with
              | None => throw (JsError "Invalid URL")
              | Some [] => mret tt
              | Some ((_ :: _) as paths) => storage_remove_all paths;; mret tt
              end
          | _ => mret tt
          end;;
          mret "Report deleted successfully"
      end
  end.
End Delete.
End ReportController.

(** ** services/companyService.js *)

(** [companyData] *)
Record company_data : Type := {
  name : jsval;
  cuit : jsval;
  address : jsval;
  industry : jsval;
}.

Module CompanyService.
Section Defs.
Variable E : env.

(** [getCompany(companyId, userId)] *)
Definition getCompany (companyId userId : string) : M world company_row :=
  r ← select_company E companyId userId;
  match r with
  | Failure _ => throw (ApiError 404 "Company not found")
  | Answer c => mret c
  end.

(** [createCompany(companyData, userId)] *)
Definition createCompany (companyData : company_data) (userId : string)
  : M world company_row :=
  r ← insert_company E (name companyData) (cuit companyData)
        (address companyData) (industry companyData) userId;
  match r with
  | Failure msg => throw (ApiError 400 msg)
  | Answer c => mret c
  end.

(** [deleteCompany(companyId, userId)] *)
Definition deleteCompany (companyId userId : string) : M world bool :=
  getCompany companyId userId;;
  r ← delete_company E companyId userId;
  match r with
  | Failure msg => throw (ApiError 400 msg)
  | Answer _ => mret true
  end.
End Defs.
End CompanyService.

(** ** The company handlers wired to the routes (controllers/companyController.js)

    These handlers work on the shared-company schema of the second
    migration: [companies] has no owner column and a unique [cuit], and the
    table [user_companies] links users to companies. *)

Module CompanyController.

Record company : Type := {
  company_id : string;
  company_name : jsval;
  company_cuit : jsval;
  company_address : jsval;
  company_industry : jsval;
}.

Record association : Type := {
  assoc_user_id : string;
  assoc_company_id : string;
}.

Record tables : Type := {
  companies : list company;
  user_companies : list association;
}.

Inductive db_request : Type :=
| SelectByCuit (cuit : jsval)
| InsertCompany (name cuit address industry : jsval)
| InsertAssociation (user company : string)
| DeleteAssociation (company user : string).

(** An error of the store: its code and its message. *)
Record db_error : Type := {
  code : string;
  message : string;
}.

Record env : Type := {
  db_refuses : tables → db_request → option db_error;
  gen_uuid : nat → string;
}.

Record world : Type := {
  db : tables;
  issued : nat;
  trace : list db_request;
}.

Inductive response (A : Type) : Type :=
| Answer (a : A)
| Failure (e : db_error).
Arguments Answer {A} a.
Arguments Failure {A} e.

(** [.single()]: the store answers code PGRST116 unless exactly one row
    is selected. *)
Definition single {A} (rows : list A) : response A :=
  match rows with
  | [x] => Answer x
  | _ => Failure {| code := "PGRST116";
                    message := "JSON object requested, multiple (or no) rows returned" |}
  end.

Section Defs.
Variable E : env.

Definition store {A} (q : db_request) (perform : world → response A * world)
  : M world (response A) :=
  act (λ w,
    let w1 := {| db := db w; issued := issued w; trace := trace w ++ [q] |} in
    match db_refuses E (db w1) q with
    | Some e => (Ok (Failure e), w1)
    | None => let '(r, w') := perform w1 in (Ok r, w')
    end).

(** [from('companies').select('*').eq('cuit', cuit).single()] *)
Definition select_by_cuit (c : jsval) : M world (response company) :=
  store (SelectByCuit c) (λ w,
    (single (filter (λ x, to_string (company_cuit x) = to_string c)
                    (companies (db w))), w)).

(** [from('companies').insert({name, cuit, address, industry}).select().single()] *)
Definition insert_company (n c a i : jsval) : M world (response company) :=
  store (InsertCompany n c a i) (λ w,
    let row := {| company_id := gen_uuid E (issued w); company_name := n;
                  company_cuit := c; company_address := a;
                  company_industry := i |} in
    (Answer row,
     {| db := {| companies := companies (db w) ++ [row];
                 user_companies := user_companies (db w) |};
        issued := S (issued w); trace := trace w |})).

(** [from('user_companies').insert({user_id, company_id})] *)
Definition insert_association (user comp : string) : M world (response unit) :=
  store (InsertAssociation user comp) (λ w,
    (Answer tt,
     {| db := {| companies := companies (db w);
                 user_companies :=
                   user_companies (db w)
                   ++ [{| assoc_user_id := user; assoc_company_id := comp |}] |};
        issued := issued w; trace := trace w |})).

(** [from('user_companies').delete().eq('company_id', c).eq('user_id', u)] *)
Definition delete_association (comp user : string) : M world (response unit) :=
  store (DeleteAssociation comp user) (λ w,
    (Answer tt,
     {| db := {| companies := companies (db w);
                 user_companies :=
                   filter (λ a, ¬ (assoc_company_id a = comp ∧ assoc_user_id a = user))
                          (user_companies (db w)) |};
        issued := issued w; trace := trace w |})).

(** [searchError && searchError.code !== 'PGRST116'] *)
Definition search_failed (found : response company) : option string :=
  match found with
  | Failure e =>
      if bool_decide (code e = "PGRST116") then None else Some (message e)
  | Answer _ => None
  end.

(** [createCompany(req, res, next)]; the answer is the company sent with
    status 201. *)
Definition createCompany (userId : string) (body : company_data) : M world company :=
  if negb (truthy (name body)) || negb (truthy (cuit body))
     || negb (truthy (address body)) || negb (truthy (industry body))
  then throw (ApiError 400 "Name, CUIT, address, and industry are required")
  else
    found ← select_by_cuit (cuit body);
    match search_failed found with
    | Some msg => throw (ApiError 400 msg)
    | None =>
        company ←
          match found with
          | Answer existingCompany => mret existingCompany
          | Failure _ =>
              created ← insert_company (name body) (cuit body) (address body)
                          (industry body);
              match created with
              | Failure e => throw (ApiError 400 (message e))
              | Answer newCompany => mret newCompany
              end
          end;
        a ← insert_association userId (company_id company);
        match a with
        | Failure e => throw (ApiError 400 (message e))
        | Answer _ => mret company
        end
    end.

(** [removeCompanyAssociation(req, res, next)]; the answer is the message. *)
Definition removeCompanyAssociation (companyId userId : string) : M world string :=
  r ← delete_association companyId userId;
  match r with
  | Failure e => throw (ApiError 400 (message e))
  | Answer _ => mret "Company association removed successfully"
  end.
End Defs.
End CompanyController.

(** ** middleware/auth.js (unnamed/part_000)

    The middleware that every route of the report and company routers goes
    through.  The auth service is a collaborator: [getUser] is its answer to
    a token, and the tokens it was asked about are kept in order. *)

Module Auth.

(** What [supabaseClient.auth.getUser(token)] resolves to,
    [{ data: { user }, error }], or the error it rejects with. *)
Inductive getUser_result : Type :=
| GetUserAnswer (user : option string) (error : option string)
| GetUserThrows (message : string).

Record env : Type := {
  getUser : jsval → getUser_result;
}.

(** What the middleware does with the request: it answers it with a status
    and an error text, or sets [req.user] and calls [next()]. *)
Inductive outcome : Type :=
| Respond (status : nat) (error : string)
| Next (user : string).

Section Defs.
Variable E : env.

Definition auth_getUser (token : jsval)
  : M (list jsval) (option string * option string) :=
  act (λ asked,
    match getUser E token with
    | GetUserAnswer user error => (Ok (user, error), asked ++ [token])
    | GetUserThrows msg => (Throw (JsError msg), asked ++ [token])
    end).

(** [authenticate(req, res, next)], given [req.headers.authorization] *)
Definition authenticate (authorization : option string) : M (list jsval) outcome :=
  try_catch
    (match authorization with
     | None => mret (Respond 401 "Unauthorized: No token provided")
     | Some authHeader =>
         if bool_decide (authHeader = "") || negb (String.prefix "Bearer " authHeader)
         then mret (Respond 401 "Unauthorized: No token provided")
         else
           let token := js_index (split_on " "%char authHeader) 1 in
           r ← auth_getUser token;
           match r with
           | (Some user, None) => mret (Next user)
           | _ => mret (Respond 401 "Unauthorized: Invalid token")
           end
     end)
    (λ _, mret (Respond 500 "Internal server error during authentication")).
End Defs.
End Auth.

(** * Properties *)

(** ** Vocabulary of the statements *)

(** The storage and the local disk answer every upload. *)
Definition storage_reliable (E : env) : Prop :=
  (∀ p, read_file E p = true) ∧ (∀ p, upload_refused E p = None).

(** The store performs every request. *)
Definition store_accepts (E : env) : Prop :=
  ∀ t q, db_refuses E t q = None.

(** The writes on table [observations], by kind. *)
Inductive obs_op : Type := OpDelete | OpUpdate | OpInsert.

#[global] Instance obs_op_eq_dec : EqDecision obs_op.
Proof. solve_decision. Defined.

Definition obs_op_of (ev : event) : option obs_op :=
  match ev with
  | EvDb (DeleteObservation _ _) => Some OpDelete
  | EvDb (UpdateObservation _ _ _) => Some OpUpdate
  | EvDb (InsertObservations _) => Some OpInsert
  | _ => None
  end.

Definition obs_ops (evs : list event) : list obs_op := omap obs_op_of evs.

Fixpoint nondecreasing (l : list nat) : bool :=
  match l with
  | [] => true
  | x :: rest =>
      match rest with
      | [] => true
      | y :: _ => Nat.leb x y && nondecreasing rest
      end
  end.

(** "All deletions first, then all updates, then all inserts." *)
Definition deletes_updates_inserts (ops : list obs_op) : bool :=
  nondecreasing
    ((λ op, match op with OpDelete => 0 | OpUpdate => 1 | OpInsert => 2 end) <$> ops).

(** The events a run added to the trace. *)
Definition added (w w' : world) : list event := drop (length (trace w)) (trace w').

(** A computation respects a relation on worlds when every run, returning or
    throwing, leaves the world related to the one it started from. *)
Definition respects {A} (R : relation world) (m : M world A) : Prop :=
  ∀ w, R w (m w).2.

(** The run added events that all satisfy [P]. *)
Definition adds (P : event → Prop) : relation world :=
  λ w w', ∃ evs, trace w' = trace w ++ evs ∧ Forall P evs.

(** The run changed the tables only along [Rd]. *)
Definition on_db (Rd : relation tables) : relation world :=
  λ w w', Rd (db w) (db w').

(** The tables are the same before and after. *)
Definition unchanged : relation tables := λ t t', t' = t.

(** Table [reports] is the same before and after. *)
Definition same_reports : relation tables :=
  λ t t', tbl_reports t' = tbl_reports t.

(** Relations that do not look at table [observations]. *)
Definition ignores_observations (Rd : relation tables) : Prop :=
  ∀ t l, Rd t (set_observations l t).

(** The events of an upload: reading the temporary file, storing the blob. *)
Definition upload_event (ev : event) : Prop :=
  match ev with
  | EvReadFile _ | EvUpload _ => True
  | _ => False
  end.

(** The value a run returned, if it returned. *)
Definition returned {A W} (run : result A * W) : option A :=
  match run.1 with
  | Ok a => Some a
  | Throw _ => None
  end.

(** The temporary files a run read in order to upload them. *)
Definition files_read (evs : list event) : list string :=
  omap (λ ev, match ev with EvReadFile p => Some p | _ => None end) evs.

(** Table [observations] only loses rows. *)
Definition shrinks : relation tables :=
  λ t t', tbl_observations t' ⊆ tbl_observations t.

(** Table [observations] is the same before and after. *)
Definition same_observations : relation tables :=
  λ t t', tbl_observations t' = tbl_observations t.

(** As many reports with this id are owned by this user before and after. *)
Definition same_owner (report user : string) : relation tables :=
  λ t t', length (owned_reports report user t') = length (owned_reports report user t).

(** The run added events whose writes on [observations] are [ops]. *)
Definition writes (ops : list obs_op) : relation world :=
  λ w w', ∃ evs, trace w' = trace w ++ evs ∧ obs_ops evs = ops.

(** The entries and the deletion ids that an update call of the service
    goes through: none when the guard on [observations] fails. *)
Definition effective_entries (E : env) (reportData : report_data) : list edit_entry :=
  if ReportService.observations_provided (observations reportData)
  then default [] (parse_entries E (observations reportData))
  else [].

Definition effective_deletions (E : env) (reportData : report_data) : list jsval :=
  if ReportService.observations_provided (observations reportData)
     && ReportService.deletions_specified (observationsToDelete reportData)
  then default [] (parse_ids E (observationsToDelete reportData))
  else [].

(** Whether a character occurs in a text. *)
Fixpoint mentions (c : Ascii.ascii) (s : string) : bool :=
  match s with
  | EmptyString => false
  | String x rest => bool_decide (x = c) || mentions c rest
  end.

(** The object path under which [uploadImageFromPath] stores the file of a
    given path in a given world. *)
Definition upload_path (E : env) (filePath userId : string) (w : world) : string :=
  userId +:+ "/" +:+ gen_uuid E (issued w) +:+ "."
  +:+ to_string (js_pop (split_on "."%char
                   (to_string (js_pop (split_on "/"%char filePath))))).

(** A world after one more event. *)
Definition logged (ev : event) (w : world) : world :=
  {| db := db w; bucket := bucket w; issued := issued w; ticks := ticks w;
     trace := trace w ++ [ev] |}.

(** The rows that [.eq('id', companyId).eq('user_id', userId)] selects from
    table [companies]. *)
Definition owned_companies (company user : string) (t : tables) : list company_row :=
  filter (λ c, co_id c = company ∧ co_user_id c = user) (tbl_companies t).

(** The object paths a run asked the storage to store, in order. *)
Definition uploads (evs : list event) : list string :=
  omap (λ ev, match ev with EvUpload p => Some p | _ => None end) evs.

(** The object path under which [uploadImageBuffer] and the routed
    [uploadImage] store a file of a given name in a given world. *)
Definition buffer_path (E : env) (fileName userId : string) (w : world) : string :=
  userId +:+ "/" +:+ gen_uuid E (issued w) +:+ "."
  +:+ to_string (js_pop (split_on "."%char fileName)).

(** The removal requests of a run, in order: the paths of each. *)
Definition removals (evs : list event) : list (list string) :=
  omap (λ ev, match ev with EvRemove ps => Some ps | _ => None end) evs.

(** The removal that [deleteImage] requests for the image of an observation:
    none when the URL is falsy or is not a URL. *)
Definition image_removal (E : env) (obs : observation_row) : option (list string) :=
  if truthy (ob_image_url obs)
  then (λ pathname, [ImageUtils.storage_path pathname])
         <$> url_pathname E (to_string (ob_image_url obs))
  else None.

(** One pass of the loop of the service's [deleteReport] over the
    observations of the report. *)
Definition cleanup (E : env) (obs : observation_row) : M world unit :=
  if truthy (ob_image_url obs)
  then ImageUtils.deleteImage E (ob_image_url obs);; mret tt
  else mret tt.

(** The cleanup block of the routed [deleteReport]. *)
Definition controller_cleanup (E : env) (answer : list string → remove_outcome)
    (observations : response (list observation_row)) : M world unit :=
  match data observations with
  | Some ((_ :: _) as rows) =>
      match ReportController.imagePaths E rows with
      | None => throw (JsError "Invalid URL")
      | Some [] => mret tt
      | Some ((_ :: _) as paths) =>
          ReportController.storage_remove_all answer paths;; mret tt
      end
  | _ => mret tt
  end.

(** Objects stored in a folder stay in the bucket. *)
Definition keeps_folders : relation world :=
  λ w w', ∀ p, p ∈ bucket w → mentions "/" p = true → p ∈ bucket w'.

(** A removal request that names file names only. *)
Definition names_only (ev : event) : Prop :=
  match ev with
  | EvRemove ps => Forall (λ p, mentions "/" p = false) ps
  | _ => True
  end.

(** The store refuses every write on table [observations] and performs
    every other request. *)
Definition refuses_observation_writes (E : env) : Prop :=
  ∀ t q, match obs_op_of (EvDb q) with
         | Some _ => is_Some (db_refuses E t q)
         | None => db_refuses E t q = None
         end.

(** The files of a request as the report routes deliver them.  Both
    [POST /api/reports] and [PUT /api/reports/:id] go through
    [upload.array('images')] (routes/reportRoutes.js), which hands the
    handler the files of the field [images] and refuses a request that
    carries a file under any other field name. *)
Definition uploaded_as_images (files : option (list upload_file)) : Prop :=
  Forall (λ f, fieldname f = "images") (files_list files).

(** A body with other deletion ids. *)
Definition with_deletions (d : ids_field) (body : report_data) : report_data :=
  {| companyId := companyId body; date := date body; contact := contact body;
     description := description body; verification := verification body;
     recommendations := recommendations body; signature := signature body;
     visitConfirmation := visitConfirmation body; status := status body;
     observations := observations body; observationsToDelete := d |}.

(** The object that the routed [updateReport] computes for an entry with
    which no file is paired. *)
Definition unpaired_object (reportId : string)
    (existingObsMap : gmap string observation_row) (obs : edit_entry)
  : ReportController.processed_observation :=
  match found_of existingObsMap obs with
  | Some existing =>
      {| ReportController.p_id := entry_id obs;
         ReportController.p_report_id := VUndefined;
         ReportController.p_observation :=
           js_or (entry_observation obs) (ob_observation existing);
         ReportController.p_risk_level :=
           js_or (riskLevel obs) (ob_risk_level existing);
         ReportController.p_image_url :=
           js_or (js_or (imageUrl obs) VNull) (ob_image_url existing) |}
  | None =>
      {| ReportController.p_id := VUndefined;
         ReportController.p_report_id := VStr reportId;
         ReportController.p_observation := entry_observation obs;
         ReportController.p_risk_level := js_or (riskLevel obs) (VStr "low");
         ReportController.p_image_url := js_or (imageUrl obs) VNull |}
  end.

(** The request that the routed [updateReport] sends for an object with an
    id. *)
Definition update_request (reportId : string)
    (o : ReportController.processed_observation) : event :=
  EvDb (UpdateObservation (to_string (ReportController.p_id o)) reportId
          (ReportController.patch_of o)).

(** The writes on table [observations] that the routed [updateReport] sends
    for the objects it computed: one update per object with an id, in the
    order of the objects, then one insert of all the others when there is
    any. *)
Definition observation_writes (reportId : string)
    (ps : list ReportController.processed_observation) : list event :=
  (update_request reportId <$> ReportController.observationsToUpdate ps)
  ++ match ReportController.observationsToInsert ps with
     | [] => []
     | toInsert => [EvDb (InsertObservations (ReportController.insert_of <$> toInsert))]
     end.

(** The run added no write on [observations] but updates. *)
Definition writes_updates : relation world :=
  λ w w', ∃ k, writes (replicate k OpUpdate) w w'.

(** The run added no write on [observations] but updates followed by at most
    one insert. *)
Definition writes_updates_insert : relation world :=
  λ w w', ∃ k (b : bool),
    writes (replicate k OpUpdate ++ if b then [OpInsert] else []) w w'.

(** The requests of a run of the company handlers, from a world on. *)
Definition company_requests (w w' : CompanyController.world)
  : list CompanyController.db_request :=
  drop (length (CompanyController.trace w)) (CompanyController.trace w').

(** ** Sample environments and requests

    Concrete collaborators and a small store, used to run the handlers. *)

Module Sample.
(** The origin of the storage of the samples. *)
Definition origin : string := "https://hys.example".

(** [new URL(s).pathname] on the texts of the samples: a text that starts
    with the origin and a slash is a URL whose pathname is the rest; any
    other text of the samples (a path without origin, a word) is not a URL
    and the constructor throws.  The paths of the samples hold letters,
    digits, dots inside names, dashes and slashes only, which the parser
    leaves as they are. *)
Definition pathname_of (s : string) : option string :=
  if String.prefix (origin +:+ "/") s
  then Some (String.substring (String.length origin)
               (String.length s - String.length origin) s)
  else None.

(** A store that performs every request, a storage that serves uploads
    and removals, and a clock that stands still within the request. *)
Definition calm : env :=
  {| db_refuses := λ _ _, None;
     gen_uuid := λ n, "uuid-" +:+ pretty n;
     read_file := λ _, true;
     upload_refused := λ _, None;
     public_url := λ p,
       origin +:+ "/storage/v1/object/public/report-images/" +:+ p;
     url_pathname := pathname_of;
     remove_answer := λ _, RemoveDone;
     now := λ _, 1748362800000%Z;
     JSON_parse := λ _, None;
     JSON_parse_ids := λ _, None |}.

(** The same, with a storage whose every removal throws. *)
Definition no_cleanup : env :=
  {| db_refuses := λ _ _, None;
     gen_uuid := gen_uuid calm;
     read_file := λ _, true;
     upload_refused := λ _, None;
     public_url := public_url calm;
     url_pathname := url_pathname calm;
     remove_answer := λ _, RemoveThrows "fetch failed";
     now := now calm;
     JSON_parse := λ _, None;
     JSON_parse_ids := λ _, None |}.

Definition body (v : jsval) (o : observations_field) (d : ids_field) : report_data :=
  {| companyId := VStr "c1"; date := VStr "2025-05-27";
     contact := VUndefined; description := VStr "Quarterly inspection";
     verification := VUndefined; recommendations := VUndefined;
     signature := VUndefined; visitConfirmation := v; status := VUndefined;
     observations := o; observationsToDelete := d |}.

(** A body that only carries observations and deletion ids. *)
Definition edits (o : observations_field) (d : ids_field) : report_data :=
  {| companyId := VUndefined; date := VUndefined; contact := VUndefined;
     description := VUndefined; verification := VUndefined;
     recommendations := VUndefined; signature := VUndefined;
     visitConfirmation := VUndefined; status := VUndefined;
     observations := o; observationsToDelete := d |}.

Definition entry (i : jsval) (text : string) : edit_entry :=
  {| entry_id := i; entry_observation := VStr text; riskLevel := VUndefined;
     imageUrl := VUndefined; newImage := VUndefined; tempId := VUndefined |}.

Definition company_c1 : company_row :=
  {| co_id := "c1"; co_name := VStr "Acme SA"; co_cuit := VStr "30-12345678-9";
     co_address := VStr "Av. Siempreviva 742"; co_industry := VStr "Metalworking";
     co_user_id := "u1" |}.

Definition report_r1 : report_row :=
  {| rp_id := "r1"; rp_fields := newReport (body VUndefined ObsAbsent IdsAbsent) "u1" |}.

Definition obs_1 : observation_row :=
  {| ob_id := "obs-1"; ob_report_id := "r1";
     ob_observation := VStr "Blocked emergency exit"; ob_risk_level := VStr "high";
     ob_image_url :=
       VStr "https://hys.example/storage/v1/object/public/report-images/u1/a.png" |}.

Definition obs_2 : observation_row :=
  {| ob_id := "obs-2"; ob_report_id := "r1";
     ob_observation := VStr "Missing signage"; ob_risk_level := VStr "low";
     ob_image_url :=
       VStr "https://hys.example/storage/v1/object/public/report-images/u1/b.png" |}.

Definition photo (field tmp : string) : upload_file :=
  {| fieldname := field; file_path := tmp; originalname := "photo.png" |}.

(** A second user registers the company of [company_c1] under another name. *)
Definition same_cuit : company_data :=
  {| name := VStr "Acme Norte"; cuit := VStr "30-12345678-9";
     address := VStr "Ruta 9 km 12"; industry := VStr "Metalworking" |}.

(** The same company and its first user in the shared-company schema. *)
Definition shared_c1 : CompanyController.company :=
  {| CompanyController.company_id := "c1";
     CompanyController.company_name := VStr "Acme SA";
     CompanyController.company_cuit := VStr "30-12345678-9";
     CompanyController.company_address := VStr "Av. Siempreviva 742";
     CompanyController.company_industry := VStr "Metalworking" |}.

Definition shared_world : CompanyController.world :=
  {| CompanyController.db :=
       {| CompanyController.companies := [shared_c1];
          CompanyController.user_companies :=
            [{| CompanyController.assoc_user_id := "u1";
                CompanyController.assoc_company_id := "c1" |}] |};
     CompanyController.issued := 0;
     CompanyController.trace := [] |}.

Definition shared_store : CompanyController.env :=
  {| CompanyController.db_refuses := λ _ _, None;
     CompanyController.gen_uuid := λ n, "uuid-" +:+ pretty n |}.

(** Two new observations sent without [tempId]. *)
Definition two_new : observations_field :=
  ObsArray [entry VUndefined "First"; entry VUndefined "Second"].

Definition world0 : world :=
  {| db := {| tbl_companies := [company_c1]; tbl_reports := [report_r1];
              tbl_observations := [obs_1; obs_2] |};
     bucket := ["u1/a.png"; "u1/b.png"];
     issued := 0; ticks := 0; trace := [] |}.
End Sample.

(** ** Further sample collaborators and requests *)

Module Cases.
(** The store of [Sample.calm] with row-level rules that refuse every write
    on table [observations]. *)
Definition locked_observations : env :=
  {| db_refuses := λ _ q,
       match q with
       | UpdateObservation _ _ _ | InsertObservations _ | DeleteObservation _ _ =>
           Some "new row violates row-level security policy"
       | _ => None
       end;
     gen_uuid := gen_uuid Sample.calm;
     read_file := λ _, true;
     upload_refused := λ _, None;
     public_url := public_url Sample.calm;
     url_pathname := url_pathname Sample.calm;
     remove_answer := λ _, RemoveDone;
     now := now Sample.calm;
     JSON_parse := λ _, None;
     JSON_parse_ids := λ _, None |}.

(** The report of [Sample.world0] with an observation whose stored image
    is not a URL. *)
Definition obs_3 : observation_row :=
  {| ob_id := "obs-3"; ob_report_id := "r1";
     ob_observation := VStr "Wet floor"; ob_risk_level := VStr "medium";
     ob_image_url := VStr "pending" |}.

Definition world_pending : world :=
  {| db := {| tbl_companies := [Sample.company_c1];
              tbl_reports := [Sample.report_r1];
              tbl_observations := [Sample.obs_1; obs_3] |};
     bucket := ["u1/a.png"];
     issued := 0; ticks := 0; trace := [] |}.

(** An entry whose id is the name of a member that every object inherits. *)
Definition constructor_entry : edit_entry :=
  Sample.entry (VStr "constructor") "Loose cable".

(** An entry sent with a [tempId]. *)
Definition keyed_entry : edit_entry :=
  {| entry_id := VUndefined; entry_observation := VStr "Frayed sling";
     riskLevel := VStr "medium"; imageUrl := VUndefined; newImage := VUndefined;
     tempId := VStr "t7" |}.

(** The collaborators of [Sample.calm] with a local disk on which the
    temporary files are gone. *)
Definition lost_files : env :=
  {| db_refuses := λ _ _, None;
     gen_uuid := gen_uuid Sample.calm;
     read_file := λ _, false;
     upload_refused := λ _, None;
     public_url := public_url Sample.calm;
     url_pathname := url_pathname Sample.calm;
     remove_answer := λ _, RemoveDone;
     now := now Sample.calm;
     JSON_parse := λ _, None;
     JSON_parse_ids := λ _, None |}.

(** A storage whose requests for removal fail on the network. *)
Definition unreachable : list string → remove_outcome :=
  λ _, RemoveThrows "fetch failed".

(** A storage that answers every removal with an error. *)
Definition denies : list string → remove_outcome :=
  λ _, RemoveError "permission denied".

(** A storage that performs every removal of several paths. *)
Definition removes_all : list string → remove_outcome := λ _, RemoveDone.

(** Two observations sent with one photo. *)
Definition two_observations : report_data :=
  Sample.body (VBool true)
    (ObsArray [Sample.entry VUndefined "Loose handrail";
               {| entry_id := VUndefined; entry_observation := VStr "Oil spill";
                  riskLevel := VStr "high"; imageUrl := VUndefined;
                  newImage := VUndefined; tempId := VUndefined |}])
    IdsAbsent.

Definition one_photo : option (list upload_file) :=
  Some [Sample.photo "images" "uploads/3f9c2a"].

(** A body whose observations are not JSON. *)
Definition broken_observations : report_data :=
  Sample.body VUndefined (ObsText "[{") IdsAbsent.

(** A new company. *)
Definition new_company : company_data :=
  {| name := VStr "Talleres Sur"; cuit := VStr "30-70000000-1";
     address := VStr "Calle 12 345"; industry := VStr "Construction" |}.

(** An auth service that knows one token. *)
Definition one_session : Auth.env :=
  {| Auth.getUser := λ token,
       if bool_decide (token = VStr "tok-1")
       then Auth.GetUserAnswer (Some "u1") None
       else Auth.GetUserAnswer None (Some "invalid JWT") |}.
End Cases.

(** ** Reasoning about handlers *)

Lemma run_bind {W A B} (m : M W A) (f : A → M W B) (w : W) :
  (m ≫= f) w = match m w with
               | (Ok a, w') => f a w'
               | (Throw e, w') => (Throw e, w')
               end.
Proof. reflexivity. Qed.

Lemma run_ret {W A} (a : A) (w : W) : (mret a : M W A) w = (Ok a, w).
Proof. reflexivity. Qed.

Lemma run_throw {W A} (e : exn) (w : W) : (throw e : M W A) w = (Throw e, w).
Proof. reflexivity. Qed.

Lemma bind_Ok {W A B} (m : M W A) (f : A → M W B) (w w' : W) (b : B) :
  (m ≫= f) w = (Ok b, w') → ∃ a w1, m w = (Ok a, w1) ∧ f a w1 = (Ok b, w').
Proof.
  rewrite run_bind. destruct (m w) as [[a|e] w1]; [|discriminate].
  intros H. by exists a, w1.
Qed.

Lemma for_of_cons_Ok {W A} (x : A) (l : list A) (f : A → M W unit) (w w' : W) u :
  for_of (x :: l) f w = (Ok u, w') →
  ∃ w1, f x w = (Ok tt, w1) ∧ for_of l f w1 = (Ok u, w').
Proof.
  simpl. intros H. apply bind_Ok in H as ([] & w1 & H1 & H2). eauto.
Qed.

Lemma try_catch_rethrow {W A} (m : M W A) (w : W) :
  try_catch m (λ e, throw e) w = m w.
Proof. unfold try_catch, throw. by destruct (m w) as [[a|e] w1]. Qed.

Section Respects.
Context (R : relation world) `{!PreOrder R}.

Lemma respects_ret {A} (a : A) : respects R (mret a).
Proof. intros w. simpl. reflexivity. Qed.

Lemma respects_throw {A} (e : exn) : respects R (throw e : M world A).
Proof. intros w. simpl. reflexivity. Qed.

Lemma respects_bind {A B} (m : M world A) (f : A → M world B) :
  respects R m → (∀ a, respects R (f a)) → respects R (m ≫= f).
Proof.
  intros Hm Hf w. rewrite run_bind. specialize (Hm w).
  destruct (m w) as [[a|e] w1]; simpl in *; [|done].
  etrans; [exact Hm | apply Hf].
Qed.

Lemma respects_try_catch {A} (m : M world A) (h : exn → M world A) :
  respects R m → (∀ e, respects R (h e)) → respects R (try_catch m h).
Proof.
  intros Hm Hh w. unfold try_catch. specialize (Hm w).
  destruct (m w) as [[a|e] w1]; simpl in *; [done|].
  etrans; [exact Hm | apply Hh].
Qed.

Lemma respects_for_of {A} (l : list A) (f : A → M world unit) :
  (∀ x, x ∈ l → respects R (f x)) → respects R (for_of l f).
Proof.
  induction l as [|x l IH]; intros Hf; simpl.
  - apply respects_ret.
  - apply respects_bind; [apply Hf; left | intros _; apply IH].
    intros y Hy. apply Hf. by right.
Qed.

Lemma respects_map_all {A B} (l : list A) (f : A → M world B) :
  (∀ x, x ∈ l → respects R (f x)) → respects R (map_all l f).
Proof.
  induction l as [|x l IH]; intros Hf; simpl.
  - apply respects_ret.
  - apply respects_bind; [apply Hf; left | intros y].
    apply respects_bind; [|intros ys; apply respects_ret].
    apply IH. intros z Hz. apply Hf. by right.
Qed.

Lemma respects_act {A} (f : world → result A * world) :
  (∀ w, R w (f w).2) → respects R (act f).
Proof. intros H w. apply H. Qed.

Lemma respects_store {A} E q (perform : world → response A * world) :
  respects R (emit (EvDb q)) → (∀ w, R w (perform w).2) →
  respects R (store E q perform).
Proof.
  intros He Hp. unfold store. apply respects_bind; [done|]. intros _.
  apply respects_act. intros w.
  destruct (db_refuses E (db w) q); simpl; [reflexivity|].
  specialize (Hp w). by destruct (perform w).
Qed.
End Respects.

#[global] Instance adds_preorder P : PreOrder (adds P).
Proof.
  split.
  - intros w. exists []. by rewrite app_nil_r.
  - intros w1 w2 w3 (e1 & H1 & F1) (e2 & H2 & F2). exists (e1 ++ e2).
    rewrite H2, H1, app_assoc. split; [done|]. by apply Forall_app.
Qed.

Lemma adds_added P w w' : adds P w w' → trace w' = trace w ++ added w w' ∧ Forall P (added w w').
Proof.
  intros (evs & H & F). unfold added. rewrite H, drop_app_length. done.
Qed.

Lemma adds_mono (P Q : event → Prop) w w' :
  (∀ ev, P ev → Q ev) → adds P w w' → adds Q w w'.
Proof.
  intros HPQ (evs & H & F). exists evs. split; [done|].
  eapply Forall_impl; eauto.
Qed.

#[global] Instance on_db_preorder Rd `{!PreOrder Rd} : PreOrder (on_db Rd).
Proof.
  split.
  - intros w. unfold on_db. reflexivity.
  - intros a b c. unfold on_db. intros. by etrans.
Qed.

#[global] Instance unchanged_preorder : PreOrder unchanged.
Proof. split; [done|]. intros a b c. unfold unchanged. congruence. Qed.

Ltac run :=
  repeat (progress (unfold mbind, M_bind, mret, M_ret, throw, act; simpl)).
Ltac rbind := apply respects_bind; [apply _ | | intros ?].
Ltac rret := first [apply respects_ret | apply respects_throw]; apply _.
Ltac ruse lem := apply lem; try apply _.
Ltac rcase :=
  match goal with
  | |- respects _ (match ?x with _ => _ end) => destruct x
  end.

(** *** What each collaborator adds to the trace *)

Section TraceFacts.
Variable E : env.
Variable P : event → Prop.

Lemma emit_adds ev : P ev → respects (adds P) (emit ev).
Proof. intros H w. exists [ev]. simpl. split; [done|]. by constructor. Qed.

Lemma quiet_adds {A} (f : world → result A * world) :
  (∀ w, trace (f w).2 = trace w) → respects (adds P) (act f).
Proof. intros H w. exists []. unfold act. by rewrite H, app_nil_r. Qed.

Lemma Date_now_adds : respects (adds P) (Date_now E).
Proof. by apply (quiet_adds (Date_now E)). Qed.

Lemma fresh_uuid_adds : respects (adds P) (fresh_uuid E).
Proof. by apply (quiet_adds (fresh_uuid E)). Qed.

Lemma store_adds {A} q (perform : world → response A * world) :
  P (EvDb q) → (∀ w, trace (perform w).2 = trace w) →
  respects (adds P) (store E q perform).
Proof.
  intros HP Hp. apply respects_store; [apply _ | by apply emit_adds |].
  intros w. exists []. by rewrite Hp, app_nil_r.
Qed.

Lemma select_report_adds r u :
  P (EvDb (SelectReport r u)) → respects (adds P) (select_report E r u).
Proof. intros. by apply store_adds. Qed.

Lemma select_report_by_id_adds r :
  P (EvDb (SelectReportById r)) → respects (adds P) (select_report_by_id E r).
Proof. intros. by apply store_adds. Qed.

Lemma update_report_adds r u upd :
  P (EvDb (UpdateReport r u upd)) → respects (adds P) (update_report E r u upd).
Proof. intros. by apply store_adds. Qed.

Lemma delete_report_adds r u :
  P (EvDb (DeleteReport r u)) → respects (adds P) (delete_report E r u).
Proof. intros. by apply store_adds. Qed.

Lemma select_observations_adds r :
  P (EvDb (SelectObservations r)) → respects (adds P) (select_observations E r).
Proof. intros. by apply store_adds. Qed.

Lemma update_observation_adds o r p :
  P (EvDb (UpdateObservation o r p)) → respects (adds P) (update_observation E o r p).
Proof. intros. by apply store_adds. Qed.

Lemma insert_observations_adds rows :
  P (EvDb (InsertObservations rows)) → respects (adds P) (insert_observations E rows).
Proof. intros. by apply store_adds. Qed.

Lemma delete_observation_adds o r :
  P (EvDb (DeleteObservation o r)) → respects (adds P) (delete_observation E o r).
Proof. intros. by apply store_adds. Qed.

Lemma readFileSync_adds p : P (EvReadFile p) → respects (adds P) (readFileSync E p).
Proof.
  intros. unfold readFileSync. rbind; [by apply emit_adds|].
  destruct (read_file E p); rret.
Qed.

Lemma storage_upload_adds p : P (EvUpload p) → respects (adds P) (storage_upload E p).
Proof.
  intros. unfold storage_upload. rbind; [by apply emit_adds|].
  apply quiet_adds. intros w. by destruct (upload_refused E p).
Qed.

Lemma storage_remove_adds p : P (EvRemove [p]) → respects (adds P) (storage_remove E p).
Proof.
  intros. unfold storage_remove. rbind; [by apply emit_adds|].
  apply quiet_adds. intros w. by destruct (remove_answer E p).
Qed.

Lemma uploadImageFromPath_adds filePath userId :
  (∀ p, P (EvReadFile p)) → (∀ p, P (EvUpload p)) →
  respects (adds P) (ImageUtils.uploadImageFromPath E filePath userId).
Proof.
  intros Hr Hu. unfold ImageUtils.uploadImageFromPath.
  apply respects_try_catch; [apply _ | | intros; rret].
  rbind; [by apply readFileSync_adds|].
  rbind; [apply fresh_uuid_adds|].
  rbind; [by apply storage_upload_adds|].
  destruct a1; rret.
Qed.

Lemma uploadImage_adds fileName userId :
  (∀ p, P (EvUpload p)) →
  respects (adds P) (ReportController.uploadImage E fileName userId).
Proof.
  intros Hu. unfold ReportController.uploadImage.
  apply respects_try_catch; [apply _ | | intros; rret].
  rbind; [apply fresh_uuid_adds|].
  rbind; [by apply storage_upload_adds|].
  destruct a0; rret.
Qed.

Lemma upload_file_of_adds file userId :
  (∀ p, P (EvReadFile p)) → (∀ p, P (EvUpload p)) →
  respects (adds P) (ReportController.upload_file_of E file userId).
Proof.
  intros Hr Hu. unfold ReportController.upload_file_of.
  rbind; [by apply readFileSync_adds|].
  rbind; [by apply uploadImage_adds|]. rret.
Qed.

Lemma deleteImage_adds url :
  (∀ pathname, url_pathname E (to_string url) = Some pathname →
               P (EvRemove [ImageUtils.storage_path pathname])) →
  respects (adds P) (ImageUtils.deleteImage E url).
Proof.
  intros H. unfold ImageUtils.deleteImage.
  apply respects_try_catch; [apply _ | | intros; rret].
  destruct (negb (truthy url)); [rret|].
  destruct (url_pathname E (to_string url)) as [pathname|]; [|rret].
  rbind; [apply storage_remove_adds; by apply H|].
  destruct a; rret.
Qed.

Lemma temp_key_adds obs : respects (adds P) (temp_key E obs).
Proof.
  unfold temp_key. destruct (truthy (tempId obs)); [rret|].
  rbind; [apply Date_now_adds|]. rret.
Qed.

Lemma find_new_image_adds obs files : respects (adds P) (find_new_image E obs files).
Proof.
  induction files as [|f files IH]; simpl; [rret|].
  rbind; [apply temp_key_adds|].
  destruct (bool_decide _); [rret | apply IH].
Qed.
End TraceFacts.

(** *** What each collaborator does to the tables *)

Section TableFacts.
Variable E : env.
Context (Rd : relation tables) `{!PreOrder Rd}.

Lemma emit_on_db ev : respects (on_db Rd) (emit ev).
Proof. intros w. unfold on_db. simpl. reflexivity. Qed.

Lemma quiet_on_db {A} (f : world → result A * world) :
  (∀ w, db (f w).2 = db w) → respects (on_db Rd) (act f).
Proof. intros H w. unfold on_db, act. rewrite H. reflexivity. Qed.

Lemma Date_now_on_db : respects (on_db Rd) (Date_now E).
Proof. by apply (quiet_on_db (Date_now E)). Qed.

Lemma fresh_uuid_on_db : respects (on_db Rd) (fresh_uuid E).
Proof. by apply (quiet_on_db (fresh_uuid E)). Qed.

Lemma store_on_db {A} q (perform : world → response A * world) :
  (∀ w, Rd (db w) (db (perform w).2)) → respects (on_db Rd) (store E q perform).
Proof.
  intros Hp. apply respects_store; [apply _ | apply emit_on_db | apply Hp].
Qed.

Lemma select_company_on_db c u : respects (on_db Rd) (select_company E c u).
Proof. apply store_on_db. intros w. simpl. reflexivity. Qed.


Lemma select_observations_on_db r : respects (on_db Rd) (select_observations E r).
Proof. apply store_on_db. intros w. simpl. reflexivity. Qed.

Lemma readFileSync_on_db p : respects (on_db Rd) (readFileSync E p).
Proof.
  unfold readFileSync. rbind; [apply emit_on_db|].
  destruct (read_file E p); rret.
Qed.

Lemma storage_upload_on_db p : respects (on_db Rd) (storage_upload E p).
Proof.
  unfold storage_upload. rbind; [apply emit_on_db|].
  apply quiet_on_db. intros w. by destruct (upload_refused E p).
Qed.

Lemma storage_remove_on_db p : respects (on_db Rd) (storage_remove E p).
Proof.
  unfold storage_remove. rbind; [apply emit_on_db|].
  apply quiet_on_db. intros w. by destruct (remove_answer E p).
Qed.

Lemma uploadImageFromPath_on_db filePath userId :
  respects (on_db Rd) (ImageUtils.uploadImageFromPath E filePath userId).
Proof.
  unfold ImageUtils.uploadImageFromPath.
  apply respects_try_catch; [apply _ | | intros; rret].
  rbind; [apply readFileSync_on_db|].
  rbind; [apply fresh_uuid_on_db|].
  rbind; [apply storage_upload_on_db|].
  destruct a1; rret.
Qed.

Lemma upload_file_of_on_db file userId :
  respects (on_db Rd) (ReportController.upload_file_of E file userId).
Proof.
  unfold ReportController.upload_file_of, ReportController.uploadImage.
  rbind; [apply readFileSync_on_db|].
  rbind; [|rret].
  apply respects_try_catch; [apply _ | | intros; rret].
  rbind; [apply fresh_uuid_on_db|].
  rbind; [apply storage_upload_on_db|].
  destruct a1; rret.
Qed.

Lemma deleteImage_on_db url : respects (on_db Rd) (ImageUtils.deleteImage E url).
Proof.
  unfold ImageUtils.deleteImage.
  apply respects_try_catch; [apply _ | | intros; rret].
  destruct (negb (truthy url)); [rret|].
  destruct (url_pathname E (to_string url)) as [pathname|]; [|rret].
  rbind; [apply storage_remove_on_db|].
  destruct a; rret.
Qed.

Lemma find_new_image_on_db obs files : respects (on_db Rd) (find_new_image E obs files).
Proof.
  induction files as [|f files IH]; simpl; [rret|].
  rbind.
  - unfold temp_key. destruct (truthy (tempId obs)); [rret|].
    rbind; [apply Date_now_on_db|]. rret.
  - destruct (bool_decide _); [rret | apply IH].
Qed.

Lemma update_observation_on_db o r p :
  ignores_observations Rd → respects (on_db Rd) (update_observation E o r p).
Proof. intros H. apply store_on_db. intros w. apply H. Qed.

Lemma insert_observations_on_db rows :
  ignores_observations Rd → respects (on_db Rd) (insert_observations E rows).
Proof. intros H. apply store_on_db. intros w. apply H. Qed.

End TableFacts.

(** *** Lists *)

Lemma filter_none {A} (P : A → Prop) `{!∀ x, Decision (P x)} (l : list A) :
  (∀ x, x ∈ l → ¬ P x) → filter P l = [].
Proof.
  induction l as [|x l IH]; intros Hn; [done|].
  rewrite filter_cons_False by (apply Hn; left). apply IH.
  intros y Hy. apply Hn. by right.
Qed.

(** *** Running a store request *)

Lemma store_run {A} E q (perform : world → response A * world) (w : world) :
  store E q perform w =
  let w1 := (emit (EvDb q) w).2 in
  match db_refuses E (db w) q with
  | Some msg => (Ok (Failure msg), w1)
  | None => let '(r, w') := perform w1 in (Ok r, w')
  end.
Proof. reflexivity. Qed.

Lemma for_of_total {A} (l : list A) (f : A → M world unit) :
  (∀ x w, ∃ w', f x w = (Ok tt, w')) → ∀ w, ∃ w', for_of l f w = (Ok tt, w').
Proof.
  intros Hf. induction l as [|x l IH]; intros w; simpl.
  - by exists w.
  - rewrite run_bind. destruct (Hf x w) as (w1 & ->). apply IH.
Qed.

(** [deleteImage] returns whatever the storage does. *)
Lemma deleteImage_returns E url w :
  ∃ b w', ImageUtils.deleteImage E url w = (Ok b, w').
Proof.
  unfold ImageUtils.deleteImage, try_catch.
  destruct (truthy url); simpl; [|eauto].
  destruct (url_pathname E (to_string url)) as [pathname|]; simpl; [|eauto].
  unfold storage_remove. rewrite !run_bind. simpl.
  destruct (remove_answer E _); simpl; eauto.
Qed.

(** ** Deleting a report *)

(** The deletion of an observation found in the index is requested after
    the cleanup of its image, whatever the cleanup did. *)
Lemma deletion_requests_delete E reportId
    (existingObsMap : gmap string observation_row) obsId existing w0 :
  js_get existingObsMap (to_string obsId) = Some existing →
  ∃ w1 evs,
    ReportService.process_deletion E reportId existingObsMap obsId w0 = (Ok tt, w1)
    ∧ trace w1 = trace w0 ++ evs
                 ++ [EvDb (DeleteObservation (to_string obsId) reportId)].
Proof.
  intros Hm. unfold ReportService.process_deletion. rewrite Hm.
  rewrite run_bind.
  assert (∃ w1 evs,
    (if truthy (ob_image_url existing)
     then ImageUtils.deleteImage E (ob_image_url existing);; mret tt
     else mret tt) w0 = (Ok tt, w1) ∧ trace w1 = trace w0 ++ evs)
    as (w1 & evs & -> & Htr).
  { destruct (truthy (ob_image_url existing)).
    - rewrite run_bind.
      destruct (deleteImage_returns E (ob_image_url existing) w0) as (b & w1 & H).
      pose proof (deleteImage_adds E (λ _, True) (ob_image_url existing)
                    (λ _ _, I) w0) as (evs & Hevs & _).
      rewrite H in *. simpl in *. exists w1, evs. done.
    - exists w0, []. by rewrite app_nil_r. }
  rewrite run_bind. unfold delete_observation. rewrite store_run. simpl.
  destruct (db_refuses E (db w1) _); simpl;
    eexists _, evs; (split; [reflexivity|]); simpl; by rewrite Htr, app_assoc.
Qed.

(** ** Creating a report *)

#[global] Instance same_reports_preorder : PreOrder same_reports.
Proof. split; [done|]. intros a b c. unfold same_reports. congruence. Qed.

Lemma same_reports_ignores_observations : ignores_observations same_reports.
Proof. by intros t l. Qed.

Section CreateReport.
Variable E : env.
Variables (reportData : report_data) (files : option (list upload_file)).
Variable userId : string.

Lemma controller_items_keep_reports reportId l :
  respects (on_db same_reports)
    (map_all l (ReportController.observationItem E files reportId userId)).
Proof.
  apply respects_map_all; [apply _|]. intros [index obs] _.
  unfold ReportController.observationItem. rbind; [|rret].
  destruct (files_list files !! index); [|rret].
  ruse upload_file_of_on_db.
Qed.

Lemma insert_items_keep_reports (items : list new_observation) :
  respects (on_db same_reports)
    (match items with
     | [] => mret tt
     | _ :: _ =>
         i ← insert_observations E items;
         match i with
         | Failure msg => throw (ApiError 400 msg)
         | Answer _ => mret tt
         end
     end).
Proof.
  destruct items; [rret|].
  rbind; [ruse insert_observations_on_db|].
  - apply same_reports_ignores_observations.
  - destruct a; rret.
Qed.

Lemma insert_report_appends r w row w' :
  insert_report E r w = (Ok (Answer row), w') →
  tbl_reports (db w') = tbl_reports (db w) ++ [row] ∧ rp_fields row = r.
Proof.
  unfold insert_report. rewrite store_run. simpl.
  destruct (db_refuses E (db w) _); intros Hrun; simplify_eq.
  simpl. done.
Qed.

Lemma parse_body_observations_pure o w l w' :
  ReportController.parse_body_observations E o w = (Ok l, w') → w' = w.
Proof.
  unfold ReportController.parse_body_observations.
  destruct (body_entries E o); rewrite ?run_ret, ?run_throw;
    intros; by simplify_eq.
Qed.

Lemma controller_createReport_persists w row items w' :
  ReportController.createReport E userId reportData files w = (Ok (row, items), w') →
  tbl_reports (db w') = tbl_reports (db w) ++ [row]
  ∧ rp_fields row = newReport reportData userId.
Proof.
  unfold ReportController.createReport. intros H.
  apply bind_Ok in H as (parsed & w0 & Hp & H).
  apply parse_body_observations_pure in Hp as ->.
  destruct (_ || _); [discriminate|].
  apply bind_Ok in H as (c & w1 & Hc & H).
  pose proof (select_company_on_db E unchanged
                (to_string (companyId reportData)) userId w) as Hdb1.
  rewrite Hc in Hdb1. unfold on_db, unchanged in Hdb1. simpl in Hdb1.
  destruct c as [c|]; [|discriminate].
  apply bind_Ok in H as (r & w2 & Hr & H).
  destruct r as [row0|]; [|discriminate].
  apply insert_report_appends in Hr as [Hrows Hrow].
  apply bind_Ok in H as (items0 & w4 & Hi & H).
  pose proof (controller_items_keep_reports (rp_id row0)
                (zip (seq 0 (length parsed)) parsed) w2) as H4.
  rewrite Hi in H4.
  apply bind_Ok in H as ([] & w5 & Hins & H).
  pose proof (insert_items_keep_reports items0 w4) as H5. rewrite Hins in H5.
  rewrite run_ret in H. simplify_eq.
  unfold on_db, same_reports in *. simpl in *.
  split; [congruence | done].
Qed.
End CreateReport.

(** ** The observation loop of an update call *)

Section EntryFacts.
Variable E : env.
Variables (reportId userId : string) (files : option (list upload_file)).

Lemma store_total {A} q (perform : world → response A * world) w :
  ∃ r w', store E q perform w = (Ok r, w').
Proof.
  rewrite store_run. simpl. destruct (db_refuses E (db w) q); [by eexists _, _|].
  destruct (perform _). by eexists _, _.
Qed.

Lemma uploadImageFromPath_total filePath w :
  storage_reliable E →
  ∃ url w', ImageUtils.uploadImageFromPath E filePath userId w = (Ok url, w').
Proof.
  intros [Hread Hup]. unfold ImageUtils.uploadImageFromPath.
  rewrite try_catch_rethrow. unfold readFileSync, storage_upload.
  run. rewrite Hread. run. rewrite Hup. by eexists _, _.
Qed.

Lemma upload_file_of_total file w :
  storage_reliable E →
  ∃ img w', ReportController.upload_file_of E file userId w = (Ok img, w').
Proof.
  intros [Hread Hup]. unfold ReportController.upload_file_of, readFileSync.
  run. rewrite Hread. run.
  unfold ReportController.uploadImage. rewrite try_catch_rethrow.
  unfold storage_upload. run. rewrite Hup. by eexists _, _.
Qed.

Lemma find_new_image_total obs l w :
  ∃ found w', find_new_image E obs l w = (Ok found, w').
Proof.
  revert w. induction l as [|f l IH]; intros w; simpl; [by eexists _, _|].
  rewrite run_bind. unfold temp_key.
  destruct (truthy (tempId obs)); simpl.
  - destruct (bool_decide _); [by eexists _, _ | apply IH].
  - destruct (bool_decide _); [by eexists _, _ | apply IH].
Qed.

(** With a [tempId] the clock is not read: the file found is the first one
    whose field name is [image_new_<tempId>]. *)
Lemma find_new_image_keyed obs l w :
  truthy (tempId obs) = true →
  find_new_image E obs l w
  = (Ok (find_field ("image_new_" +:+ to_string (tempId obs)) l), w).
Proof.
  intros Ht. induction l as [|f l IH]; simpl; [done|].
  rewrite run_bind. unfold temp_key. rewrite Ht. simpl.
  destruct (bool_decide _); [done | apply IH].
Qed.

Lemma service_new_image_adds obs :
  respects (adds upload_event) (ReportService.new_image E userId files obs).
Proof.
  unfold ReportService.new_image. destruct (has_files files); [|rret].
  rbind; [apply find_new_image_adds|].
  destruct a as [file|]; [|rret].
  rbind; [by apply uploadImageFromPath_adds | rret].
Qed.

Lemma service_new_image_on_db Rd `{!PreOrder Rd} obs :
  respects (on_db Rd) (ReportService.new_image E userId files obs).
Proof.
  unfold ReportService.new_image. destruct (has_files files); [|rret].
  rbind; [ruse find_new_image_on_db|].
  destruct a as [file|]; [|rret].
  rbind; [ruse uploadImageFromPath_on_db | rret].
Qed.

Lemma service_new_image_total obs w :
  storage_reliable E →
  ∃ img w', ReportService.new_image E userId files obs w = (Ok img, w').
Proof.
  intros Hrel. unfold ReportService.new_image.
  destruct (has_files files); [|by eexists _, _].
  rewrite run_bind.
  destruct (find_new_image_total obs (files_list files) w) as (found & w1 & ->).
  destruct found as [file|]; [|by eexists _, _].
  rewrite run_bind.
  destruct (uploadImageFromPath_total (file_path file) w1 Hrel) as (url & w2 & ->).
  by eexists _, _.
Qed.

Lemma service_existing_image_adds existing obs :
  respects (adds upload_event)
    (ReportService.existing_image E userId files existing obs).
Proof.
  unfold ReportService.existing_image. destruct (_ && _); [|rret].
  destruct (find_field _ _) as [file|]; [|rret].
  rbind; [by apply uploadImageFromPath_adds | rret].
Qed.

Lemma service_existing_image_on_db Rd `{!PreOrder Rd} existing obs :
  respects (on_db Rd) (ReportService.existing_image E userId files existing obs).
Proof.
  unfold ReportService.existing_image. destruct (_ && _); [|rret].
  destruct (find_field _ _) as [file|]; [|rret].
  rbind; [ruse uploadImageFromPath_on_db | rret].
Qed.

Lemma service_existing_image_total existing obs w :
  storage_reliable E →
  ∃ img w', ReportService.existing_image E userId files existing obs w = (Ok img, w').
Proof.
  intros Hrel. unfold ReportService.existing_image.
  destruct (_ && _); [|by eexists _, _].
  destruct (find_field _ _) as [file|]; [|by eexists _, _].
  rewrite run_bind.
  destruct (uploadImageFromPath_total (file_path file) w Hrel) as (url & w2 & ->).
  by eexists _, _.
Qed.

Lemma controller_new_image_adds obs :
  respects (adds upload_event) (ReportController.new_image E userId files obs).
Proof.
  unfold ReportController.new_image. destruct (has_files files); [|rret].
  rbind; [apply find_new_image_adds|].
  destruct a as [file|]; [|rret].
  by apply upload_file_of_adds.
Qed.

Lemma controller_new_image_total obs w :
  storage_reliable E →
  ∃ img w', ReportController.new_image E userId files obs w = (Ok img, w').
Proof.
  intros Hrel. unfold ReportController.new_image.
  destruct (has_files files); [|by eexists _, _].
  rewrite run_bind.
  destruct (find_new_image_total obs (files_list files) w) as (found & w1 & ->).
  destruct found as [file|]; [|by eexists _, _].
  by apply upload_file_of_total.
Qed.

Lemma controller_existing_image_adds obs :
  respects (adds upload_event) (ReportController.existing_image E userId files obs).
Proof.
  unfold ReportController.existing_image. destruct (_ && _); [|rret].
  destruct (find_field _ _) as [file|]; [|rret].
  by apply upload_file_of_adds.
Qed.

Lemma controller_existing_image_total obs w :
  storage_reliable E →
  ∃ img w', ReportController.existing_image E userId files obs w = (Ok img, w').
Proof.
  intros Hrel. unfold ReportController.existing_image.
  destruct (_ && _); [|by eexists _, _].
  destruct (find_field _ _) as [file|]; [|by eexists _, _].
  by apply upload_file_of_total.
Qed.

(** One pass of the service's loop never throws when the storage serves
    the uploads, whatever the entry and whatever the store answers. *)
Lemma service_process_observation_total existingObsMap obs w :
  storage_reliable E →
  ∃ w', ReportService.process_observation E reportId userId files existingObsMap obs w
        = (Ok tt, w').
Proof.
  intros Hrel. unfold ReportService.process_observation.
  destruct (found_of existingObsMap obs) as [existing|].
  - unfold ReportService.update_existing. rewrite run_bind.
    destruct (service_existing_image_total existing obs w Hrel) as (img & w1 & ->).
    rewrite run_bind. unfold update_observation.
    destruct (store_total (A := unit) (UpdateObservation (to_string (entry_id obs))
                reportId (ReportService.patch_for existing obs img))
                (λ w0, (Answer tt, set_db (set_observations
                   (patch_row (to_string (entry_id obs)) reportId
                      (ReportService.patch_for existing obs img)
                    <$> tbl_observations (db w0)) (db w0)) w0)) w1) as (r & w2 & ->).
    by eexists.
  - unfold ReportService.insert_new. rewrite run_bind.
    destruct (service_new_image_total obs w Hrel) as (img & w1 & ->).
    rewrite run_bind. unfold insert_observations.
    match goal with
    | |- context [store E ?q ?f w1] =>
        destruct (store_total q f w1) as (r & w2 & ->)
    end.
    by eexists.
Qed.
End EntryFacts.

Lemma respects_adds_mono {A} (P Q : event → Prop) (m : M world A) :
  (∀ ev, P ev → Q ev) → respects (adds P) m → respects (adds Q) m.
Proof. intros HPQ H w. eapply adds_mono; [exact HPQ | apply H]. Qed.

Lemma map_all_total {A B} (l : list A) (f : A → M world B) :
  (∀ x w, ∃ y w', f x w = (Ok y, w')) → ∀ w, ∃ ys w', map_all l f w = (Ok ys, w').
Proof.
  intros Hf. induction l as [|x l IH]; intros w; simpl.
  - by eexists _, _.
  - rewrite run_bind. destruct (Hf x w) as (y & w1 & ->).
    rewrite run_bind. destruct (IH w1) as (ys & w2 & ->). by eexists _, _.
Qed.

Lemma find_field_has_files name files file :
  find_field name (files_list files) = Some file → has_files files = true.
Proof. by destruct files as [[|f l]|]. Qed.

Lemma upload_event_not_write ev : upload_event ev → obs_op_of ev = None.
Proof. by destruct ev as [[]| | |]. Qed.

(** What the insert of one row does when the service requests it. *)
Lemma insert_one_run E (n : new_observation) w :
  ∃ w', (insert_observations E [n];; mret tt) w = (Ok tt, w')
        ∧ trace w' = trace w ++ [EvDb (InsertObservations [n])]
        ∧ (db_refuses E (db w) (InsertObservations [n]) = None →
           tbl_observations (db w')
           = tbl_observations (db w) ++ [new_row E (issued w) 0 n]).
Proof.
  rewrite run_bind. unfold insert_observations. rewrite store_run. simpl.
  destruct (db_refuses E (db w) _); simpl; eexists; (split; [reflexivity|]);
    split; try done.
Qed.

(** What the update of one observation does when the service requests it. *)
Lemma update_one_run E obsId reportId p w :
  ∃ w', (update_observation E obsId reportId p;; mret tt) w = (Ok tt, w')
        ∧ trace w' = trace w ++ [EvDb (UpdateObservation obsId reportId p)]
        ∧ (db_refuses E (db w) (UpdateObservation obsId reportId p) = None →
           tbl_observations (db w')
           = patch_row obsId reportId p <$> tbl_observations (db w)).
Proof.
  rewrite run_bind. unfold update_observation. rewrite store_run. simpl.
  destruct (db_refuses E (db w) _); simpl; eexists; (split; [reflexivity|]);
    split; try done.
Qed.


(** ** The update call as a whole *)

#[global] Instance shrinks_preorder : PreOrder shrinks.
Proof.
  split; [by intros t x|]. intros a b c Hab Hbc x Hx. apply Hab, Hbc, Hx.
Qed.

#[global] Instance same_observations_preorder : PreOrder same_observations.
Proof. split; [done|]. intros a b c. unfold same_observations. congruence. Qed.

#[global] Instance same_owner_preorder report user : PreOrder (same_owner report user).
Proof. split; [done|]. intros a b c. unfold same_owner. congruence. Qed.

Lemma writes_refl w : writes [] w w.
Proof. exists []. by rewrite app_nil_r. Qed.

Lemma writes_trans o1 o2 w1 w2 w3 :
  writes o1 w1 w2 → writes o2 w2 w3 → writes (o1 ++ o2) w1 w3.
Proof.
  intros (e1 & H1 & F1) (e2 & H2 & F2). exists (e1 ++ e2).
  rewrite H2, H1, app_assoc. split; [done|].
  unfold obs_ops in *. by rewrite omap_app, F1, F2.
Qed.

Lemma obs_ops_quiet (P : event → Prop) evs :
  (∀ ev, P ev → obs_op_of ev = None) → Forall P evs → obs_ops evs = [].
Proof.
  intros HP F. unfold obs_ops. induction F as [|ev l Hev _ IH]; [done|].
  simpl. rewrite (HP _ Hev). exact IH.
Qed.

Lemma adds_writes_nil P w w' :
  (∀ ev, P ev → obs_op_of ev = None) → adds P w w' → writes [] w w'.
Proof.
  intros HP (evs & H & F). exists evs. split; [done|].
  by apply (obs_ops_quiet P).
Qed.

Lemma writes_added ops w w' : writes ops w w' → obs_ops (added w w') = ops.
Proof.
  intros (evs & H & F). unfold added. by rewrite H, drop_app_length.
Qed.


Section WholeCall.
Variable E : env.
Variables (reportId userId : string).

Lemma getReport_Ok w v w' :
  ReportService.getReport E reportId userId w = (Ok v, w') →
  view_observations v = observations_of reportId (db w)
  ∧ owned_reports reportId userId (db w) = [view_report v]
  ∧ db w' = db w
  ∧ trace w' = trace w ++ [EvDb (SelectReport reportId userId)].
Proof.
  unfold ReportService.getReport. rewrite run_bind.
  unfold select_report. rewrite store_run. simpl.
  destruct (db_refuses E (db w) _); [discriminate|]. simpl.
  destruct (owned_reports reportId userId (db w)) as [|r [|r' l]] eqn:Hown;
    simpl; try discriminate.
  intros H. rewrite run_ret in H. simplify_eq.
  assert (rp_id r = reportId) as Hid.
  { assert (r ∈ owned_reports reportId userId (db w)) as Hr
      by (rewrite Hown; by left).
    unfold owned_reports in Hr. apply list_elem_of_filter in Hr. tauto. }
  unfold with_observations. simpl. by rewrite Hid.
Qed.

Lemma getReport_total w r :
  db_refuses E (db w) (SelectReport reportId userId) = None →
  owned_reports reportId userId (db w) = [r] →
  ∃ v w', ReportService.getReport E reportId userId w = (Ok v, w').
Proof.
  intros Hacc Hown. unfold ReportService.getReport. rewrite run_bind.
  unfold select_report. rewrite store_run. simpl. rewrite Hacc, Hown. simpl.
  by eexists _, _.
Qed.

Lemma select_observations_run w :
  ∃ r w', select_observations E reportId w = (Ok r, w')
          ∧ db w' = db w
          ∧ trace w' = trace w ++ [EvDb (SelectObservations reportId)]
          ∧ (db_refuses E (db w) (SelectObservations reportId) = None →
             r = Answer (observations_of reportId (db w)))
          ∧ (∀ rows, r = Answer rows → rows = observations_of reportId (db w)).
Proof.
  unfold select_observations. rewrite store_run. simpl.
  destruct (db_refuses E (db w) _); simpl; eexists _, _;
    (split; [reflexivity|]); repeat split; try done.
  intros rows H. by simplify_eq.
Qed.

Lemma update_row_owned u x :
  (rp_id (update_row reportId userId u x) = reportId
   ∧ rp_user_id (rp_fields (update_row reportId userId u x)) = userId)
  ↔ (rp_id x = reportId ∧ rp_user_id (rp_fields x) = userId).
Proof. unfold update_row. by destruct (decide _). Qed.

Lemma owned_after_update u (rows : list report_row) :
  filter (λ r, rp_id r = reportId ∧ rp_user_id (rp_fields r) = userId)
         (update_row reportId userId u <$> rows)
  = update_row reportId userId u
    <$> filter (λ r, rp_id r = reportId ∧ rp_user_id (rp_fields r) = userId) rows.
Proof.
  induction rows as [|x rows IH]; [done|].
  rewrite fmap_cons, !filter_cons, IH.
  pose proof (update_row_owned u x) as Hx.
  repeat case_decide; tauto.
Qed.

Lemma update_fields_on_db Rd `{!PreOrder Rd} reportData :
  (∀ t l, Rd t (set_reports l t)) →
  respects (on_db Rd) (ReportService.update_fields E reportId userId reportData).
Proof.
  intros HRd. unfold ReportService.update_fields. destruct (has_keys _); [|rret].
  rbind; [|destruct a; rret].
  unfold update_report. ruse store_on_db. intros w. apply HRd.
Qed.

Lemma update_fields_same_owner reportData :
  respects (on_db (same_owner reportId userId)) (ReportService.update_fields E reportId userId reportData).
Proof.
  unfold ReportService.update_fields. destruct (has_keys _); [|rret].
  rbind; [|destruct a; rret].
  unfold update_report. ruse store_on_db. intros w. simpl.
  unfold same_owner, owned_reports. simpl.
  by rewrite owned_after_update, length_fmap.
Qed.

Lemma update_fields_adds reportData :
  respects (adds (λ ev, ∃ u, ev = EvDb (UpdateReport reportId userId u)))
    (ReportService.update_fields E reportId userId reportData).
Proof.
  unfold ReportService.update_fields. destruct (has_keys _); [|rret].
  rbind; [|destruct a; rret]. apply update_report_adds. by eexists.
Qed.

Lemma update_fields_total reportData w :
  store_accepts E → ∃ w', ReportService.update_fields E reportId userId reportData w = (Ok tt, w').
Proof.
  intros Hacc. unfold ReportService.update_fields. destruct (has_keys _); [|by eexists].
  rewrite run_bind. unfold update_report. rewrite store_run. simpl.
  rewrite Hacc. simpl. by eexists.
Qed.
End WholeCall.

Section ServiceLoops.
Variable E : env.
Variables (reportId userId : string) (files : option (list upload_file)).
Variable existingObsMap : gmap string observation_row.

Lemma service_step_adds (P : event → Prop) obs :
  (∀ ev, upload_event ev → P ev) →
  (∀ o r p, P (EvDb (UpdateObservation o r p))) →
  (∀ rows, P (EvDb (InsertObservations rows))) →
  respects (adds P)
    (ReportService.process_observation E reportId userId files existingObsMap obs).
Proof.
  intros Hup Hu Hi. unfold ReportService.process_observation.
  destruct (found_of existingObsMap obs) as [existing|].
  - unfold ReportService.update_existing. rbind.
    + eapply respects_adds_mono; [exact Hup | apply service_existing_image_adds].
    + rbind; [by apply update_observation_adds | rret].
  - unfold ReportService.insert_new. rbind.
    + eapply respects_adds_mono; [exact Hup | apply service_new_image_adds].
    + rbind; [by apply insert_observations_adds | rret].
Qed.

Lemma service_step_on_db Rd `{!PreOrder Rd} obs :
  ignores_observations Rd →
  respects (on_db Rd)
    (ReportService.process_observation E reportId userId files existingObsMap obs).
Proof.
  intros HRd. unfold ReportService.process_observation.
  destruct (found_of existingObsMap obs) as [existing|].
  - unfold ReportService.update_existing. rbind.
    + ruse service_existing_image_on_db.
    + rbind; [ruse update_observation_on_db; exact HRd | rret].
  - unfold ReportService.insert_new. rbind.
    + ruse service_new_image_on_db.
    + rbind; [ruse insert_observations_on_db; exact HRd | rret].
Qed.

Lemma deletion_total obsId w :
  ∃ w', ReportService.process_deletion E reportId existingObsMap obsId w = (Ok tt, w').
Proof.
  unfold ReportService.process_deletion.
  destruct (js_get existingObsMap (to_string obsId)) as [existing|]; [|by eexists].
  rewrite run_bind.
  assert (∃ w1, (if truthy (ob_image_url existing)
                 then ImageUtils.deleteImage E (ob_image_url existing);; mret tt
                 else mret tt) w = (Ok tt, w1)) as (w1 & ->).
  { destruct (truthy (ob_image_url existing)); [|by eexists].
    rewrite run_bind.
    destruct (deleteImage_returns E (ob_image_url existing) w) as (b & w1 & ->).
    by eexists. }
  rewrite run_bind. unfold delete_observation.
  match goal with
  | |- context [store E ?q ?f w1] => destruct (store_total E q f w1) as (r & w2 & ->)
  end.
  by eexists.
Qed.

Lemma deletion_adds (P : event → Prop) obsId :
  (∀ existing pathname,
     js_get existingObsMap (to_string obsId) = Some existing →
     truthy (ob_image_url existing) = true →
     url_pathname E (to_string (ob_image_url existing)) = Some pathname →
     P (EvRemove [ImageUtils.storage_path pathname])) →
  P (EvDb (DeleteObservation (to_string obsId) reportId)) →
  respects (adds P) (ReportService.process_deletion E reportId existingObsMap obsId).
Proof.
  intros Hrem Hdel. unfold ReportService.process_deletion.
  destruct (js_get existingObsMap (to_string obsId)) as [existing|] eqn:Hm; [|rret].
  rbind.
  - destruct (truthy (ob_image_url existing)) eqn:Ht; [|rret].
    rbind; [|rret]. apply deleteImage_adds. intros pathname Hp. by eapply Hrem.
  - rbind; [by apply delete_observation_adds | rret].
Qed.

Lemma deletion_on_db Rd `{!PreOrder Rd} obsId :
  (∀ t o r, Rd t (set_observations
                    (filter (λ x, ¬ (ob_id x = o ∧ ob_report_id x = r))
                            (tbl_observations t)) t)) →
  respects (on_db Rd) (ReportService.process_deletion E reportId existingObsMap obsId).
Proof.
  intros HRd. unfold ReportService.process_deletion.
  destruct (js_get existingObsMap (to_string obsId)) as [existing|]; [|rret].
  rbind.
  - destruct (truthy (ob_image_url existing)); [|rret].
    rbind; [ruse deleteImage_on_db | rret].
  - rbind; [|rret]. unfold delete_observation. ruse store_on_db.
    intros w. apply HRd.
Qed.

(** After the loop over the deletion ids, an id found in the index is the
    id of no observation of the report, provided the store accepted its
    deletion. *)
Lemma deletion_loop_removes ids d w w' :
  for_of ids (ReportService.process_deletion E reportId existingObsMap) w = (Ok tt, w') →
  d ∈ ids →
  is_Some (js_get existingObsMap (to_string d)) →
  (∀ t, db_refuses E t (DeleteObservation (to_string d) reportId) = None) →
  ∀ row, row ∈ tbl_observations (db w') →
         ¬ (ob_id row = to_string d ∧ ob_report_id row = reportId).
Proof.
  intros Hloop Hin [existing Hm] Hacc. revert w Hloop.
  induction ids as [|d0 ids IH]; intros w Hloop; [by apply elem_of_nil in Hin|].
  apply for_of_cons_Ok in Hloop as (w1 & Hstep & Hrest).
  assert (respects (on_db shrinks)
            (for_of ids (ReportService.process_deletion E reportId existingObsMap)))
    as Hshrink.
  { apply respects_for_of; [apply _|]. intros x _. ruse deletion_on_db.
    intros t o r x0 Hx. simpl in Hx. apply list_elem_of_filter in Hx. tauto. }
  apply elem_of_cons in Hin as [->|Hin]; [|by apply (IH Hin w1)].
  intros row Hrow. specialize (Hshrink w1). rewrite Hrest in Hshrink.
  apply Hshrink in Hrow. clear IH Hrest Hshrink.
  unfold ReportService.process_deletion in Hstep. rewrite Hm in Hstep.
  apply bind_Ok in Hstep as ([] & w2 & _ & Hstep).
  rewrite run_bind in Hstep. unfold delete_observation in Hstep.
  rewrite store_run in Hstep. simpl in Hstep. rewrite Hacc in Hstep.
  simpl in Hstep. rewrite run_ret in Hstep. simplify_eq. simpl in Hrow.
  apply list_elem_of_filter in Hrow. tauto.
Qed.
End ServiceLoops.

Section ServiceCall.
Variable E : env.
Variables (reportId userId : string).
Variables (reportData : report_data) (files : option (list upload_file)).

Lemma updateReport_Ok w view w' :
  ReportService.updateReport E reportId reportData files userId w = (Ok view, w') →
  ∃ v0 w1 w2 w3,
    ReportService.getReport E reportId userId w = (Ok v0, w1)
    ∧ ReportService.update_fields E reportId userId reportData w1 = (Ok tt, w2)
    ∧ (if ReportService.observations_provided (observations reportData)
       then ReportService.process_observations E reportId userId reportData files
       else mret tt) w2 = (Ok tt, w3)
    ∧ ReportService.getReport E reportId userId w3 = (Ok view, w').
Proof.
  unfold ReportService.updateReport. intros H.
  apply bind_Ok in H as (v0 & w1 & H0 & H).
  apply bind_Ok in H as ([] & w2 & H1 & H).
  apply bind_Ok in H as ([] & w3 & H2 & H).
  by exists v0, w1, w2, w3.
Qed.

(** The block on the observations, once it has returned: the index of the
    existing observations is built from the rows of the report, then the
    entries are gone through, then the deletion ids. *)
Lemma observations_block_Ok w2 w3 :
  (∀ t, db_refuses E t (SelectObservations reportId) = None) →
  (if ReportService.observations_provided (observations reportData)
   then ReportService.process_observations E reportId userId reportData files
   else mret tt) w2 = (Ok tt, w3) →
  ∃ wa wb,
    db wa = db w2
    ∧ adds (λ ev, ev = EvDb (SelectObservations reportId)) w2 wa
    ∧ for_of (effective_entries E reportData)
        (ReportService.process_observation E reportId userId files
           (index_by_id (observations_of reportId (db w2)))) wa = (Ok tt, wb)
    ∧ for_of (effective_deletions E reportData)
        (ReportService.process_deletion E reportId
           (index_by_id (observations_of reportId (db w2)))) wb = (Ok tt, w3).
Proof.
  intros Hsel. unfold effective_entries, effective_deletions.
  destruct (ReportService.observations_provided (observations reportData)); simpl.
  2:{ rewrite run_ret. intros H. simplify_eq. exists w3, w3.
      split; [done|]. split; [reflexivity|]. done. }
  unfold ReportService.process_observations. intros H.
  apply bind_Ok in H as (entries & w0 & Hp & H).
  unfold ReportService.parsedObservations in Hp.
  destruct (parse_entries E (observations reportData)) as [l|]; [|discriminate].
  rewrite run_ret in Hp. simplify_eq. simpl.
  apply bind_Ok in H as (r & wa & Hr & H).
  destruct (select_observations_run E reportId w0) as (r' & wa' & Hrun & Hdb & Htr & Hans & _).
  rewrite Hrun in Hr. simplify_eq. rewrite (Hans (Hsel _)) in H. simpl in H.
  apply bind_Ok in H as ([] & wb & Hloop & H).
  exists wa, wb. split; [done|]. split.
  { exists [EvDb (SelectObservations reportId)]. split; [done|]. by constructor. }
  split; [done|].
  destruct (ReportService.deletions_specified (observationsToDelete reportData)).
  - apply bind_Ok in H as (ids & wc & Hids & H).
    unfold ReportService.parsedDeletions in Hids.
    destruct (parse_ids E (observationsToDelete reportData)) as [l'|]; [|discriminate].
    rewrite run_ret in Hids. by simplify_eq.
  - rewrite run_ret in H. by simplify_eq.
Qed.

(** The rows of the report are the same when the block on the observations
    starts as when the call started. *)
Lemma rows_at_block w v0 w1 w2 :
  ReportService.getReport E reportId userId w = (Ok v0, w1) →
  ReportService.update_fields E reportId userId reportData w1 = (Ok tt, w2) →
  observations_of reportId (db w2) = observations_of reportId (db w).
Proof.
  intros H0 H1. apply getReport_Ok in H0 as (_ & _ & Hdb & _).
  pose proof (update_fields_on_db E reportId userId same_observations reportData
                (λ _ _, eq_refl) w1) as Hobs.
  rewrite H1 in Hobs. unfold on_db, same_observations in Hobs. simpl in Hobs.
  unfold observations_of. by rewrite Hobs, Hdb.
Qed.
End ServiceCall.

(** An id that the deletion loop went through and found in the index is the
    id of no observation of the report returned. *)
Lemma updateReport_deleted E reportId userId reportData files w view w' d :
  ReportService.updateReport E reportId reportData files userId w = (Ok view, w') →
  d ∈ effective_deletions E reportData →
  is_Some (js_get (index_by_id (observations_of reportId (db w))) (to_string d)) →
  (∀ t, db_refuses E t (SelectObservations reportId) = None) →
  (∀ t, db_refuses E t (DeleteObservation (to_string d) reportId) = None) →
  ∀ row, row ∈ view_observations view → ob_id row ≠ to_string d.
Proof.
  intros H Hd Hm Hsel Hdel.
  apply updateReport_Ok in H as (v0 & w1 & w2 & w3 & H0 & H1 & H2 & H3).
  pose proof (rows_at_block _ _ _ _ _ _ _ _ H0 H1) as Hrows.
  apply (observations_block_Ok _ _ _ _ _ _ _ Hsel) in H2
    as (wa & wb & _ & _ & _ & Hdels).
  rewrite Hrows in Hdels.
  apply getReport_Ok in H3 as (Hview & _).
  intros row Hrow Heq. rewrite Hview in Hrow.
  apply list_elem_of_filter in Hrow as [Hrep Hrow].
  eapply (deletion_loop_removes _ _ _ _ _ _ _ Hdels Hd); eauto.
Qed.

Section ControllerCall.
Variable E : env.
Variables (reportId userId : string) (files : option (list upload_file)).

Lemma map_all_Ok {A B} (l : list A) (f : A → M world B) w ys w' :
  map_all l f w = (Ok ys, w') →
  Forall2 (λ x y, ∃ w1 w2, f x w1 = (Ok y, w2)) l ys.
Proof.
  revert w ys. induction l as [|x l IH]; intros w ys H; simpl in H.
  - rewrite run_ret in H. simplify_eq. constructor.
  - apply bind_Ok in H as (y & w1 & Hy & H).
    apply bind_Ok in H as (ys' & w2 & Hys & H).
    rewrite run_ret in H. simplify_eq. constructor; [by eexists _, _|].
    by eapply IH.
Qed.

Lemma controller_step_adds existingObsMap obs :
  respects (adds upload_event)
    (ReportController.process_observation E reportId userId files existingObsMap obs).
Proof.
  unfold ReportController.process_observation.
  destruct (found_of existingObsMap obs) as [existing|].
  - rbind; [apply controller_existing_image_adds | rret].
  - rbind; [apply controller_new_image_adds | rret].
Qed.



End ControllerCall.

Section ControllerWrites.
Variable E : env.
Variables (reportId userId : string) (files : option (list upload_file)).
Hypothesis select_answered : ∀ t, db_refuses E t (SelectObservations reportId) = None.


End ControllerWrites.

(** ** Update calls of the service that return *)

Lemma for_of_emitted {A} (l : list A) (f : A → M world unit) (x : A)
    (Q : event → Prop) w w' :
  (∀ y, respects (adds (λ _, True)) (f y)) →
  (∀ w1 w2, f x w1 = (Ok tt, w2) → ∃ evs, trace w2 = trace w1 ++ evs ∧ Exists Q evs) →
  x ∈ l →
  for_of l f w = (Ok tt, w') →
  ∃ evs, trace w' = trace w ++ evs ∧ Exists Q evs.
Proof.
  intros Hall Hx Hin. revert w. induction l as [|y l IH]; intros w H;
    [by apply elem_of_nil in Hin|].
  apply for_of_cons_Ok in H as (w1 & Hstep & Hrest).
  apply elem_of_cons in Hin as [->|Hin].
  - destruct (Hx _ _ Hstep) as (e1 & H1 & Hev).
    pose proof (respects_for_of (adds (λ _, True)) l f (λ z _, Hall z) w1)
      as (e2 & H2 & _).
    rewrite Hrest in H2. simpl in H2. exists (e1 ++ e2).
    rewrite H2, H1, app_assoc. split; [done|]. apply Exists_app. by left.
  - destruct (IH Hin _ Hrest) as (e2 & H2 & Hev).
    pose proof (Hall y w) as (e1 & H1 & _). rewrite Hstep in H1. simpl in H1.
    exists (e1 ++ e2). rewrite H2, H1, app_assoc. split; [done|].
    apply Exists_app. by right.
Qed.

Section EditedAndDeleted.
Variable E : env.
Variables (reportId userId : string).
Variables (reportData : report_data) (files : option (list upload_file)).

Lemma observations_block_keeps_reports :
  respects (on_db same_reports)
    (if ReportService.observations_provided (observations reportData)
     then ReportService.process_observations E reportId userId reportData files
     else mret tt).
Proof.
  destruct (ReportService.observations_provided _); [|rret].
  unfold ReportService.process_observations. rbind.
  { unfold ReportService.parsedObservations. destruct (parse_entries E _); rret. }
  rbind; [ruse select_observations_on_db|].
  rbind.
  { apply respects_for_of; [apply _|]. intros obs _. ruse service_step_on_db.
    apply same_reports_ignores_observations. }
  destruct (ReportService.deletions_specified _); [|rret].
  rbind.
  { unfold ReportService.parsedDeletions. destruct (parse_ids E _); rret. }
  apply respects_for_of; [apply _|]. intros d _. ruse deletion_on_db. done.
Qed.

Lemma observations_block_total w :
  storage_reliable E →
  is_Some (parse_entries E (observations reportData)) →
  is_Some (parse_ids E (observationsToDelete reportData)) →
  ∃ w',
    (if ReportService.observations_provided (observations reportData)
     then ReportService.process_observations E reportId userId reportData files
     else mret tt) w = (Ok tt, w').
Proof.
  intros Hrel [entries Hentries] [ids Hids].
  destruct (ReportService.observations_provided _); [|by eexists].
  unfold ReportService.process_observations, ReportService.parsedObservations,
    ReportService.parsedDeletions.
  rewrite Hentries, Hids. rewrite run_bind, run_ret, run_bind.
  destruct (select_observations_run E reportId w) as (r & wa & -> & _).
  rewrite run_bind.
  destruct (for_of_total entries
              (ReportService.process_observation E reportId userId files
                 (index_by_id (default [] (data r))))
              (λ obs w0, service_process_observation_total E reportId userId files
                           _ obs w0 Hrel) wa) as (wb & ->).
  destruct (ReportService.deletions_specified _); [|by eexists].
  rewrite run_bind, run_ret.
  apply for_of_total. intros d w0. apply deletion_total.
Qed.

Lemma updateReport_total w r :
  store_accepts E →
  storage_reliable E →
  owned_reports reportId userId (db w) = [r] →
  is_Some (parse_entries E (observations reportData)) →
  is_Some (parse_ids E (observationsToDelete reportData)) →
  ∃ view w',
    ReportService.updateReport E reportId reportData files userId w = (Ok view, w').
Proof.
  intros Hacc Hrel Hown Hentries Hids. unfold ReportService.updateReport.
  rewrite run_bind.
  destruct (getReport_total E reportId userId w r (Hacc _ _) Hown) as (v0 & w1 & H0).
  rewrite H0. apply getReport_Ok in H0 as (_ & _ & Hdb1 & _).
  rewrite run_bind.
  destruct (update_fields_total E reportId userId reportData w1 Hacc) as (w2 & H1).
  rewrite H1. rewrite run_bind.
  destruct (observations_block_total w2 Hrel Hentries Hids) as (w3 & H2).
  rewrite H2.
  pose proof (update_fields_same_owner E reportId userId reportData w1) as O1.
  rewrite H1 in O1.
  pose proof (observations_block_keeps_reports w2) as O2. rewrite H2 in O2.
  unfold on_db, same_owner, same_reports in O1, O2. simpl in O1, O2.
  assert (length (owned_reports reportId userId (db w3)) = 1) as Hlen.
  { unfold owned_reports in *. by rewrite O2, O1, Hdb1, Hown. }
  destruct (owned_reports reportId userId (db w3)) as [|r' [|]] eqn:Hown3;
    try discriminate.
  apply (getReport_total E reportId userId w3 r' (Hacc _ _) Hown3).
Qed.
End EditedAndDeleted.

Lemma update_step_emitted E reportId userId files
    (existingObsMap : gmap string observation_row) obs w1 w2 :
  is_Some (found_of existingObsMap obs) →
  ReportService.process_observation E reportId userId files existingObsMap obs w1
  = (Ok tt, w2) →
  ∃ evs, trace w2 = trace w1 ++ evs
         ∧ Exists (λ ev, ∃ p, ev = EvDb (UpdateObservation
                                           (to_string (entry_id obs)) reportId p)) evs.
Proof.
  intros [existing Hex]. unfold ReportService.process_observation. rewrite Hex.
  unfold ReportService.update_existing. intros H.
  apply bind_Ok in H as (img & wa & Himg & H).
  pose proof (service_existing_image_adds E userId files existing obs w1)
    as (e1 & H1 & _).
  rewrite Himg in H1. simpl in H1.
  destruct (update_one_run E (to_string (entry_id obs)) reportId
              (ReportService.patch_for existing obs img) wa) as (wb & Hrun & Htr & _).
  rewrite Hrun in H. simplify_eq.
  exists (e1 ++ [EvDb (UpdateObservation (to_string (entry_id obs)) reportId
                         (ReportService.patch_for existing obs img))]).
  rewrite Htr, H1, app_assoc. split; [done|].
  apply Exists_app. right. constructor. by eexists.
Qed.

(** ** What an update call of the service issues for one of its entries *)

(** An entry that names an existing observation is found by the lookup of
    the handlers, which reads that observation. *)
Lemma existing_found (existingObsMap : gmap string observation_row) obs existing :
  existing_of existingObsMap obs = Some existing →
  found_of existingObsMap obs = Some existing.
Proof.
  unfold existing_of, found_of, js_get. destruct (truthy (entry_id obs)); [|done].
  by intros ->.
Qed.


Lemma paired_step_run E reportId userId files
    (existingObsMap : gmap string observation_row) obs file w :
  found_of existingObsMap obs = None →
  truthy (tempId obs) = true →
  find_field ("image_new_" +:+ to_string (tempId obs)) (files_list files) = Some file →
  match ImageUtils.uploadImageFromPath E (file_path file) userId w with
  | (Ok url, w1) =>
      ∃ w',
        ReportService.process_observation E reportId userId files
          existingObsMap obs w = (Ok tt, w')
        ∧ trace w' = trace w1
            ++ [EvDb (InsertObservations
                        [ReportService.row_for reportId obs (VStr url)])]
        ∧ (db_refuses E (db w)
             (InsertObservations [ReportService.row_for reportId obs (VStr url)])
           = None →
           tbl_observations (db w')
           = tbl_observations (db w)
             ++ [new_row E (issued w1) 0
                   (ReportService.row_for reportId obs (VStr url))])
  | (Throw e, w1) =>
      ReportService.process_observation E reportId userId files
        existingObsMap obs w = (Throw e, w1)
  end.
Proof.
  intros Hnone Htemp Hfind.
  pose proof (find_field_has_files _ _ _ Hfind) as Hfiles.
  unfold ReportService.process_observation. rewrite Hnone.
  unfold ReportService.insert_new, ReportService.new_image. rewrite Hfiles.
  rewrite !run_bind, (find_new_image_keyed E obs _ w Htemp), Hfind.
  rewrite run_bind.
  pose proof (uploadImageFromPath_on_db E unchanged (file_path file) userId w)
    as Hdb.
  destruct (ImageUtils.uploadImageFromPath E (file_path file) userId w)
    as [[url|e] w1]; [|done].
  unfold on_db, unchanged in Hdb. simpl in Hdb. rewrite run_ret.
  destruct (insert_one_run E (ReportService.row_for reportId obs (VStr url)) w1)
    as (w' & Hrun & Htr & Hrows).
  rewrite run_bind in Hrun.
  exists w'. split; [exact Hrun|]. split; [exact Htr|].
  intros Hacc. rewrite <- Hdb. apply Hrows. by rewrite Hdb.
Qed.

(** A request that the pass over an entry always issues is among the
    requests of every returning call that goes through the entry. *)
Lemma updateReport_entry_emitted E reportId userId reportData files w view w'
    obs (Q : event → Prop) :
  ReportService.updateReport E reportId reportData files userId w = (Ok view, w') →
  (∀ t, db_refuses E t (SelectObservations reportId) = None) →
  obs ∈ effective_entries E reportData →
  (∀ w1 w2,
     ReportService.process_observation E reportId userId files
       (index_by_id (observations_of reportId (db w))) obs w1 = (Ok tt, w2) →
     ∃ evs, trace w2 = trace w1 ++ evs ∧ Exists Q evs) →
  Exists Q (added w w').
Proof.
  intros H Hsel Hobs Hstep.
  apply updateReport_Ok in H as (v0 & w1 & w2 & w3 & H0 & H1 & H2 & H3).
  pose proof (rows_at_block _ _ _ _ _ _ _ _ H0 H1) as Hrows.
  apply (observations_block_Ok _ _ _ _ _ _ _ Hsel) in H2
    as (wa & wb & _ & (e3 & T3 & _) & Hloop1 & Hloop2).
  rewrite Hrows in Hloop1, Hloop2.
  apply getReport_Ok in H0 as (_ & _ & _ & T1).
  pose proof (update_fields_adds E reportId userId reportData w1) as (e2 & T2 & _).
  rewrite H1 in T2. simpl in T2.
  apply getReport_Ok in H3 as (_ & _ & _ & T6).
  destruct (for_of_emitted (effective_entries E reportData)
              (ReportService.process_observation E reportId userId files
                 (index_by_id (observations_of reportId (db w)))) obs Q wa wb)
    as (e4 & T4 & X4); try done.
  { intros y. by apply service_step_adds. }
  pose proof (respects_for_of (adds (λ _, True)) (effective_deletions E reportData)
                (ReportService.process_deletion E reportId
                   (index_by_id (observations_of reportId (db w))))
                (λ d _, deletion_adds E reportId _ (λ _, True) d (λ _ _ _ _ _, I) I) wb)
    as (e5 & T5 & _).
  rewrite Hloop2 in T5. simpl in T5.
  unfold added. rewrite T6, T5, T4, T3, T2, T1.
  rewrite <- !app_assoc, drop_app_length.
  rewrite !Exists_app. right. right. right. by left.
Qed.



(** ** Texts split at a separator *)

Lemma split_on_free c s : mentions c s = false → split_on c s = [s].
Proof.
  induction s as [|x s IH]; simpl; [done|].
  intros H. apply orb_false_iff in H as [Hx Hs].
  rewrite Hx. by rewrite (IH Hs).
Qed.

Lemma split_on_nonempty c s : split_on c s ≠ [].
Proof.
  destruct s as [|x s]; simpl; [done|].
  destruct (bool_decide (x = c)); [done|]. by destruct (split_on c s).
Qed.

Lemma split_on_app c a b :
  split_on c (a +:+ String c b) = split_on c a ++ split_on c b.
Proof.
  induction a as [|x a IH]; simpl.
  - by rewrite bool_decide_eq_true_2.
  - rewrite IH. destruct (bool_decide (x = c)); [done|].
    pose proof (split_on_nonempty c a).
    by destruct (split_on c a).
Qed.

Lemma js_pop_last (l : list string) x : js_pop (l ++ [x]) = VStr x.
Proof.
  unfold js_pop, js_index. rewrite length_app. simpl.
  replace (Z.of_nat (length l + 1) - 1)%Z with (Z.of_nat (length l)) by lia.
  destruct (Z.ltb_spec (Z.of_nat (length l)) 0); [lia|].
  rewrite Nat2Z.id. by rewrite list_lookup_middle.
Qed.

Lemma mentions_app c a b : mentions c (a +:+ b) = mentions c a || mentions c b.
Proof. induction a as [|x a IH]; simpl; [done|]. by rewrite IH, orb_assoc. Qed.

Lemma pop_split_free c b : mentions c b = false → js_pop (split_on c b) = VStr b.
Proof. intros H. rewrite (split_on_free _ _ H). apply (js_pop_last []). Qed.

Lemma pop_split_app c a b :
  mentions c b = false → js_pop (split_on c (a +:+ String c b)) = VStr b.
Proof.
  intros H. rewrite split_on_app, (split_on_free _ _ H). apply js_pop_last.
Qed.

Lemma split_on_last c s :
  ∃ pre r, last (split_on c s) = Some r ∧ s = pre +:+ r ∧ mentions c r = false
           ∧ (length (split_on c s) = 1 → pre = "").
Proof.
  induction s as [|x s (pre & r & Hlast & Hs & Hr & Hone)].
  - by exists "", "".
  - simpl. destruct (decide (x = c)) as [->|Hx].
    + rewrite bool_decide_eq_true_2 by done.
      pose proof (split_on_nonempty c s) as Hne.
      exists (String c pre), r. destruct (split_on c s) as [|y l]; [done|].
      split; [done|]. split; [by rewrite Hs|]. split; [done|]. done.
    + rewrite bool_decide_eq_false_2 by done.
      pose proof (split_on_nonempty c s) as Hne.
      destruct (split_on c s) as [|y [|z l]]; [done| |].
      * simpl in Hlast. injection Hlast as ->. rewrite (Hone eq_refl) in Hs.
        simpl in Hs. subst s. exists "", (String x r). simpl.
        by rewrite Hr, bool_decide_eq_false_2.
      * exists (String x pre), r. split; [done|]. split; [by rewrite Hs|].
        split; [done|]. done.
Qed.

(** The last piece of a split is a suffix of the text and holds no separator. *)
Lemma pop_split_suffix c s :
  ∃ pre r, js_pop (split_on c s) = VStr r ∧ s = pre +:+ r ∧ mentions c r = false.
Proof.
  destruct (split_on_last c s) as (pre & r & Hlast & Hs & Hr & _).
  exists pre, r. split; [|done].
  apply last_Some in Hlast as [l' ->]. apply js_pop_last.
Qed.

(** ** Storing and removing images *)

Lemma added_app w w' evs : trace w' = trace w ++ evs → added w w' = evs.
Proof. intros H. unfold added. by rewrite H, drop_app_length. Qed.

Lemma uploadImageFromPath_run E filePath userId w :
  let path := upload_path E filePath userId w in
  match ImageUtils.uploadImageFromPath E filePath userId w with
  | (Ok url, w') =>
      url = public_url E path
      ∧ bucket w' = bucket w ++ [path]
      ∧ added w w' = [EvReadFile filePath; EvUpload path]
      ∧ db w' = db w
  | (Throw e, w') =>
      bucket w' = bucket w ∧ db w' = db w
      ∧ ((read_file E filePath = false ∧ e = JsError "ENOENT"
          ∧ added w w' = [EvReadFile filePath])
         ∨ (∃ msg, upload_refused E path = Some msg
                   ∧ e = JsError ("Error uploading image: " +:+ msg)
                   ∧ added w w' = [EvReadFile filePath; EvUpload path]))
  end.
Proof.
  intros path. subst path. unfold upload_path, ImageUtils.uploadImageFromPath.
  rewrite try_catch_rethrow. unfold readFileSync, storage_upload, fresh_uuid, emit.
  run. destruct (read_file E filePath) eqn:Hread; run.
  - destruct (upload_refused E _) as [msg|] eqn:Hup; run.
    + split; [done|]. split; [done|]. right. exists msg.
      split; [done|]. split; [done|]. apply added_app. simpl. by rewrite <- app_assoc.
    + split; [done|]. split; [done|]. split; [|done].
      apply added_app. simpl. by rewrite <- app_assoc.
  - split; [done|]. split; [done|]. left. split; [done|]. split; [done|].
    by apply added_app.
Qed.

(** X1.  [uploadImageFromPath] either stores one object or changes nothing.
    When it returns, the text returned is the public URL of the path
    [<userId>/<uuid>.<ext>], that path is the one object added to the
    bucket, the file was read and then the upload was requested, and the
    tables are as before.  When it throws, the bucket and the tables are as
    before, and either the file could not be read and the storage was never
    asked, or the storage refused the upload and the error thrown is
    ["Error uploading image: "] followed by the message of the storage. *)
Theorem uploadImageFromPath_stores_or_fails E filePath userId w :
  let path := upload_path E filePath userId w in
  match ImageUtils.uploadImageFromPath E filePath userId w with
  | (Ok url, w') =>
      url = public_url E path
      ∧ bucket w' = bucket w ++ [path]
      ∧ added w w' = [EvReadFile filePath; EvUpload path]
      ∧ db w' = db w
  | (Throw e, w') =>
      bucket w' = bucket w ∧ db w' = db w
      ∧ ((read_file E filePath = false ∧ e = JsError "ENOENT"
          ∧ added w w' = [EvReadFile filePath])
         ∨ (∃ msg, upload_refused E path = Some msg
                   ∧ e = JsError ("Error uploading image: " +:+ msg)
                   ∧ added w w' = [EvReadFile filePath; EvUpload path]))
  end.
Proof. exact (uploadImageFromPath_run E filePath userId w). Qed.

Lemma storage_path_last_two base u n :
  mentions "/" u = false → mentions "/" n = false →
  ImageUtils.storage_path (base +:+ "/" +:+ u +:+ "/" +:+ n) = u +:+ "/" +:+ n.
Proof.
  intros Hu Hn. unfold ImageUtils.storage_path.
  change (base +:+ "/" +:+ u +:+ "/" +:+ n)
    with (base +:+ String "/" (u +:+ String "/" n)).
  rewrite !split_on_app, (split_on_free _ _ Hu), (split_on_free _ _ Hn).
  rewrite !length_app. simpl. unfold js_index.
  set (k := length (split_on "/" base)).
  replace (Z.of_nat (k + 2) - 1)%Z with (Z.of_nat (k + 1)) by lia.
  replace (Z.of_nat (k + 2) - 2)%Z with (Z.of_nat k) by lia.
  destruct (Z.ltb_spec (Z.of_nat (k + 1)) 0); [lia|].
  destruct (Z.ltb_spec (Z.of_nat k) 0); [lia|].
  rewrite !Nat2Z.id.
  rewrite (lookup_app_r _ _ (k + 1)) by (unfold k; lia).
  replace (k + 1 - length (split_on "/" base)) with 1 by (unfold k; lia).
  rewrite (lookup_app_r _ _ k) by (unfold k; lia).
  replace (k - length (split_on "/" base)) with 0 by (unfold k; lia).
  done.
Qed.

Lemma upload_name_slash_free E filePath w :
  mentions "/" (gen_uuid E (issued w)) = false →
  mentions "/" (gen_uuid E (issued w) +:+ "."
      +:+ to_string (js_pop (split_on "."%char
                       (to_string (js_pop (split_on "/"%char filePath)))))) = false.
Proof.
  intros Hu.
  destruct (pop_split_suffix "/" filePath) as (p1 & name & -> & _ & Hname).
  simpl. destruct (pop_split_suffix "." name) as (p2 & ext & -> & Hn & _).
  simpl. rewrite Hn, mentions_app in Hname. apply orb_false_iff in Hname as [_ He].
  rewrite mentions_app, Hu. exact He.
Qed.

(** X2.  An image stored by [uploadImageFromPath] is removed by [deleteImage]
    of the URL returned.  When the user id and the generated name hold no
    slash, the text returned is a URL whose pathname ends with a slash and
    the path under which the image was stored, and the storage performs the
    removal of that path, [deleteImage] returns [true], asks once for the
    removal of exactly the stored path, and leaves the bucket as it was
    before the upload (without that path); the tables are as before. *)
Theorem upload_then_delete_round_trip E filePath userId w url w1 base :
  ImageUtils.uploadImageFromPath E filePath userId w = (Ok url, w1) →
  mentions "/" userId = false →
  mentions "/" (gen_uuid E (issued w)) = false →
  url ≠ "" →
  url_pathname E url = Some (base +:+ "/" +:+ upload_path E filePath userId w) →
  remove_answer E (upload_path E filePath userId w) = RemoveDone →
  ∃ path w2,
    bucket w1 = bucket w ++ [path]
    ∧ ImageUtils.deleteImage E (VStr url) w1 = (Ok true, w2)
    ∧ added w1 w2 = [EvRemove [path]]
    ∧ bucket w2 = filter (λ p, p ≠ path) (bucket w)
    ∧ db w2 = db w.
Proof.
  intros Hup Huser Huuid Hne Hurl Hrm.
  pose proof (uploadImageFromPath_run E filePath userId w) as H.
  rewrite Hup in H. simpl in H. destruct H as (_ & Hb & _ & Hdb).
  exists (upload_path E filePath userId w).
  unfold ImageUtils.deleteImage. simpl.
  rewrite bool_decide_eq_false_2 by apply Hne. simpl.
  rewrite Hurl.
  assert (ImageUtils.storage_path (base +:+ "/" +:+ upload_path E filePath userId w)
          = upload_path E filePath userId w) as ->.
  { unfold upload_path. apply storage_path_last_two; [done|].
    by apply upload_name_slash_free. }
  unfold try_catch, storage_remove, emit. run. rewrite Hrm. run.
  eexists. split; [done|]. split; [reflexivity|]. simpl.
  split; [by apply added_app|]. split; [|done].
  rewrite Hb, filter_app, filter_cons_False by (by intros ?).
  by rewrite filter_nil, app_nil_r.
Qed.

Lemma upload_then_delete_witness :
  ∃ url w1 w2,
    ImageUtils.uploadImageFromPath Sample.calm "uploads/3f9c2a" "u1" Sample.world0
    = (Ok url, w1)
    ∧ ImageUtils.deleteImage Sample.calm (VStr url) w1 = (Ok true, w2)
    ∧ bucket w2 = bucket Sample.world0.
Proof.
  destruct (ImageUtils.uploadImageFromPath Sample.calm "uploads/3f9c2a" "u1"
              Sample.world0) as [[url|e] w1] eqn:Hup;
    [|vm_compute in Hup; discriminate].
  assert (url = "https://hys.example/storage/v1/object/public/report-images/u1/uuid-0.3f9c2a")
    as Hurl by (vm_compute in Hup; congruence).
  destruct (upload_then_delete_round_trip Sample.calm "uploads/3f9c2a" "u1"
              Sample.world0 url w1
              "/storage/v1/object/public/report-images" Hup)
    as (path & w2 & Hb & Hdel & Hev & Hbucket & _).
  - reflexivity.
  - reflexivity.
  - rewrite Hurl. discriminate.
  - rewrite Hurl. vm_compute. reflexivity.
  - reflexivity.
  - exists url, w1, w2. split; [reflexivity|]. split; [exact Hdel|].
    rewrite Hbucket.
    assert (path = "u1/uuid-0.3f9c2a") as ->.
    { vm_compute in Hup. injection Hup as _ Hw. rewrite <- Hw in Hb.
      simpl in Hb. by injection Hb as <-. }
    reflexivity.
Defined.

Lemma uploaded_path E filePath userId w p :
  EvUpload p ∈ added w (ImageUtils.uploadImageFromPath E filePath userId w).2 →
  p = upload_path E filePath userId w.
Proof.
  pose proof (uploadImageFromPath_run E filePath userId w) as H.
  simpl in H.
  destruct (ImageUtils.uploadImageFromPath E filePath userId w) as [[url|e] w'];
    simpl.
  - destruct H as (_ & _ & -> & _). intros Hin.
    apply elem_of_cons in Hin as [?|Hin]; [done|].
    apply list_elem_of_singleton in Hin. by simplify_eq.
  - destruct H as (_ & _ & [(_ & _ & ->)|(msg & _ & _ & ->)]); intros Hin.
    + apply list_elem_of_singleton in Hin. done.
    + apply elem_of_cons in Hin as [?|Hin]; [done|].
      apply list_elem_of_singleton in Hin. by simplify_eq.
Qed.

(** X3.  The object that [uploadImageFromPath] asks the storage to store is
    named after the file name, the last segment of the path: its extension
    is the text after the last dot of the file name, and the whole file name
    when the file name has no dot. *)
Theorem upload_extension_rule E filePath userId w dir name p :
  filePath = name ∨ filePath = dir +:+ "/" +:+ name →
  mentions "/" name = false →
  EvUpload p ∈ added w (ImageUtils.uploadImageFromPath E filePath userId w).2 →
  (mentions "." name = false →
   p = userId +:+ "/" +:+ gen_uuid E (issued w) +:+ "." +:+ name)
  ∧ (∀ stem ext, name = stem +:+ "." +:+ ext → mentions "." ext = false →
       p = userId +:+ "/" +:+ gen_uuid E (issued w) +:+ "." +:+ ext).
Proof.
  intros Hpath Hname Hin. apply uploaded_path in Hin as ->. unfold upload_path.
  assert (js_pop (split_on "/" filePath) = VStr name) as ->.
  { destruct Hpath as [->| ->]; [by apply pop_split_free|].
    change (dir +:+ "/" +:+ name) with (dir +:+ String "/" name).
    by apply pop_split_app. }
  simpl. split.
  - intros Hdot. by rewrite (pop_split_free _ _ Hdot).
  - intros stem ext -> Hext.
    change (stem +:+ "." +:+ ext) with (stem +:+ String "." ext).
    by rewrite (pop_split_app "." stem ext Hext).
Qed.

Lemma upload_extension_witness :
  EvUpload "u1/uuid-0.3f9c2a"
    ∈ added Sample.world0
        (ImageUtils.uploadImageFromPath Sample.calm "uploads/3f9c2a" "u1"
           Sample.world0).2
  ∧ EvUpload "u1/uuid-0.png"
    ∈ added Sample.world0
        (ImageUtils.uploadImageFromPath Sample.calm "uploads/exit.final.png" "u1"
           Sample.world0).2.
Proof.
  assert (EvUpload "u1/uuid-0.3f9c2a"
            ∈ added Sample.world0
                (ImageUtils.uploadImageFromPath Sample.calm "uploads/3f9c2a" "u1"
                   Sample.world0).2) as H1 by (vm_compute; right; left).
  assert (EvUpload "u1/uuid-0.png"
            ∈ added Sample.world0
                (ImageUtils.uploadImageFromPath Sample.calm "uploads/exit.final.png"
                   "u1" Sample.world0).2) as H2 by (vm_compute; right; left).
  pose proof (upload_extension_rule Sample.calm "uploads/3f9c2a" "u1" Sample.world0
                "uploads" "3f9c2a" "u1/uuid-0.3f9c2a"
                (or_intror eq_refl) eq_refl H1) as [Hwhole _].
  pose proof (upload_extension_rule Sample.calm "uploads/exit.final.png" "u1"
                Sample.world0 "uploads" "exit.final.png" "u1/uuid-0.png"
                (or_intror eq_refl) eq_refl H2) as [_ Hext].
  specialize (Hwhole eq_refl). specialize (Hext "exit.final" "png" eq_refl eq_refl).
  split; [exact H1 | exact H2].
Defined.

(** X4.  [deleteImage] never throws and never touches the tables.  For a
    falsy URL it returns [true] and asks nothing; for a text that is not a
    URL it returns [false] and asks nothing; otherwise it asks once for the
    removal of the path made of the last two segments of the pathname, and
    returns [true] with the object removed from the bucket when the storage
    performs the removal, [false] with the bucket as before when the storage
    answers with an error or the request throws. *)
Theorem deleteImage_result E url w :
  ∃ b w',
    ImageUtils.deleteImage E url w = (Ok b, w')
    ∧ db w' = db w
    ∧ (truthy url = false → b = true ∧ w' = w)
    ∧ (truthy url = true → url_pathname E (to_string url) = None →
       b = false ∧ w' = w)
    ∧ (∀ pathname,
         truthy url = true → url_pathname E (to_string url) = Some pathname →
         added w w' = [EvRemove [ImageUtils.storage_path pathname]]
         ∧ match remove_answer E (ImageUtils.storage_path pathname) with
           | RemoveDone =>
               b = true
               ∧ bucket w' = filter (λ p, p ≠ ImageUtils.storage_path pathname)
                                    (bucket w)
           | _ => b = false ∧ bucket w' = bucket w
           end).
Proof.
  unfold ImageUtils.deleteImage, try_catch.
  destruct (truthy url) eqn:Ht; simpl.
  - destruct (url_pathname E (to_string url)) as [pathname|] eqn:Hp.
    + unfold storage_remove, emit. run.
      destruct (remove_answer E (ImageUtils.storage_path pathname)) eqn:Hr; run;
        eexists _, _; (split; [reflexivity|]); simpl; (split; [done|]);
        (split; [done|]); (split; [done|]); intros pn _ [= <-]; rewrite Hr;
        (split; [by apply added_app|]); done.
    + run. eexists _, _. split; [reflexivity|]. repeat split; try done.
  - run. eexists _, _. split; [reflexivity|]. repeat split; try done.
Qed.

(** ** Creating a report: the company, the report row and the files *)

Lemma select_company_none E company user w :
  owned_companies company user (db w) = [] →
  ∃ msg, select_company E company user w
         = (Ok (Failure msg), logged (EvDb (SelectCompany company user)) w).
Proof.
  intros Hnone. unfold select_company. rewrite store_run. simpl.
  destruct (db_refuses E (db w) _) as [msg|]; [by exists msg|].
  unfold owned_companies in Hnone. rewrite Hnone. by eexists.
Qed.

Lemma select_company_owned E company user w c :
  owned_companies company user (db w) = [c] →
  db_refuses E (db w) (SelectCompany company user) = None →
  select_company E company user w
  = (Ok (Answer c), logged (EvDb (SelectCompany company user)) w).
Proof.
  intros Hown Hacc. unfold select_company. rewrite store_run. simpl.
  rewrite Hacc. unfold owned_companies in Hown. by rewrite Hown.
Qed.

Lemma insert_report_run E r w :
  db_refuses E (db w) (InsertReport r) = None →
  insert_report E r w
  = (Ok (Answer {| rp_id := gen_uuid E (issued w); rp_fields := r |}),
     {| db := set_reports (tbl_reports (db w)
                           ++ [{| rp_id := gen_uuid E (issued w); rp_fields := r |}])
                          (db w);
        bucket := bucket w; issued := S (issued w); ticks := ticks w;
        trace := trace w ++ [EvDb (InsertReport r)] |}).
Proof.
  intros Hacc. unfold insert_report. rewrite store_run. simpl. by rewrite Hacc.
Qed.

Lemma map_all_cons_run {W A B} (x : A) (l : list A) (f : A → M W B) (w : W) :
  map_all (x :: l) f w
  = match f x w with
    | (Ok y, w1) =>
        match map_all l f w1 with
        | (Ok ys, w2) => (Ok (y :: ys), w2)
        | (Throw e, w2) => (Throw e, w2)
        end
    | (Throw e, w1) => (Throw e, w1)
    end.
Proof.
  simpl. rewrite run_bind. destruct (f x w) as [[y|e] w1]; [|done].
  rewrite run_bind. by destruct (map_all l f w1) as [[ys|e] w2].
Qed.

Lemma uploadImageBuffer_run E fileName userId w :
  let path := buffer_path E fileName userId w in
  ImageUtils.uploadImageBuffer E fileName userId w
  = match upload_refused E path with
    | Some msg =>
        (Throw (JsError ("Error uploading image: " +:+ msg)),
         {| db := db w; bucket := bucket w; issued := S (issued w);
            ticks := ticks w; trace := trace w ++ [EvUpload path] |})
    | None =>
        (Ok (public_url E path),
         {| db := db w; bucket := bucket w ++ [path]; issued := S (issued w);
            ticks := ticks w; trace := trace w ++ [EvUpload path] |})
    end.
Proof.
  intros path. subst path. unfold buffer_path, ImageUtils.uploadImageBuffer.
  rewrite try_catch_rethrow. unfold storage_upload, fresh_uuid, emit. run.
  by destruct (upload_refused E _).
Qed.

Lemma upload_file_of_reliable E file userId w :
  storage_reliable E →
  ∃ w',
    ReportController.upload_file_of E file userId w
    = (Ok (VStr (public_url E
                   (buffer_path E (originalname file) userId
                      (logged (EvReadFile (file_path file)) w)))), w')
    ∧ db w' = db w
    ∧ trace w' = trace w
        ++ [EvReadFile (file_path file);
            EvUpload (buffer_path E (originalname file) userId
                        (logged (EvReadFile (file_path file)) w))].
Proof.
  intros [Hread Hup]. unfold ReportController.upload_file_of.
  rewrite run_bind. unfold readFileSync, emit. run. rewrite Hread. run.
  change (ReportController.uploadImage E (originalname file) userId)
    with (ImageUtils.uploadImageBuffer E (originalname file) userId).
  match goal with |- context [ImageUtils.uploadImageBuffer _ _ _ ?w1] =>
    rewrite (uploadImageBuffer_run E (originalname file) userId w1)
  end.
  cbv zeta. rewrite Hup. eexists. split; [reflexivity|]. simpl.
  split; [done|]. by rewrite <- app_assoc.
Qed.

Section Items.
Variable E : env.
Variables (files : option (list upload_file)) (reportId userId : string).
Hypothesis reliable : storage_reliable E.

(** What the two variants of the callback of [createReport] share. *)
Variable item : nat * edit_entry → M world new_observation.
Hypothesis item_with_file : ∀ index obs file w,
  files_list files !! index = Some file →
  ∃ p w',
    item (index, obs) w
    = (Ok {| report_id := reportId; observation := entry_observation obs;
             risk_level := js_or (riskLevel obs) (VStr "low");
             image_url := VStr (public_url E p) |}, w')
    ∧ db w' = db w
    ∧ trace w' = trace w ++ [EvReadFile (file_path file); EvUpload p].
Hypothesis item_without_file : ∀ index obs w,
  files_list files !! index = None →
  item (index, obs) w
  = (Ok {| report_id := reportId; observation := entry_observation obs;
           risk_level := js_or (riskLevel obs) (VStr "low");
           image_url := VNull |}, w).

Lemma items_run (l : list edit_entry) : ∀ first w,
  ∃ items w' evs,
    map_all (zip (seq first (length l)) l) item w = (Ok items, w')
    ∧ db w' = db w
    ∧ trace w' = trace w ++ evs
    ∧ Forall upload_event evs
    ∧ files_read evs
      = file_path <$> take (length l) (drop first (files_list files))
    ∧ length (uploads evs) = length (take (length l) (drop first (files_list files)))
    ∧ image_url <$> items
      = (VStr ∘ public_url E <$> uploads evs)
        ++ replicate (length l - length (drop first (files_list files))) VNull
    ∧ observation <$> items = entry_observation <$> l
    ∧ risk_level <$> items = (λ obs, js_or (riskLevel obs) (VStr "low")) <$> l
    ∧ report_id <$> items = replicate (length l) reportId.
Proof.
  induction l as [|obs l IH]; intros first w.
  - exists [], w, []. simpl. by rewrite app_nil_r.
  - change (zip (seq first (length (obs :: l))) (obs :: l))
      with ((first, obs) :: zip (seq (S first) (length l)) l).
    rewrite map_all_cons_run.
    destruct (files_list files !! first) as [file|] eqn:Hfile.
    + destruct (item_with_file first obs file w Hfile)
        as (p & w1 & -> & Hdb1 & Htr1).
      destruct (IH (S first) w1) as (items & w' & evs & -> & Hdb & Htr & Hev
                                      & Hread & Hlen & Himg & Hobs & Hrisk & Hrep).
      eexists _, w', _. split; [reflexivity|].
      split; [congruence|]. split; [by rewrite Htr, Htr1, <- app_assoc|].
      split; [by repeat constructor|].
      rewrite (drop_S _ _ _ Hfile). csimpl.
      split; [by rewrite Hread|]. split; [by rewrite Hlen|].
      split; [by rewrite Himg|]. split; [by rewrite Hobs|].
      split; [by rewrite Hrisk | by rewrite Hrep].
    + rewrite (item_without_file first obs w Hfile).
      destruct (IH (S first) w) as (items & w' & evs & -> & Hdb & Htr & Hev
                                      & Hread & Hlen & Himg & Hobs & Hrisk & Hrep).
      eexists _, w', evs. split; [reflexivity|].
      apply lookup_ge_None in Hfile.
      rewrite (drop_ge _ first) by done.
      rewrite (drop_ge _ (S first)) in Hread, Hlen, Himg by lia.
      rewrite take_nil in *. csimpl in *.
      split; [done|]. split; [done|]. split; [done|]. split; [done|].
      split; [done|].
      destruct (uploads evs); [|done]. csimpl in *.
      rewrite Nat.sub_0_r in Himg.
      split; [by rewrite Himg|]. split; [by rewrite Hobs|].
      split; [by rewrite Hrisk | by rewrite Hrep].
Qed.
End Items.

Lemma controller_items_run E files reportId userId (l : list edit_entry) first w :
  storage_reliable E →
  ∃ items w' evs,
    map_all (zip (seq first (length l)) l)
            (ReportController.observationItem E files reportId userId) w
    = (Ok items, w')
    ∧ db w' = db w
    ∧ trace w' = trace w ++ evs
    ∧ Forall upload_event evs
    ∧ files_read evs
      = file_path <$> take (length l) (drop first (files_list files))
    ∧ length (uploads evs) = length (take (length l) (drop first (files_list files)))
    ∧ image_url <$> items
      = (VStr ∘ public_url E <$> uploads evs)
        ++ replicate (length l - length (drop first (files_list files))) VNull
    ∧ observation <$> items = entry_observation <$> l
    ∧ risk_level <$> items = (λ obs, js_or (riskLevel obs) (VStr "low")) <$> l
    ∧ report_id <$> items = replicate (length l) reportId.
Proof.
  intros Hrel. apply items_run.
  - intros index obs file w0 Hfile. unfold ReportController.observationItem.
    rewrite Hfile, !run_bind.
    destruct (upload_file_of_reliable E file userId w0 Hrel)
      as (w1 & -> & Hdb1 & Htr1).
    rewrite !run_ret. by eexists _, w1.
  - intros index obs w0 Hfile. unfold ReportController.observationItem.
    by rewrite Hfile, run_bind, !run_ret.
Qed.

Lemma filter_all {A} (P : A → Prop) `{!∀ x, Decision (P x)} (l : list A) :
  Forall P l → filter P l = l.
Proof.
  induction 1 as [|x l Hx _ IH]; [done|].
  by rewrite filter_cons_True, IH.
Qed.

Lemma files_read_db evs : Forall (λ ev, ∃ q, ev = EvDb q) evs → files_read evs = [].
Proof.
  induction 1 as [|ev evs [q ->] _ IH]; [done|]. done.
Qed.

Lemma files_read_app a b : files_read (a ++ b) = files_read a ++ files_read b.
Proof. unfold files_read. by rewrite omap_app. Qed.

Lemma uploads_app a b : uploads (a ++ b) = uploads a ++ uploads b.
Proof. unfold uploads. by rewrite omap_app. Qed.

(** X5.  The routed [createReport] for a company that the caller does not
    own fails with status 404 and ["Company not found"] after the read of
    the company, its only request, once the body has the required fields
    and its observations parse: no report is inserted, no file is read and
    nothing is uploaded. *)
Theorem createReport_needs_owned_company E body files userId w :
  owned_companies (to_string (companyId body)) userId (db w) = [] →
  is_Some (body_entries E (observations body)) →
  truthy (companyId body) = true → truthy (date body) = true →
  truthy (description body) = true →
  ReportController.createReport E userId body files w
  = (Throw (ApiError 404 "Company not found"),
     logged (EvDb (SelectCompany (to_string (companyId body)) userId)) w).
Proof.
  intros Hnone [parsed Hp] Hc Hd Hdesc.
  destruct (select_company_none E _ _ w Hnone) as (msg & Hsel).
  unfold ReportController.createReport, ReportController.parse_body_observations.
  rewrite Hp, run_bind, run_ret, Hc, Hd, Hdesc. simpl.
  by rewrite run_bind, Hsel.
Qed.

Lemma createReport_needs_owned_company_witness :
  owned_companies "c1" "u2" (db Sample.world0) = []
  ∧ ReportController.createReport Sample.calm "u2" Cases.two_observations
      Cases.one_photo Sample.world0
    = (Throw (ApiError 404 "Company not found"),
       logged (EvDb (SelectCompany "c1" "u2")) Sample.world0).
Proof.
  split; [reflexivity|].
  apply (createReport_needs_owned_company Sample.calm Cases.two_observations
           Cases.one_photo "u2" Sample.world0); [reflexivity | by eexists | done..].
Defined.

(** X6.  The routed [createReport] inserts the report before it uploads the
    files and never takes it back: once the body has the required fields,
    its observations parse, the company is found and the insert accepted,
    the row of the report is in the table after the call whatever happens
    next; so a call whose first file cannot be read throws and leaves the
    report behind, without observations.  The observations are parsed
    before anything is asked: a body whose observations do not parse throws
    and leaves the world as it was. *)
Theorem createReport_failure_keeps_report E body files userId w c parsed :
  owned_companies (to_string (companyId body)) userId (db w) = [c] →
  db_refuses E (db w) (SelectCompany (to_string (companyId body)) userId) = None →
  db_refuses E (db w) (InsertReport (newReport body userId)) = None →
  truthy (companyId body) = true → truthy (date body) = true →
  truthy (description body) = true →
  (body_entries E (observations body) = None →
   ReportController.createReport E userId body files w
   = (Throw (JsError "SyntaxError"), w))
  ∧ (body_entries E (observations body) = Some parsed →
     let run := ReportController.createReport E userId body files w in
     tbl_reports (db run.2)
     = tbl_reports (db w)
       ++ [{| rp_id := gen_uuid E (issued w); rp_fields := newReport body userId |}]
     ∧ ∀ obs rest file,
         parsed = obs :: rest →
         files_list files !! 0 = Some file →
         read_file E (file_path file) = false →
         run.1 = Throw (JsError "ENOENT")
         ∧ tbl_observations (db run.2) = tbl_observations (db w)).
Proof.
  intros Hown Hsel Hins Hc Hd Hdesc. split.
  { intros Hp. unfold ReportController.createReport,
      ReportController.parse_body_observations. by rewrite Hp, run_bind. }
  intros Hp run. subst run.
  unfold ReportController.createReport, ReportController.parse_body_observations.
  rewrite Hp, run_bind, run_ret. cbv beta iota. rewrite Hc, Hd, Hdesc.
  cbn [negb orb].
  rewrite run_bind, (select_company_owned _ _ _ _ _ Hown Hsel). cbv beta iota.
  rewrite run_bind, insert_report_run by exact Hins. cbv beta iota.
  set (row := {| rp_id := _; rp_fields := _ |}).
  set (w2 := Build_world _ _ _ _ _).
  set (tail := _ ≫= _).
  assert (respects (on_db same_reports) tail) as Htail.
  { unfold tail. rbind; [apply controller_items_keep_reports|].
    rbind; [apply insert_items_keep_reports | rret]. }
  split; [exact (Htail w2)|].
  intros obs rest file -> Hfile Hread.
  assert (tail w2 = (Throw (JsError "ENOENT"),
                     logged (EvReadFile (file_path file)) w2)) as ->; [|done].
  unfold tail.
  change (zip (seq 0 (length (obs :: rest))) (obs :: rest))
    with ((0, obs) :: zip (seq 1 (length rest)) rest).
  rewrite run_bind, map_all_cons_run.
  unfold ReportController.observationItem at 1. rewrite Hfile, run_bind.
  unfold ReportController.upload_file_of. rewrite run_bind.
  unfold readFileSync, emit. run. by rewrite Hread.
Qed.

Lemma createReport_failure_keeps_report_witness :
  ReportController.createReport Sample.calm "u1" Cases.broken_observations None
    Sample.world0 = (Throw (JsError "SyntaxError"), Sample.world0)
  ∧ (ReportController.createReport Cases.lost_files "u1" Cases.two_observations
       Cases.one_photo Sample.world0).1 = Throw (JsError "ENOENT")
  ∧ rp_id <$> tbl_reports (db
      (ReportController.createReport Cases.lost_files "u1" Cases.two_observations
         Cases.one_photo Sample.world0).2) = ["r1"; "uuid-0"]
  ∧ tbl_observations (db
      (ReportController.createReport Cases.lost_files "u1" Cases.two_observations
         Cases.one_photo Sample.world0).2) = [Sample.obs_1; Sample.obs_2].
Proof.
  destruct (createReport_failure_keeps_report Sample.calm Cases.broken_observations
              None "u1" Sample.world0 Sample.company_c1 [])
    as (Hbroken & _); try reflexivity.
  destruct (createReport_failure_keeps_report Cases.lost_files Cases.two_observations
              Cases.one_photo "u1" Sample.world0 Sample.company_c1
              [Sample.entry VUndefined "Loose handrail";
               {| entry_id := VUndefined; entry_observation := VStr "Oil spill";
                  riskLevel := VStr "high"; imageUrl := VUndefined;
                  newImage := VUndefined; tempId := VUndefined |}])
    as (_ & Hlost); try reflexivity.
  destruct (Hlost eq_refl) as (Hrows & Hfail).
  destruct (Hfail _ _ _ eq_refl eq_refl eq_refl) as (Hthrow & Hobs).
  split; [by apply Hbroken|]. split; [exact Hthrow|].
  split; [by rewrite Hrows | exact Hobs].
Defined.

(** The routed [createReport] of an owner of the company, with a store
    that performs its requests and a storage that serves the uploads. *)
Lemma controller_createReport_run
    E body files userId w c parsed :
  store_accepts E → storage_reliable E →
  owned_companies (to_string (companyId body)) userId (db w) = [c] →
  body_entries E (observations body) = Some parsed →
  truthy (companyId body) = true → truthy (date body) = true →
  truthy (description body) = true →
  ∃ items w',
    ReportController.createReport E userId body files w
    = (Ok ({| rp_id := gen_uuid E (issued w); rp_fields := newReport body userId |},
           items), w')
    ∧ tbl_reports (db w')
      = tbl_reports (db w)
        ++ [{| rp_id := gen_uuid E (issued w); rp_fields := newReport body userId |}]
    ∧ observation <$> items = entry_observation <$> parsed
    ∧ risk_level <$> items = (λ obs, js_or (riskLevel obs) (VStr "low")) <$> parsed
    ∧ report_id <$> items = replicate (length parsed) (gen_uuid E (issued w))
    ∧ image_url <$> items
      = (VStr ∘ public_url E <$> uploads (added w w'))
        ++ replicate (length parsed - length (files_list files)) VNull
    ∧ files_read (added w w')
      = file_path <$> take (length parsed) (files_list files)
    ∧ length (uploads (added w w')) = length (files_read (added w w'))
    ∧ (items ≠ [] → last (added w w') = Some (EvDb (InsertObservations items))).
Proof.
  intros Hacc Hrel Hown Hparse Hc Hd Hdesc.
  unfold ReportController.createReport, ReportController.parse_body_observations.
  rewrite Hparse, run_bind, run_ret. cbv beta iota. rewrite Hc, Hd, Hdesc.
  cbn [negb orb].
  rewrite run_bind, (select_company_owned _ _ _ _ _ Hown (Hacc _ _)).
  cbv beta iota.
  rewrite run_bind, insert_report_run by apply Hacc. cbv beta iota.
  set (newid := gen_uuid E (issued (logged _ w))).
  set (row := {| rp_id := newid; rp_fields := _ |}).
  set (w2 := Build_world _ _ _ _ _).
  rewrite run_bind.
  destruct (controller_items_run E files newid userId parsed 0 w2 Hrel)
    as (items & w3 & evs & Hitems & Hdb3 & Htr3 & Hev & Hread & Hlen & Himg & Hobs
        & Hrisk & Hrep).
  cbn [rp_id row]. rewrite Hitems. rewrite drop_0 in Hread, Hlen, Himg.
  rewrite run_bind.
  set (ins := match items with [] => mret tt | _ :: _ => _ end).
  assert (∃ w4 dbev,
            ins w3 = (Ok tt, w4)
            ∧ tbl_reports (db w4) = tbl_reports (db w) ++ [row]
            ∧ trace w4 = trace w3 ++ dbev
            ∧ Forall (λ ev, ∃ q, ev = EvDb q) dbev
            ∧ (items ≠ [] → dbev = [EvDb (InsertObservations items)]))
    as (w4 & dbev & -> & Hreports & Htr4 & Hdbev & Hlast).
  { unfold ins. destruct items as [|it items'] eqn:Hit.
    - exists w3, []. rewrite run_ret, !app_nil_r, Hdb3. by repeat split.
    - rewrite <- Hit. rewrite run_bind. unfold insert_observations.
      rewrite store_run. simpl. rewrite Hacc. simpl. rewrite run_ret.
      eexists _, [_]. split; [reflexivity|]. simpl. rewrite Hdb3. simpl.
      split; [done|]. split; [done|]. split; [|done].
      repeat constructor; by eexists. }
  rewrite run_ret. exists items, w4. split; [reflexivity|].
  split; [done|]. split; [done|]. split; [done|]. split; [done|].
  assert (added w w4
          = [EvDb (SelectCompany (to_string (companyId body)) userId);
             EvDb (InsertReport (newReport body userId))] ++ evs ++ dbev) as ->.
  { apply added_app. rewrite Htr4, Htr3. unfold w2. simpl.
    by rewrite <- !app_assoc. }
  rewrite !files_read_app, !uploads_app.
  assert (uploads dbev = [] ∧ files_read dbev = []) as [-> ->].
  { clear -Hdbev. induction Hdbev as [|ev l [q ->] _ [IH1 IH2]]; [done|].
    by split. }
  simpl. rewrite !app_nil_r.
  split; [done|]. split; [done|]. split; [by rewrite Hread, length_fmap|].
  intros Hne. rewrite (Hlast Hne), !app_comm_cons.
  apply last_snoc.
Qed.

(** X8.  The routed [createReport] pairs the uploaded files with the
    observations by position: when the body has the
    required fields, the store performs its requests and the storage serves
    the uploads, the call answers with the new report and one item per
    entry, each carrying the id of the new report; the files read are the
    first files, as many as there are entries; the image of the i-th item is
    the public URL of the i-th upload, and [null] past the last file; and
    when there are items the last request of the call is the one insert of
    all of them. *)
Theorem routed_createReport_pairs_files_by_index
    E body files userId w c parsed :
  store_accepts E → storage_reliable E →
  owned_companies (to_string (companyId body)) userId (db w) = [c] →
  body_entries E (observations body) = Some parsed →
  truthy (companyId body) = true → truthy (date body) = true →
  truthy (description body) = true →
  ∃ items w',
    ReportController.createReport E userId body files w
    = (Ok ({| rp_id := gen_uuid E (issued w); rp_fields := newReport body userId |},
           items), w')
    ∧ tbl_reports (db w')
      = tbl_reports (db w)
        ++ [{| rp_id := gen_uuid E (issued w); rp_fields := newReport body userId |}]
    ∧ observation <$> items = entry_observation <$> parsed
    ∧ risk_level <$> items = (λ obs, js_or (riskLevel obs) (VStr "low")) <$> parsed
    ∧ report_id <$> items = replicate (length parsed) (gen_uuid E (issued w))
    ∧ image_url <$> items
      = (VStr ∘ public_url E <$> uploads (added w w'))
        ++ replicate (length parsed - length (files_list files)) VNull
    ∧ files_read (added w w')
      = file_path <$> take (length parsed) (files_list files)
    ∧ length (uploads (added w w')) = length (files_read (added w w'))
    ∧ (items ≠ [] → last (added w w') = Some (EvDb (InsertObservations items))).
Proof.
  exact (controller_createReport_run E body files userId w c parsed).
Qed.

Lemma routed_createReport_pairs_files_witness :
  ∃ row items w',
    ReportController.createReport Sample.calm "u1" Cases.two_observations
      Cases.one_photo Sample.world0 = (Ok (row, items), w')
    ∧ observation <$> items = [VStr "Loose handrail"; VStr "Oil spill"]
    ∧ files_read (added Sample.world0 w') = ["uploads/3f9c2a"]
    ∧ ∃ url, image_url <$> items = [VStr url; VNull].
Proof.
  destruct (routed_createReport_pairs_files_by_index Sample.calm
              Cases.two_observations Cases.one_photo "u1" Sample.world0
              Sample.company_c1
              [Sample.entry VUndefined "Loose handrail";
               {| entry_id := VUndefined; entry_observation := VStr "Oil spill";
                  riskLevel := VStr "high"; imageUrl := VUndefined;
                  newImage := VUndefined; tempId := VUndefined |}])
    as (items & w' & Hrun & _ & Hobs & _ & _ & Himg & Hread & Hlen & _).
  - intros t q. reflexivity.
  - split; intros p; reflexivity.
  - reflexivity.
  - reflexivity.
  - reflexivity.
  - reflexivity.
  - reflexivity.
  - eexists _, items, w'. split; [exact Hrun|]. split; [exact Hobs|].
    split; [exact Hread|].
    rewrite Hread in Hlen. simpl in Hlen.
    destruct (uploads (added Sample.world0 w')) as [|p [|]]; try discriminate.
    eexists. exact Himg.
Defined.

(** X9.  [uploadImageBuffer] and the [uploadImage] of the routed handlers
    are the same computation, and [uploadImageFromPath] is the read of the
    file followed by [uploadImageBuffer] on the last segment of the path.  A
    failing [uploadImageBuffer] leaves the bucket as it was, and the object
    it asks the storage to store is [<userId>/<uuid>.<ext>] where [ext] is
    the text after the last dot of the original name (the whole name when it
    has no dot). *)
Theorem buffer_upload_names_by_last_extension E originalName userId w :
  let run := ImageUtils.uploadImageBuffer E originalName userId w in
  ReportController.uploadImage E originalName userId w = run
  ∧ (∀ filePath w0,
       ImageUtils.uploadImageFromPath E filePath userId w0
       = (readFileSync E filePath;;
          ImageUtils.uploadImageBuffer E
            (to_string (js_pop (split_on "/" filePath))) userId) w0)
  ∧ (∀ e, run.1 = Throw e → bucket run.2 = bucket w)
  ∧ ∀ p, EvUpload p ∈ added w run.2 →
      (mentions "." originalName = false →
       p = userId +:+ "/" +:+ gen_uuid E (issued w) +:+ "." +:+ originalName)
      ∧ (∀ stem ext, originalName = stem +:+ "." +:+ ext →
           mentions "." ext = false →
           p = userId +:+ "/" +:+ gen_uuid E (issued w) +:+ "." +:+ ext).
Proof.
  intros run. split; [reflexivity|]. split.
  { intros filePath w0. unfold ImageUtils.uploadImageFromPath,
      ImageUtils.uploadImageBuffer.
    rewrite try_catch_rethrow, !run_bind.
    destruct (readFileSync E filePath w0) as [[[]|e] w1]; [|done].
    by rewrite try_catch_rethrow. }
  subst run. rewrite uploadImageBuffer_run. cbv zeta.
  destruct (upload_refused E _) as [msg|]; simpl.
  - split; [done|]. intros p Hp.
    erewrite added_app in Hp; [|reflexivity].
    apply list_elem_of_singleton in Hp. injection Hp as ->.
    unfold buffer_path. split.
    + intros Hdot. by rewrite (pop_split_free _ _ Hdot).
    + intros stem ext -> Hext.
      change (stem +:+ "." +:+ ext) with (stem +:+ String "." ext).
      by rewrite (pop_split_app "." stem ext Hext).
  - split; [done|]. intros p Hp.
    erewrite added_app in Hp; [|reflexivity].
    apply list_elem_of_singleton in Hp. injection Hp as ->.
    unfold buffer_path. split.
    + intros Hdot. by rewrite (pop_split_free _ _ Hdot).
    + intros stem ext -> Hext.
      change (stem +:+ "." +:+ ext) with (stem +:+ String "." ext).
      by rewrite (pop_split_app "." stem ext Hext).
Qed.

(** ** Deleting a report: the tables and the storage *)

Lemma removals_app a b : removals (a ++ b) = removals a ++ removals b.
Proof. unfold removals. by rewrite omap_app. Qed.

Lemma deleteImage_run E url w :
  ∃ b w',
    ImageUtils.deleteImage E url w = (Ok b, w')
    ∧ db w' = db w
    ∧ (truthy url = false → b = true ∧ w' = w)
    ∧ (truthy url = true → url_pathname E (to_string url) = None →
       b = false ∧ w' = w)
    ∧ (∀ pathname,
         truthy url = true → url_pathname E (to_string url) = Some pathname →
         trace w' = trace w ++ [EvRemove [ImageUtils.storage_path pathname]]
         ∧ match remove_answer E (ImageUtils.storage_path pathname) with
           | RemoveDone =>
               b = true
               ∧ bucket w' = filter (λ p, p ≠ ImageUtils.storage_path pathname)
                                    (bucket w)
           | _ => b = false ∧ bucket w' = bucket w
           end).
Proof.
  unfold ImageUtils.deleteImage, try_catch.
  destruct (truthy url) eqn:Ht; simpl.
  - destruct (url_pathname E (to_string url)) as [pathname|] eqn:Hp.
    + unfold storage_remove, emit. run.
      destruct (remove_answer E (ImageUtils.storage_path pathname)) eqn:Hr; run;
        eexists _, _; (split; [reflexivity|]); simpl; (split; [done|]);
        (split; [done|]); (split; [done|]); intros pn _ [= <-]; rewrite Hr;
        (split; [done|]); done.
    + run. eexists _, _. split; [reflexivity|]. repeat split; try done.
  - run. eexists _, _. split; [reflexivity|]. repeat split; try done.
Qed.

Lemma cleanup_run E obs w :
  ∃ w', cleanup E obs w = (Ok tt, w') ∧ db w' = db w
        ∧ ∃ evs, trace w' = trace w ++ evs
                 ∧ removals evs = option_list (image_removal E obs).
Proof.
  unfold cleanup, image_removal.
  destruct (deleteImage_run E (ob_image_url obs) w)
    as (b & w' & Hrun & Hdb & Hfalsy & Hbad & Hgood).
  destruct (truthy (ob_image_url obs)) eqn:Ht.
  - rewrite run_bind, Hrun, run_ret. exists w'. split; [done|]. split; [done|].
    destruct (url_pathname E (to_string (ob_image_url obs))) as [pn|] eqn:Hp.
    + destruct (Hgood pn eq_refl eq_refl) as [Htr _]. by eexists.
    + destruct (Hbad eq_refl eq_refl) as [_ ->]. exists []. by rewrite app_nil_r.
  - rewrite run_ret. exists w. split; [done|]. split; [done|].
    exists []. by rewrite app_nil_r.
Qed.

Lemma cleanup_loop_run E (l : list observation_row) : ∀ w,
  ∃ w', for_of l (cleanup E) w = (Ok tt, w') ∧ db w' = db w
        ∧ ∃ evs, trace w' = trace w ++ evs
                 ∧ removals evs = omap (image_removal E) l.
Proof.
  induction l as [|obs l IH]; intros w.
  - exists w. split; [done|]. split; [done|]. exists []. by rewrite app_nil_r.
  - simpl. rewrite run_bind.
    destruct (cleanup_run E obs w) as (w1 & -> & Hdb1 & e1 & Htr1 & Hrm1).
    destruct (IH w1) as (w2 & -> & Hdb2 & e2 & Htr2 & Hrm2).
    exists w2. split; [done|]. split; [congruence|].
    exists (e1 ++ e2). split; [by rewrite Htr2, Htr1, app_assoc|].
    rewrite removals_app, Hrm1, Hrm2.
    by destruct (image_removal E obs).
Qed.

Lemma service_deleteReport_unfold E reportId userId :
  ReportService.deleteReport E reportId userId
  = (report ← ReportService.getReport E reportId userId;
     r ← delete_report E reportId userId;
     match r with
     | Failure msg => throw (ApiError 400 msg)
     | Answer _ => for_of (view_observations report) (cleanup E);; mret true
     end).
Proof. reflexivity. Qed.

Lemma select_report_run E reportId userId w :
  select_report E reportId userId w
  = (Ok (match db_refuses E (db w) (SelectReport reportId userId) with
         | Some msg => Failure msg
         | None => map_response (with_observations (db w))
                     (single (owned_reports reportId userId (db w)))
         end),
     logged (EvDb (SelectReport reportId userId)) w).
Proof.
  unfold select_report. rewrite store_run. simpl.
  by destruct (db_refuses E (db w) _).
Qed.

Lemma single_Answer {A} (l : list A) x : single l = Answer x → l = [x].
Proof. destruct l as [|y [|z l]]; simpl; intros; by simplify_eq. Qed.

Lemma owned_report_id reportId userId t r :
  owned_reports reportId userId t = [r] → rp_id r = reportId.
Proof.
  intros H. assert (r ∈ owned_reports reportId userId t) as Hin by (rewrite H; by left).
  apply list_elem_of_filter in Hin. tauto.
Qed.

(** X10.  A failing [deleteReport] of the service has changed nothing: the
    tables and the bucket are as before and no removal was asked of the
    storage.  It fails either with status 404 and ["Report not found"] or
    with status 400 and the message of the store that refused the delete. *)
Theorem deleteReport_failure_touches_nothing E reportId userId w e w' :
  ReportService.deleteReport E reportId userId w = (Throw e, w') →
  db w' = db w ∧ bucket w' = bucket w ∧ removals (added w w') = []
  ∧ (e = ApiError 404 "Report not found"
     ∨ ∃ msg, e = ApiError 400 msg
              ∧ db_refuses E (db w) (DeleteReport reportId userId) = Some msg).
Proof.
  rewrite service_deleteReport_unfold. unfold ReportService.getReport.
  rewrite !run_bind, select_report_run.
  destruct (match db_refuses E (db w) (SelectReport reportId userId) with
            | Some msg => _ | None => _ end) as [view|msg0] eqn:Hsel.
  - rewrite run_ret, run_bind. unfold delete_report. rewrite store_run. simpl.
    destruct (db_refuses E (db w) (DeleteReport reportId userId)) as [msg|] eqn:Hdel.
    + rewrite run_throw. intros [= <- <-]. simpl. repeat split; try done.
      * erewrite added_app; [|simpl; by rewrite <- app_assoc]. done.
      * right. by exists msg.
    + simpl. rewrite run_bind.
      match goal with |- context [for_of _ _ ?w2] =>
        destruct (cleanup_loop_run E (view_observations view) w2) as (w3 & -> & _)
      end.
      by rewrite run_ret.
  - rewrite run_throw. intros [= <- <-]. simpl. repeat split; try done.
    + erewrite added_app; [|reflexivity]. done.
    + by left.
Qed.

Lemma deleteReport_failure_witness :
  ReportService.deleteReport Sample.calm "r1" "u2" Sample.world0
  = (Throw (ApiError 404 "Report not found"),
     logged (EvDb (SelectReport "r1" "u2")) Sample.world0)
  ∧ bucket (ReportService.deleteReport Sample.calm "r1" "u2" Sample.world0).2
    = bucket Sample.world0.
Proof.
  split; [reflexivity|].
  destruct (ReportService.deleteReport Sample.calm "r1" "u2" Sample.world0)
    as [[b|e] w'] eqn:Hrun; [vm_compute in Hrun; discriminate|].
  destruct (deleteReport_failure_touches_nothing Sample.calm "r1" "u2"
              Sample.world0 e w' Hrun) as (_ & Hb & _).
  exact Hb.
Defined.

Lemma delete_report_owned_run E reportId userId w r :
  owned_reports reportId userId (db w) = [r] →
  db_refuses E (db w) (DeleteReport reportId userId) = None →
  delete_report E reportId userId w
  = (Ok (Answer tt),
     {| db := {| tbl_companies := tbl_companies (db w);
                 tbl_reports :=
                   filter (λ r, ¬ (rp_id r = reportId
                                   ∧ rp_user_id (rp_fields r) = userId))
                          (tbl_reports (db w));
                 tbl_observations :=
                   filter (λ o, ob_report_id o ≠ reportId)
                          (tbl_observations (db w)) |};
        bucket := bucket w; issued := issued w; ticks := ticks w;
        trace := trace w ++ [EvDb (DeleteReport reportId userId)] |}).
Proof.
  intros Hone Hdel. unfold delete_report. rewrite store_run. simpl.
  by rewrite Hdel, Hone.
Qed.

Lemma service_deleteReport_Ok E reportId userId w b w' :
  ReportService.deleteReport E reportId userId w = (Ok b, w') →
  b = true
  ∧ (∃ r, owned_reports reportId userId (db w) = [r])
  ∧ tbl_companies (db w') = tbl_companies (db w)
  ∧ tbl_reports (db w')
    = filter (λ r, ¬ (rp_id r = reportId ∧ rp_user_id (rp_fields r) = userId))
             (tbl_reports (db w))
  ∧ tbl_observations (db w')
    = filter (λ o, ob_report_id o ≠ reportId) (tbl_observations (db w))
  ∧ removals (added w w')
    = omap (image_removal E) (observations_of reportId (db w)).
Proof.
  rewrite service_deleteReport_unfold. unfold ReportService.getReport.
  rewrite !run_bind, select_report_run.
  destruct (db_refuses E (db w) (SelectReport reportId userId)) as [?|] eqn:Hsel;
    [by simpl|].
  destruct (single (owned_reports reportId userId (db w))) as [r|?] eqn:Hone;
    [|by simpl].
  apply single_Answer in Hone. pose proof (owned_report_id _ _ _ _ Hone) as Hid.
  cbn [map_response]. rewrite run_ret. cbv beta iota. rewrite run_bind.
  destruct (db_refuses E (db w) (DeleteReport reportId userId)) as [msg|] eqn:Hdel.
  { unfold delete_report. rewrite store_run. cbn [db logged]. rewrite Hdel.
    by simpl. }
  rewrite (delete_report_owned_run E reportId userId (logged _ w) r Hone Hdel).
  cbv beta iota. rewrite run_bind. cbn [view_observations with_observations].
  rewrite Hid.
  match goal with |- context [for_of _ _ ?w2] =>
    destruct (cleanup_loop_run E (observations_of reportId (db w)) w2)
      as (w3 & -> & Hdb & evs & Htr & Hrm)
  end.
  rewrite run_ret. intros [= <- <-]. split; [done|]. split; [by exists r|].
  rewrite Hdb. simpl. split; [done|]. split; [done|]. split; [done|].
  erewrite added_app; [|rewrite Htr; simpl; by rewrite <- !app_assoc].
  by rewrite !removals_app, Hrm.
Qed.

(** X11.  A [deleteReport] of the service that returns, returns [true].  The
    caller owned the report; the companies are as before; the report rows
    removed are the ones with that id and that owner; the observation rows
    removed are the ones of the report; and the removals asked of the
    storage are, in the order of the observations read before the delete,
    one request for each observation whose stored image is a URL. *)
Theorem deleteReport_removes_only_the_report E reportId userId w b w' :
  ReportService.deleteReport E reportId userId w = (Ok b, w') →
  b = true
  ∧ (∃ r, owned_reports reportId userId (db w) = [r])
  ∧ tbl_companies (db w') = tbl_companies (db w)
  ∧ tbl_reports (db w')
    = filter (λ r, ¬ (rp_id r = reportId ∧ rp_user_id (rp_fields r) = userId))
             (tbl_reports (db w))
  ∧ tbl_observations (db w')
    = filter (λ o, ob_report_id o ≠ reportId) (tbl_observations (db w))
  ∧ removals (added w w')
    = omap (image_removal E) (observations_of reportId (db w)).
Proof. apply service_deleteReport_Ok. Qed.

Lemma deleteReport_removes_only_the_report_witness :
  ∃ w',
    ReportService.deleteReport Sample.calm "r1" "u1" Sample.world0 = (Ok true, w')
    ∧ tbl_companies (db w') = [Sample.company_c1]
    ∧ removals (added Sample.world0 w') = [["u1/a.png"]; ["u1/b.png"]].
Proof.
  destruct (ReportService.deleteReport Sample.calm "r1" "u1" Sample.world0)
    as [[b|e] w'] eqn:Hrun; [|vm_compute in Hrun; discriminate].
  destruct (deleteReport_removes_only_the_report Sample.calm "r1" "u1"
              Sample.world0 b w' Hrun) as (-> & _ & Hc & _ & _ & Hrm).
  exists w'. split; [reflexivity|]. split; [exact Hc|]. rewrite Hrm. reflexivity.
Defined.

Lemma image_path_slash_free E obs p :
  ReportController.image_path E obs = Some p → mentions "/" p = false.
Proof.
  unfold ReportController.image_path.
  destruct (url_pathname E _) as [pathname|]; [|done]. simpl. intros [= <-].
  destruct (pop_split_suffix "/" pathname) as (pre & r & -> & _ & Hr). done.
Qed.

Lemma imagePaths_slash_free E rows paths :
  ReportController.imagePaths E rows = Some paths →
  Forall (λ p, mentions "/" p = false) paths.
Proof.
  unfold ReportController.imagePaths. intros H. apply mapM_Some in H.
  induction H as [|o p l ps Hop _ IH]; [done|].
  constructor; [by eapply image_path_slash_free | done].
Qed.

Lemma storage_remove_all_run answer paths w :
  ReportController.storage_remove_all answer paths w
  = match answer paths with
    | RemoveDone =>
        (Ok (Answer tt),
         {| db := db w; bucket := filter (λ p, p ∉ paths) (bucket w);
            issued := issued w; ticks := ticks w;
            trace := trace w ++ [EvRemove paths] |})
    | RemoveError msg => (Ok (Failure msg), logged (EvRemove paths) w)
    | RemoveThrows msg => (Throw (JsError msg), logged (EvRemove paths) w)
    end.
Proof.
  unfold ReportController.storage_remove_all, emit. run.
  by destruct (answer paths).
Qed.

Lemma controller_cleanup_run E answer observations w :
  let run := controller_cleanup E answer observations w in
  db run.2 = db w
  ∧ ∃ evs, trace run.2 = trace w ++ evs
           ∧ Forall (Forall (λ p, mentions "/" p = false)) (removals evs)
           ∧ (∀ p, p ∈ bucket w → mentions "/" p = true → p ∈ bucket run.2)
           ∧ bucket run.2 ⊆ bucket w.
Proof.
  unfold controller_cleanup.
  assert (db w = db w
          ∧ ∃ evs, trace w = trace w ++ evs
              ∧ Forall (Forall (λ p, mentions "/" p = false)) (removals evs)
              ∧ (∀ p, p ∈ bucket w → mentions "/" p = true → p ∈ bucket w)
              ∧ bucket w ⊆ bucket w) as Hquiet.
  { split; [done|]. exists []. rewrite app_nil_r. repeat split; done. }
  destruct (data observations) as [[|o rows]|]; simpl; try exact Hquiet.
  destruct (ReportController.imagePaths E (o :: rows)) as [[|p paths]|] eqn:Hpaths;
    simpl; try exact Hquiet.
  apply imagePaths_slash_free in Hpaths.
  rewrite run_bind, storage_remove_all_run.
  destruct (answer (p :: paths)); simpl; (split; [done|]);
    exists [EvRemove (p :: paths)]; (split; [done|]);
    (split; [constructor; [exact Hpaths | constructor]|]); split; try done.
  - intros q Hq Hslash. apply list_elem_of_filter. split; [|done].
    intros Hin. rewrite Forall_forall in Hpaths. apply Hpaths in Hin. congruence.
  - intros q Hq. apply list_elem_of_filter in Hq. tauto.
Qed.

Lemma controller_deleteReport_unfold E answer reportId userId :
  ReportController.deleteReport E answer reportId userId
  = (existingReport ← select_report E reportId userId;
     match existingReport with
     | Failure _ => throw (ApiError 404 "Report not found")
     | Answer _ =>
         observations ← select_observations E reportId;
         r ← delete_report E reportId userId;
         match r with
         | Failure msg => throw (ApiError 400 msg)
         | Answer _ =>
             controller_cleanup E answer observations;;
             mret "Report deleted successfully"
         end
     end).
Proof. reflexivity. Qed.

#[global] Instance keeps_folders_preorder : PreOrder keeps_folders.
Proof.
  split; [by intros w p|]. intros a b c Hab Hbc p Hp Hs.
  apply Hbc; [by apply Hab | done].
Qed.

Lemma store_keeps_folders {A} E q (perform : world → response A * world) :
  (∀ w, bucket (perform w).2 = bucket w) →
  respects keeps_folders (store E q perform).
Proof.
  intros Hp. apply respects_store; [apply _ | by intros w p | ].
  intros w p Hin _. by rewrite Hp.
Qed.

Lemma controller_cleanup_keeps_folders E answer observations :
  respects keeps_folders (controller_cleanup E answer observations).
Proof.
  intros w. destruct (controller_cleanup_run E answer observations w)
    as (_ & evs & _ & _ & H & _). exact H.
Qed.

Lemma controller_cleanup_names_only E answer observations :
  respects (adds names_only) (controller_cleanup E answer observations).
Proof.
  intros w. destruct (controller_cleanup_run E answer observations w)
    as (_ & evs & Htr & Hrm & _). exists evs. split; [done|].
  clear Htr. induction evs as [|ev evs IH]; [done|].
  destruct ev; simpl in *; try (constructor; [done|by apply IH]).
  apply Forall_cons in Hrm as [H1 H2]. constructor; [done | by apply IH].
Qed.

Lemma controller_deleteReport_keeps_folders E answer reportId userId :
  respects keeps_folders (ReportController.deleteReport E answer reportId userId).
Proof.
  rewrite controller_deleteReport_unfold.
  rbind; [by apply store_keeps_folders|].
  destruct a; [|rret].
  rbind; [by apply store_keeps_folders|].
  rbind; [by apply store_keeps_folders|].
  destruct a1; [|rret].
  rbind; [apply controller_cleanup_keeps_folders | rret].
Qed.

Lemma controller_deleteReport_names_only E answer reportId userId :
  respects (adds names_only) (ReportController.deleteReport E answer reportId userId).
Proof.
  rewrite controller_deleteReport_unfold.
  rbind; [by apply select_report_adds|].
  destruct a; [|rret].
  rbind; [by apply select_observations_adds|].
  rbind; [by apply delete_report_adds|].
  destruct a1; [|rret].
  rbind; [apply controller_cleanup_names_only | rret].
Qed.

Lemma removals_in evs ps : ps ∈ removals evs ↔ EvRemove ps ∈ evs.
Proof.
  unfold removals. rewrite list_elem_of_omap. split.
  - intros (ev & Hev & H). destruct ev; by simplify_eq.
  - intros H. by exists (EvRemove ps).
Qed.

(** X12.  The routed [deleteReport] never removes an object stored in a
    folder.  It names the images by the last segment of their pathname only,
    so no removal request of the call names a path that holds a slash, and
    every such object of the bucket (the upload helpers store every image as
    [<userId>/<name>]) is still in the bucket after the call, whatever the
    store and the storage answer. *)
Theorem routed_deleteReport_keeps_folder_objects
    E answer reportId userId w p :
  p ∈ bucket w → mentions "/" p = true →
  let w' := (ReportController.deleteReport E answer reportId userId w).2 in
  p ∈ bucket w' ∧ ∀ ps, ps ∈ removals (added w w') → p ∉ ps.
Proof.
  intros Hin Hslash w'. split.
  - by apply (controller_deleteReport_keeps_folders E answer reportId userId w).
  - intros ps Hps Hp.
    pose proof (controller_deleteReport_names_only E answer reportId userId w) as H.
    apply adds_added in H as [_ Hall]. apply removals_in in Hps.
    rewrite Forall_forall in Hall. specialize (Hall _ Hps). simpl in Hall.
    rewrite Forall_forall in Hall. apply Hall in Hp. congruence.
Qed.

Lemma routed_deleteReport_keeps_folder_objects_witness :
  "u1/a.png" ∈ bucket Sample.world0
  ∧ "u1/a.png"
    ∈ bucket (ReportController.deleteReport Sample.calm Cases.removes_all "r1" "u1"
                Sample.world0).2
  ∧ removals (added Sample.world0
                (ReportController.deleteReport Sample.calm Cases.removes_all
                   "r1" "u1" Sample.world0).2) = [["a.png"; "b.png"]].
Proof.
  assert ("u1/a.png" ∈ bucket Sample.world0) as Hin by left.
  split; [exact Hin|].
  destruct (routed_deleteReport_keeps_folder_objects Sample.calm Cases.removes_all
              "r1" "u1" Sample.world0 "u1/a.png" Hin eq_refl) as [Hkept _].
  split; [exact Hkept | reflexivity].
Defined.

Lemma select_observations_accepted E reportId w :
  db_refuses E (db w) (SelectObservations reportId) = None →
  select_observations E reportId w
  = (Ok (Answer (observations_of reportId (db w))),
     logged (EvDb (SelectObservations reportId)) w).
Proof.
  intros Hacc. unfold select_observations. rewrite store_run. simpl.
  by rewrite Hacc.
Qed.

Lemma select_report_owned E reportId userId w r :
  owned_reports reportId userId (db w) = [r] →
  db_refuses E (db w) (SelectReport reportId userId) = None →
  select_report E reportId userId w
  = (Ok (Answer (with_observations (db w) r)),
     logged (EvDb (SelectReport reportId userId)) w).
Proof. intros Hone Hacc. by rewrite select_report_run, Hacc, Hone. Qed.

Lemma service_deleteReport_owned E reportId userId w r :
  owned_reports reportId userId (db w) = [r] →
  db_refuses E (db w) (SelectReport reportId userId) = None →
  db_refuses E (db w) (DeleteReport reportId userId) = None →
  ∃ w', ReportService.deleteReport E reportId userId w = (Ok true, w').
Proof.
  intros Hone Hsel Hdel. rewrite service_deleteReport_unfold.
  unfold ReportService.getReport.
  rewrite !run_bind, (select_report_owned _ _ _ _ _ Hone Hsel), run_ret.
  cbv beta iota. rewrite run_bind.
  rewrite (delete_report_owned_run E reportId userId (logged _ w) r Hone Hdel).
  cbv beta iota. rewrite run_bind.
  match goal with |- context [for_of ?l _ ?w2] =>
    destruct (cleanup_loop_run E l w2) as (w3 & -> & _)
  end.
  rewrite run_ret. by eexists.
Qed.

(** X13.  The routed [deleteReport] builds the image paths after it has
    deleted the report.  When an observation of the report has a stored
    image that is a non-empty text and not a URL, the call of the owner
    throws, the report and its observations are gone, no removal was asked
    and the bucket is as before.  The service's [deleteReport] on the same
    request returns [true]. *)
Theorem routed_deleteReport_fails_after_deleting
    E answer reportId userId w r obs :
  store_accepts E →
  owned_reports reportId userId (db w) = [r] →
  obs ∈ observations_of reportId (db w) →
  truthy (ob_image_url obs) = true →
  url_pathname E (to_string (ob_image_url obs)) = None →
  (∃ w',
     ReportController.deleteReport E answer reportId userId w
     = (Throw (JsError "Invalid URL"), w')
     ∧ owned_reports reportId userId (db w') = []
     ∧ observations_of reportId (db w') = []
     ∧ bucket w' = bucket w
     ∧ removals (added w w') = [])
  ∧ ∃ w'', ReportService.deleteReport E reportId userId w = (Ok true, w'').
Proof.
  intros Hacc Hone Hobs Htruthy Hbad. split;
    [|by apply (service_deleteReport_owned E reportId userId w r)].
  rewrite controller_deleteReport_unfold.
  rewrite run_bind, (select_report_owned _ _ _ _ _ Hone (Hacc _ _)).
  cbv beta iota. rewrite run_bind.
  rewrite select_observations_accepted by apply Hacc.
  cbv beta iota. rewrite run_bind.
  rewrite (delete_report_owned_run E reportId userId (logged _ (logged _ w)) r Hone
             (Hacc _ _)).
  cbv beta iota. rewrite run_bind. unfold controller_cleanup.
  cbn [data db logged].
  destruct (observations_of reportId (db w)) as [|o0 rows] eqn:Hrows;
    [by apply elem_of_nil in Hobs|].
  assert (ReportController.imagePaths E (o0 :: rows) = None) as ->.
  { unfold ReportController.imagePaths. apply mapM_None.
    apply Exists_exists. exists obs. split.
    - apply list_elem_of_filter. by split.
    - unfold ReportController.image_path. by rewrite Hbad. }
  rewrite run_throw. eexists. split; [reflexivity|]. simpl.
  unfold owned_reports, observations_of. simpl.
  split; [|split; [|split; [done|]]].
  - apply filter_none. intros x Hx. apply list_elem_of_filter in Hx. tauto.
  - apply filter_none. intros x Hx. apply list_elem_of_filter in Hx. tauto.
  - erewrite added_app; [|simpl; by rewrite <- !app_assoc]. done.
Qed.

Lemma routed_deleteReport_fails_after_deleting_witness :
  (∃ w',
     ReportController.deleteReport Sample.calm Cases.removes_all "r1" "u1"
       Cases.world_pending = (Throw (JsError "Invalid URL"), w')
     ∧ tbl_reports (db w') = [] ∧ bucket w' = ["u1/a.png"])
  ∧ ∃ w'', ReportService.deleteReport Sample.calm "r1" "u1" Cases.world_pending
           = (Ok true, w'').
Proof.
  destruct (routed_deleteReport_fails_after_deleting Sample.calm
              Cases.removes_all "r1" "u1" Cases.world_pending Sample.report_r1
              Cases.obs_3) as [(w' & Hrun & _ & _ & Hb & _) Hservice].
  - intros t q. reflexivity.
  - reflexivity.
  - vm_compute. right. left.
  - reflexivity.
  - reflexivity.
  - split; [|exact Hservice]. exists w'. split; [exact Hrun|].
    split; [|exact Hb]. vm_compute in Hrun. by injection Hrun as <-.
Defined.

(** ** Update calls: the fields written, foreign reports and refused writes *)

Lemma update_fields_run E reportId userId reportData w w' :
  ReportService.update_fields E reportId userId reportData w = (Ok tt, w') →
  tbl_reports (db w')
  = (if has_keys (build_updates reportData)
     then update_row reportId userId (build_updates reportData) <$> tbl_reports (db w)
     else tbl_reports (db w)).
Proof.
  unfold ReportService.update_fields.
  destruct (has_keys (build_updates reportData)).
  - rewrite run_bind. unfold update_report. rewrite store_run. simpl.
    destruct (db_refuses E (db w) _); simpl; [by rewrite run_throw|].
    rewrite run_ret. by intros [= <-].
  - rewrite run_ret. by intros [= <-].
Qed.

Lemma apply_no_updates u f : has_keys u = false → apply_updates u f = f.
Proof.
  unfold has_keys. destruct u as [[] [] [] [] [] [] [] []]; simpl; try done.
  by destruct f.
Qed.

Lemma update_row_fields reportId userId u r :
  rp_id r = reportId → rp_user_id (rp_fields r) = userId →
  update_row reportId userId u r
  = {| rp_id := reportId; rp_fields := apply_updates u (rp_fields r) |}.
Proof. intros <- <-. unfold update_row. by rewrite decide_True. Qed.

Lemma update_row_other reportId userId u r :
  ¬ (rp_id r = reportId ∧ rp_user_id (rp_fields r) = userId) →
  update_row reportId userId u r = r.
Proof. intros H. unfold update_row. by rewrite decide_False. Qed.

Lemma updateReport_view_report E reportId reportData files userId w view w' :
  ReportService.updateReport E reportId reportData files userId w = (Ok view, w') →
  ∃ r,
    owned_reports reportId userId (db w) = [r]
    ∧ view_report view
      = {| rp_id := reportId;
           rp_fields := apply_updates (build_updates reportData) (rp_fields r) |}
    ∧ ∀ x, x ∈ tbl_reports (db w) →
           ¬ (rp_id x = reportId ∧ rp_user_id (rp_fields x) = userId) →
           x ∈ tbl_reports (db w').
Proof.
  intros H. apply updateReport_Ok in H as (v0 & w1 & w2 & w3 & H0 & H1 & H2 & H3).
  apply getReport_Ok in H0 as (_ & Hown & Hdb1 & _).
  apply update_fields_run in H1. rewrite Hdb1 in H1.
  pose proof (observations_block_keeps_reports E reportId userId reportData files w2)
    as Hkeep. rewrite H2 in Hkeep. unfold on_db, same_reports in Hkeep.
  simpl in Hkeep.
  apply getReport_Ok in H3 as (_ & Hown3 & Hdb3 & _).
  exists (view_report v0). split; [done|].
  assert (view_report v0 ∈ owned_reports reportId userId (db w)) as Hin
    by (rewrite Hown; by left).
  apply list_elem_of_filter in Hin as [[Hid Huser] _].
  unfold owned_reports in Hown, Hown3. rewrite Hkeep, H1 in Hown3.
  rewrite Hdb3, Hkeep, H1.
  destruct (has_keys (build_updates reportData)) eqn:Hkeys.
  - rewrite owned_after_update, Hown in Hown3. simpl in Hown3.
    injection Hown3 as <-. split; [by apply update_row_fields|].
    intros x Hx Hother. apply list_elem_of_fmap.
    exists x. split; [|done]. by rewrite update_row_other.
  - rewrite Hown in Hown3. injection Hown3 as <-.
    rewrite apply_no_updates by done. split; [|done].
    destruct (view_report v0) as [i f]. simpl in *. by subst.
Qed.

(** X15.  The report returned by an update call of the service is the
    stored report with the supplied fields written over it.  [date],
    [description] and [status] are replaced when the value sent is truthy
    and kept otherwise; [contact], [verification], [recommendations] and
    [signature] are replaced by whatever is sent, [null] and the empty text
    included, and kept only when the field is absent; [visit_confirmation]
    becomes whether the value sent is [true] or ["true"]; the id, the owner
    and the company of the report never change; and every report that is not
    the report of the call is still in the table. *)
Theorem updateReport_writes_supplied_fields
    E reportId reportData files userId w view w' :
  ReportService.updateReport E reportId reportData files userId w = (Ok view, w') →
  ∃ r,
    owned_reports reportId userId (db w) = [r]
    ∧ rp_id (view_report view) = reportId
    ∧ (let old := rp_fields r in
       let new := rp_fields (view_report view) in
       rp_user_id new = userId
       ∧ rp_company_id new = rp_company_id old
       ∧ rp_date new
         = (if truthy (date reportData) then date reportData else rp_date old)
       ∧ rp_description new
         = (if truthy (description reportData) then description reportData
            else rp_description old)
       ∧ rp_status new
         = (if truthy (status reportData) then status reportData else rp_status old)
       ∧ rp_contact new
         = match contact reportData with VUndefined => rp_contact old | v => v end
       ∧ rp_verification new
         = match verification reportData with
           | VUndefined => rp_verification old | v => v end
       ∧ rp_recommendations new
         = match recommendations reportData with
           | VUndefined => rp_recommendations old | v => v end
       ∧ rp_signature new
         = match signature reportData with VUndefined => rp_signature old | v => v end
       ∧ rp_visit_confirmation new
         = match visitConfirmation reportData with
           | VUndefined => rp_visit_confirmation old
           | v => visit_confirmed v
           end)
    ∧ ∀ x, x ∈ tbl_reports (db w) →
           ¬ (rp_id x = reportId ∧ rp_user_id (rp_fields x) = userId) →
           x ∈ tbl_reports (db w').
Proof.
  intros H. apply updateReport_view_report in H as (r & Hown & Hview & Hother).
  exists r. split; [done|]. rewrite Hview. split; [done|]. split; [|done].
  assert (r ∈ owned_reports reportId userId (db w)) as Hin
    by (rewrite Hown; by left).
  apply list_elem_of_filter in Hin as [[_ Huser] _].
  simpl. unfold when_truthy, when_defined.
  split; [done|]. split; [done|].
  split; [by destruct (truthy (date reportData))|].
  split; [by destruct (truthy (description reportData))|].
  split; [by destruct (truthy (status reportData))|].
  split; [by destruct (contact reportData)|].
  split; [by destruct (verification reportData)|].
  split; [by destruct (recommendations reportData)|].
  split; [by destruct (signature reportData)|].
  by destruct (visitConfirmation reportData).
Qed.

Lemma updateReport_writes_supplied_fields_witness :
  ∃ view w',
    ReportService.updateReport Sample.calm "r1"
      {| companyId := VStr "c9"; date := VStr ""; contact := VStr "";
         description := VNull; verification := VUndefined;
         recommendations := VStr "Replace the handrail"; signature := VUndefined;
         visitConfirmation := VStr "yes"; status := VStr "finalized";
         observations := ObsAbsent; observationsToDelete := IdsAbsent |}
      None "u1" Sample.world0 = (Ok view, w')
    ∧ rp_date (rp_fields (view_report view)) = VStr "2025-05-27"
    ∧ rp_contact (rp_fields (view_report view)) = VStr ""
    ∧ rp_company_id (rp_fields (view_report view)) = VStr "c1"
    ∧ rp_status (rp_fields (view_report view)) = VStr "finalized"
    ∧ rp_visit_confirmation (rp_fields (view_report view)) = false.
Proof.
  destruct (ReportService.updateReport Sample.calm "r1"
              {| companyId := VStr "c9"; date := VStr ""; contact := VStr "";
                 description := VNull; verification := VUndefined;
                 recommendations := VStr "Replace the handrail";
                 signature := VUndefined; visitConfirmation := VStr "yes";
                 status := VStr "finalized"; observations := ObsAbsent;
                 observationsToDelete := IdsAbsent |}
              None "u1" Sample.world0) as [[view|e] w'] eqn:Hrun;
    [|vm_compute in Hrun; discriminate].
  destruct (updateReport_writes_supplied_fields _ _ _ _ _ _ _ _ Hrun)
    as (r & Hown & _ & (_ & Hc & Hd & _ & Hs & Hct & _ & _ & _ & Hv) & _).
  vm_compute in Hown. injection Hown as <-.
  exists view, w'. split; [reflexivity|].
  split; [exact Hd|]. split; [exact Hct|]. split; [exact Hc|].
  split; [exact Hs | exact Hv].
Defined.

Lemma select_report_none E reportId userId w :
  owned_reports reportId userId (db w) = [] →
  ∃ msg, select_report E reportId userId w
         = (Ok (Failure msg), logged (EvDb (SelectReport reportId userId)) w).
Proof.
  intros Hnone. rewrite select_report_run, Hnone.
  destruct (db_refuses E (db w) _); by eexists.
Qed.

(** X16.  A report that the caller does not own is not found.  When no row
    of table [reports] has the id and the caller as owner, [getReport],
    [updateReport] and [deleteReport] of the service and the routed
    [deleteReport] and [updateReport] (once its observations parse) all
    throw status 404 with ["Report not found"] after the one read of the
    report: nothing is written, no file is read and the storage is not
    asked. *)
Theorem report_of_another_user_is_not_found
    E answer reportId userId reportData files w :
  owned_reports reportId userId (db w) = [] →
  ReportService.getReport E reportId userId w
  = (Throw (ApiError 404 "Report not found"),
     logged (EvDb (SelectReport reportId userId)) w)
  ∧ ReportService.updateReport E reportId reportData files userId w
    = (Throw (ApiError 404 "Report not found"),
       logged (EvDb (SelectReport reportId userId)) w)
  ∧ ReportService.deleteReport E reportId userId w
    = (Throw (ApiError 404 "Report not found"),
       logged (EvDb (SelectReport reportId userId)) w)
  ∧ ReportController.deleteReport E answer reportId userId w
    = (Throw (ApiError 404 "Report not found"),
       logged (EvDb (SelectReport reportId userId)) w)
  ∧ (is_Some (body_entries E (observations reportData)) →
     ReportController.updateReport E reportId userId reportData files w
     = (Throw (ApiError 404 "Report not found"),
        logged (EvDb (SelectReport reportId userId)) w)).
Proof.
  intros Hnone. destruct (select_report_none E _ _ w Hnone) as (msg & Hsel).
  assert (ReportService.getReport E reportId userId w
          = (Throw (ApiError 404 "Report not found"),
             logged (EvDb (SelectReport reportId userId)) w)) as Hget.
  { unfold ReportService.getReport. by rewrite run_bind, Hsel. }
  split; [done|]. split; [|split; [|split]].
  - unfold ReportService.updateReport. by rewrite run_bind, Hget.
  - unfold ReportService.deleteReport. by rewrite run_bind, Hget.
  - unfold ReportController.deleteReport. by rewrite run_bind, Hsel.
  - intros [parsed Hp]. unfold ReportController.updateReport,
      ReportController.parse_body_observations.
    by rewrite Hp, run_bind, run_ret, run_bind, Hsel.
Qed.

Lemma report_of_another_user_witness :
  owned_reports "r1" "u2" (db Sample.world0) = []
  ∧ ReportService.updateReport Sample.calm "r1"
      (Sample.edits (ObsArray [Sample.entry (VStr "obs-1") "x"]) IdsAbsent)
      None "u2" Sample.world0
    = (Throw (ApiError 404 "Report not found"),
       logged (EvDb (SelectReport "r1" "u2")) Sample.world0)
  ∧ ReportController.deleteReport Sample.calm Cases.removes_all "r1" "u2"
      Sample.world0
    = (Throw (ApiError 404 "Report not found"),
       logged (EvDb (SelectReport "r1" "u2")) Sample.world0).
Proof.
  split; [reflexivity|].
  destruct (report_of_another_user_is_not_found Sample.calm Cases.removes_all
              "r1" "u2"
              (Sample.edits (ObsArray [Sample.entry (VStr "obs-1") "x"]) IdsAbsent)
              None Sample.world0 eq_refl) as (_ & Hupdate & _ & Hdelete & _).
  split; [exact Hupdate | exact Hdelete].
Defined.

Section Refused.
Variable E : env.
Hypothesis refused : refuses_observation_writes E.
Variables (reportId userId : string) (files : option (list upload_file)).

Lemma store_refused_run {A} q (perform : world → response A * world) w :
  is_Some (obs_op_of (EvDb q)) →
  ∃ msg, store E q perform w = (Ok (Failure msg), logged (EvDb q) w).
Proof.
  intros Hq. rewrite store_run. simpl. pose proof (refused (db w) q) as H.
  destruct (obs_op_of (EvDb q)); [|by destruct Hq].
  destruct H as [msg ->]. by exists msg.
Qed.

Lemma store_refused_unchanged {A} q (perform : world → response A * world) :
  is_Some (obs_op_of (EvDb q)) →
  respects (on_db unchanged) (store E q perform).
Proof.
  intros Hq w. destruct (store_refused_run q perform w Hq) as (msg & ->). done.
Qed.

Lemma service_step_refused existingObsMap obs :
  respects (on_db unchanged)
    (ReportService.process_observation E reportId userId files existingObsMap obs).
Proof.
  unfold ReportService.process_observation.
  destruct (found_of existingObsMap obs) as [existing|].
  - unfold ReportService.update_existing. rbind.
    + ruse service_existing_image_on_db.
    + rbind; [|rret]. by apply store_refused_unchanged.
  - unfold ReportService.insert_new. rbind.
    + ruse service_new_image_on_db.
    + rbind; [|rret]. by apply store_refused_unchanged.
Qed.

Lemma deletion_refused existingObsMap obsId :
  respects (on_db unchanged)
    (ReportService.process_deletion E reportId existingObsMap obsId).
Proof.
  unfold ReportService.process_deletion.
  destruct (js_get existingObsMap (to_string obsId)) as [existing|]; [|rret].
  rbind.
  - destruct (truthy (ob_image_url existing)); [|rret].
    rbind; [ruse deleteImage_on_db | rret].
  - rbind; [|rret]. by apply store_refused_unchanged.
Qed.

Lemma observations_block_refused reportData :
  respects (on_db unchanged)
    (if ReportService.observations_provided (observations reportData)
     then ReportService.process_observations E reportId userId reportData files
     else mret tt).
Proof.
  destruct (ReportService.observations_provided _); [|rret].
  unfold ReportService.process_observations. rbind.
  { unfold ReportService.parsedObservations. destruct (parse_entries E _); rret. }
  rbind; [ruse select_observations_on_db|].
  rbind.
  { apply respects_for_of; [apply _|]. intros obs _. apply service_step_refused. }
  destruct (ReportService.deletions_specified _); [|rret].
  rbind.
  { unfold ReportService.parsedDeletions. destruct (parse_ids E _); rret. }
  apply respects_for_of; [apply _|]. intros d _. apply deletion_refused.
Qed.
End Refused.

(** X17.  The update call of the service does not look at the answers of
    its writes on table [observations].  When the store refuses every write
    on that table and performs every other request, the call of the owner
    still returns; the table of observations is as before and the report
    returned shows the observations as they were. *)
Theorem service_update_hides_refused_observation_writes
    E reportId reportData files userId w r :
  refuses_observation_writes E →
  storage_reliable E →
  owned_reports reportId userId (db w) = [r] →
  is_Some (parse_entries E (observations reportData)) →
  is_Some (parse_ids E (observationsToDelete reportData)) →
  ∃ view w',
    ReportService.updateReport E reportId reportData files userId w = (Ok view, w')
    ∧ tbl_observations (db w') = tbl_observations (db w)
    ∧ view_observations view = observations_of reportId (db w).
Proof.
  intros Href Hrel Hown Hentries Hids.
  assert (∀ t q, obs_op_of (EvDb q) = None → db_refuses E t q = None) as Hacc.
  { intros t q Hq. pose proof (Href t q) as H. by rewrite Hq in H. }
  unfold ReportService.updateReport. rewrite run_bind.
  destruct (getReport_total E reportId userId w r
              (Hacc (db w) (SelectReport reportId userId) eq_refl) Hown)
    as (v0 & w1 & H0).
  rewrite H0. apply getReport_Ok in H0 as (_ & _ & Hdb1 & _).
  rewrite run_bind.
  assert (∃ w2, ReportService.update_fields E reportId userId reportData w1
                = (Ok tt, w2)) as (w2 & H1).
  { unfold ReportService.update_fields. destruct (has_keys _); [|by eexists].
    rewrite run_bind. unfold update_report. rewrite store_run. simpl.
    rewrite Hacc by done. simpl. by eexists. }
  rewrite H1. rewrite run_bind.
  destruct (observations_block_total E reportId userId reportData files w2
              Hrel Hentries Hids) as (w3 & H2).
  rewrite H2.
  pose proof (update_fields_same_owner E reportId userId reportData w1) as O1.
  rewrite H1 in O1.
  pose proof (observations_block_keeps_reports E reportId userId reportData files w2)
    as O2. rewrite H2 in O2.
  pose proof (observations_block_refused E Href reportId userId files reportData w2)
    as O3. rewrite H2 in O3.
  pose proof (update_fields_on_db E reportId userId same_observations reportData
                (λ _ _, eq_refl) w1) as O4. rewrite H1 in O4.
  unfold on_db, same_owner, same_reports, unchanged, same_observations
    in O1, O2, O3, O4. simpl in O1, O2, O3, O4.
  assert (length (owned_reports reportId userId (db w3)) = 1) as Hlen.
  { unfold owned_reports in *. by rewrite O2, O1, Hdb1, Hown. }
  destruct (owned_reports reportId userId (db w3)) as [|r' [|]] eqn:Hown3;
    try discriminate.
  destruct (getReport_total E reportId userId w3 r'
              (Hacc (db w3) (SelectReport reportId userId) eq_refl) Hown3)
    as (view & w' & H3).
  exists view, w'. split; [done|].
  apply getReport_Ok in H3 as (Hview & _ & Hdb' & _).
  rewrite Hview, Hdb', O3. unfold observations_of. by rewrite O4, Hdb1.
Qed.

Lemma service_update_hides_refused_writes_witness :
  refuses_observation_writes Cases.locked_observations
  ∧ ∃ view w',
      ReportService.updateReport Cases.locked_observations "r1"
        (Sample.edits (ObsArray [Sample.entry (VStr "obs-1") "Exit cleared";
                                 Sample.entry VUndefined "New finding"])
                      (IdsArray [VStr "obs-2"]))
        None "u1" Sample.world0 = (Ok view, w')
      ∧ view_observations view = [Sample.obs_1; Sample.obs_2].
Proof.
  assert (refuses_observation_writes Cases.locked_observations) as Href.
  { intros t q. destruct q; simpl; by eauto. }
  split; [exact Href|].
  destruct (service_update_hides_refused_observation_writes
              Cases.locked_observations "r1"
              (Sample.edits (ObsArray [Sample.entry (VStr "obs-1") "Exit cleared";
                                       Sample.entry VUndefined "New finding"])
                            (IdsArray [VStr "obs-2"]))
              None "u1" Sample.world0 Sample.report_r1 Href)
    as (view & w' & Hrun & _ & Hview).
  - split; intros p; reflexivity.
  - reflexivity.
  - by eexists.
  - by eexists.
  - exists view, w'. split; [exact Hrun | exact Hview].
Defined.

Section ControllerRefused.
Variable E : env.
Hypothesis refused : refuses_observation_writes E.
Hypothesis reliable : storage_reliable E.
Variables (reportId userId : string) (files : option (list upload_file)).

Lemma controller_step_on_db Rd `{!PreOrder Rd} existingObsMap obs :
  respects (on_db Rd)
    (ReportController.process_observation E reportId userId files existingObsMap obs).
Proof.
  unfold ReportController.process_observation.
  destruct (found_of existingObsMap obs) as [existing|].
  - rbind; [|rret]. unfold ReportController.existing_image.
    destruct (_ && _); [|rret]. destruct (find_field _ _); [|rret].
    ruse upload_file_of_on_db.
  - rbind; [|rret]. unfold ReportController.new_image.
    destruct (has_files files); [|rret].
    rbind; [ruse find_new_image_on_db|].
    destruct a; [|rret]. ruse upload_file_of_on_db.
Qed.

Lemma controller_step_total existingObsMap obs w :
  ∃ p w', ReportController.process_observation E reportId userId files
            existingObsMap obs w = (Ok p, w').
Proof.
  unfold ReportController.process_observation.
  destruct (found_of existingObsMap obs) as [existing|]; rewrite run_bind.
  - destruct (controller_existing_image_total E userId files obs w reliable)
      as (img & w1 & ->). by eexists _, _.
  - destruct (controller_new_image_total E userId files obs w reliable)
      as (img & w1 & ->). by eexists _, _.
Qed.

Lemma controller_block_refused parsed obs rest w :
  parsed = obs :: rest →
  ∃ msg w',
    ReportController.process_observations E reportId userId files parsed w
    = (Throw (ApiError 400 msg), w')
    ∧ db w' = db w.
Proof.
  intros Hparsed. unfold ReportController.process_observations.
  rewrite run_bind.
  pose proof (refused (db w) (SelectObservations reportId)) as Hsel. simpl in Hsel.
  rewrite (select_observations_accepted _ _ _ Hsel). cbn [data default].
  rewrite run_bind.
  set (m := index_by_id _).
  destruct (map_all_total parsed
              (ReportController.process_observation E reportId userId files m)
              (controller_step_total m) (logged (EvDb (SelectObservations reportId)) w))
    as (ps & w1 & Hmap).
  rewrite Hmap.
  pose proof (respects_map_all (on_db unchanged) parsed
                (ReportController.process_observation E reportId userId files m)
                (λ x _, controller_step_on_db unchanged m x)
                (logged (EvDb (SelectObservations reportId)) w)) as Hdb.
  rewrite Hmap in Hdb. unfold on_db, unchanged in Hdb. simpl in Hdb.
  assert (ps ≠ []) as Hne.
  { apply map_all_Ok in Hmap. apply Forall2_length in Hmap.
    rewrite Hparsed in Hmap. by destruct ps. }
  rewrite run_bind.
  destruct (ReportController.observationsToUpdate ps) as [|u us] eqn:Hupd.
  - cbn [for_of]. rewrite run_ret. cbv beta iota.
    assert (ReportController.observationsToInsert ps = ps) as ->.
    { unfold ReportController.observationsToInsert,
        ReportController.observationsToUpdate in *.
      clear -Hupd. induction ps as [|p ps IH]; [done|].
      rewrite filter_cons in Hupd. rewrite filter_cons.
      destruct (truthy (ReportController.p_id p)); repeat case_decide;
        try done. by rewrite IH. }
    destruct ps as [|p ps]; [done|]. rewrite run_bind.
    destruct (store_refused_run E refused
                (InsertObservations (ReportController.insert_of <$> p :: ps))
                (λ w0, (Answer tt,
                   {| db := set_observations
                        (tbl_observations (db w0)
                         ++ imap (new_row E (issued w0))
                              (ReportController.insert_of <$> p :: ps)) (db w0);
                      bucket := bucket w0;
                      issued := issued w0
                                + length (ReportController.insert_of <$> p :: ps);
                      ticks := ticks w0; trace := trace w0 |})) w1)
      as (msg & Hins); [by eexists|].
    unfold insert_observations. rewrite Hins. rewrite run_throw.
    exists msg. eexists. split; [reflexivity|]. done.
  - cbn [for_of]. rewrite run_bind. unfold ReportController.apply_update at 1.
    rewrite run_bind.
    destruct (store_refused_run E refused
                (UpdateObservation (to_string (ReportController.p_id u)) reportId
                   (ReportController.patch_of u))
                (λ w0, (Answer tt,
                   set_db (set_observations
                     (patch_row (to_string (ReportController.p_id u)) reportId
                        (ReportController.patch_of u) <$> tbl_observations (db w0))
                     (db w0)) w0)) w1) as (msg & Hup); [by eexists|].
    unfold update_observation. rewrite Hup. rewrite run_throw.
    exists msg. eexists. split; [reflexivity|]. done.
Qed.
End ControllerRefused.

(** X18.  The routed [updateReport] checks the answers of its writes on
    table [observations].  When the store refuses every write on that table
    and performs every other request, the call of the owner with at least
    one entry throws status 400 with the message of the store, and the table
    of observations is as before. *)
Theorem routed_update_reports_refused_observation_writes
    E reportId userId body files w r obs rest :
  refuses_observation_writes E →
  storage_reliable E →
  owned_reports reportId userId (db w) = [r] →
  body_entries E (observations body) = Some (obs :: rest) →
  ∃ msg w',
    ReportController.updateReport E reportId userId body files w
    = (Throw (ApiError 400 msg), w')
    ∧ tbl_observations (db w') = tbl_observations (db w).
Proof.
  intros Href Hrel Hown Hparse.
  assert (∀ t q, obs_op_of (EvDb q) = None → db_refuses E t q = None) as Hacc.
  { intros t q Hq. pose proof (Href t q) as H. by rewrite Hq in H. }
  unfold ReportController.updateReport, ReportController.parse_body_observations.
  rewrite Hparse, run_bind, run_ret. cbv beta iota. rewrite run_bind.
  rewrite (select_report_owned _ _ _ _ _ Hown
             (Hacc (db w) (SelectReport reportId userId) eq_refl)).
  cbv beta iota. rewrite run_bind. unfold update_report. rewrite store_run.
  cbn [db logged emit snd]. rewrite Hacc by done.
  cbv beta iota zeta. cbn [fst snd].
  unfold ReportController.updated_single.
  rewrite (owned_after_update reportId userId).
  unfold owned_reports in Hown. rewrite Hown. cbn [fmap list_fmap single].
  rewrite run_bind.
  match goal with |- context [ReportController.process_observations _ _ _ _ _ ?w2] =>
    destruct (controller_block_refused E Href Hrel reportId userId files
                (obs :: rest) obs rest w2 eq_refl) as (msg & w' & Hblock & Hdb)
  end.
  rewrite Hblock. exists msg, w'. split; [done|]. by rewrite Hdb.
Qed.

Lemma routed_update_reports_refused_writes_witness :
  ∃ msg w',
    ReportController.updateReport Cases.locked_observations "r1" "u1"
      (Sample.edits (ObsArray [Sample.entry (VStr "obs-1") "Exit cleared"]) IdsAbsent)
      None Sample.world0 = (Throw (ApiError 400 msg), w')
    ∧ tbl_observations (db w') = [Sample.obs_1; Sample.obs_2].
Proof.
  apply (routed_update_reports_refused_observation_writes
           Cases.locked_observations "r1" "u1"
           (Sample.edits (ObsArray [Sample.entry (VStr "obs-1") "Exit cleared"])
                         IdsAbsent)
           None Sample.world0 Sample.report_r1
           (Sample.entry (VStr "obs-1") "Exit cleared") []).
  - intros t q. destruct q; simpl; by eauto.
  - split; intros p; reflexivity.
  - reflexivity.
  - reflexivity.
Defined.

(** ** Reading, creating and deleting companies *)

Lemma getCompany_owned E companyId userId w c :
  owned_companies companyId userId (db w) = [c] →
  db_refuses E (db w) (SelectCompany companyId userId) = None →
  CompanyService.getCompany E companyId userId w
  = (Ok c, logged (EvDb (SelectCompany companyId userId)) w).
Proof.
  intros Hown Hacc. unfold CompanyService.getCompany.
  by rewrite run_bind, (select_company_owned _ _ _ _ _ Hown Hacc).
Qed.

Lemma getCompany_none E companyId userId w :
  owned_companies companyId userId (db w) = [] →
  CompanyService.getCompany E companyId userId w
  = (Throw (ApiError 404 "Company not found"),
     logged (EvDb (SelectCompany companyId userId)) w).
Proof.
  intros Hnone. destruct (select_company_none E _ _ w Hnone) as (msg & Hsel).
  unfold CompanyService.getCompany. by rewrite run_bind, Hsel.
Qed.

(** X19.  A company that the caller does not own is not found: [getCompany]
    and [deleteCompany] of the service throw status 404 with
    ["Company not found"] after the one read of the company, and nothing is
    written. *)
Theorem company_of_another_user_is_not_found E companyId userId w :
  owned_companies companyId userId (db w) = [] →
  CompanyService.getCompany E companyId userId w
  = (Throw (ApiError 404 "Company not found"),
     logged (EvDb (SelectCompany companyId userId)) w)
  ∧ CompanyService.deleteCompany E companyId userId w
    = (Throw (ApiError 404 "Company not found"),
       logged (EvDb (SelectCompany companyId userId)) w).
Proof.
  intros Hnone. split; [by apply getCompany_none|].
  unfold CompanyService.deleteCompany.
  by rewrite run_bind, getCompany_none.
Qed.

Lemma company_of_another_user_witness :
  owned_companies "c1" "u2" (db Sample.world0) = []
  ∧ CompanyService.deleteCompany Sample.calm "c1" "u2" Sample.world0
    = (Throw (ApiError 404 "Company not found"),
       logged (EvDb (SelectCompany "c1" "u2")) Sample.world0).
Proof.
  split; [reflexivity|].
  apply (company_of_another_user_is_not_found Sample.calm "c1" "u2" Sample.world0).
  reflexivity.
Defined.

(** X20.  [deleteCompany] of the service by the owner returns [true] after
    two requests, the read and the delete.  The company is gone; every
    report left is a report of another company; the observations of the
    reports of the company are gone with them; and the bucket is as before:
    the stored images of those observations are not removed. *)
Theorem deleteCompany_cascades_without_cleanup E companyId userId w c :
  owned_companies companyId userId (db w) = [c] →
  db_refuses E (db w) (SelectCompany companyId userId) = None →
  db_refuses E (db w) (DeleteCompany companyId userId) = None →
  ∃ w',
    CompanyService.deleteCompany E companyId userId w = (Ok true, w')
    ∧ owned_companies companyId userId (db w') = []
    ∧ (∀ r, r ∈ tbl_reports (db w') →
            r ∈ tbl_reports (db w)
            ∧ to_string (rp_company_id (rp_fields r)) ≠ companyId)
    ∧ (∀ o r, o ∈ tbl_observations (db w) → r ∈ tbl_reports (db w) →
              ob_report_id o = rp_id r →
              to_string (rp_company_id (rp_fields r)) = companyId →
              o ∉ tbl_observations (db w'))
    ∧ bucket w' = bucket w
    ∧ added w w' = [EvDb (SelectCompany companyId userId);
                    EvDb (DeleteCompany companyId userId)].
Proof.
  intros Hown Hsel Hdel. unfold CompanyService.deleteCompany.
  rewrite run_bind, (getCompany_owned _ _ _ _ _ Hown Hsel). cbv beta iota.
  rewrite run_bind. unfold delete_company. rewrite store_run.
  cbn [db logged emit snd]. rewrite Hdel.
  unfold owned_companies in Hown. rewrite Hown. cbv beta iota zeta.
  rewrite run_ret. eexists. split; [reflexivity|]. simpl.
  split; [|split; [|split; [|split; [done|]]]].
  - unfold owned_companies. simpl. apply filter_none. intros x Hx.
    apply list_elem_of_filter in Hx. tauto.
  - intros r Hr. apply list_elem_of_filter in Hr. tauto.
  - intros o r Ho Hr Hid Hc Hin. apply list_elem_of_filter in Hin as [Hnot _].
    apply Hnot. apply list_elem_of_fmap. exists r. split; [done|].
    apply list_elem_of_filter. by split.
  - apply added_app. simpl. by rewrite <- app_assoc.
Qed.

Lemma deleteCompany_cascades_witness :
  ∃ w',
    CompanyService.deleteCompany Sample.calm "c1" "u1" Sample.world0 = (Ok true, w')
    ∧ tbl_reports (db w') = [] ∧ tbl_observations (db w') = []
    ∧ bucket w' = ["u1/a.png"; "u1/b.png"].
Proof.
  destruct (deleteCompany_cascades_without_cleanup Sample.calm "c1" "u1"
              Sample.world0 Sample.company_c1 eq_refl eq_refl eq_refl)
    as (w' & Hrun & _ & _ & _ & Hb & _).
  exists w'. split; [exact Hrun|]. split; [|split; [|exact Hb]].
  - vm_compute in Hrun. by injection Hrun as <-.
  - vm_compute in Hrun. by injection Hrun as <-.
Defined.

(** X21.  A company returned by [createCompany] of the service carries the
    name, tax id, address and industry sent, and can be read back: when its
    id is not in use, [getCompany] of that id returns the same row to the
    caller and throws status 404 for every other user. *)
Theorem createCompany_then_getCompany E companyData userId w c w1 :
  CompanyService.createCompany E companyData userId w = (Ok c, w1) →
  (∀ x, x ∈ tbl_companies (db w) → co_id x ≠ co_id c) →
  (∀ u, db_refuses E (db w1) (SelectCompany (co_id c) u) = None) →
  co_name c = name companyData ∧ co_cuit c = cuit companyData
  ∧ co_address c = address companyData ∧ co_industry c = industry companyData
  ∧ CompanyService.getCompany E (co_id c) userId w1
    = (Ok c, logged (EvDb (SelectCompany (co_id c) userId)) w1)
  ∧ ∀ other, other ≠ userId →
      CompanyService.getCompany E (co_id c) other w1
      = (Throw (ApiError 404 "Company not found"),
         logged (EvDb (SelectCompany (co_id c) other)) w1).
Proof.
  intros Hrun Hfresh Hacc.
  assert (tbl_companies (db w1) = tbl_companies (db w) ++ [c]
          ∧ co_name c = name companyData ∧ co_cuit c = cuit companyData
          ∧ co_address c = address companyData
          ∧ co_industry c = industry companyData
          ∧ co_user_id c = userId) as (Hrows & Hn & Hc & Ha & Hi & Hu).
  { revert Hrun. unfold CompanyService.createCompany. intros H.
    apply bind_Ok in H as (r & w0 & Hr & H).
    destruct r as [row|]; [|discriminate]. rewrite run_ret in H. simplify_eq.
    unfold insert_company in Hr. rewrite store_run in Hr. simpl in Hr.
    destruct (db_refuses E (db w) _); by simplify_eq. }
  split; [done|]. split; [done|]. split; [done|]. split; [done|].
  assert (∀ u, owned_companies (co_id c) u (db w1)
               = if decide (u = userId) then [c] else []) as Hfilter.
  { intros u. unfold owned_companies. rewrite Hrows, filter_app.
    rewrite (filter_none _ (tbl_companies (db w)))
      by (intros x Hx [Hid _]; by apply (Hfresh x Hx)).
    destruct (decide (u = userId)) as [->|Hne].
    - by rewrite filter_cons_True, filter_nil.
    - rewrite filter_cons_False, filter_nil; [done|]. intros [_ ?]. congruence. }
  split.
  - apply getCompany_owned; [|done]. by rewrite Hfilter, decide_True.
  - intros other Hother. apply getCompany_none.
    by rewrite Hfilter, decide_False.
Qed.

Lemma createCompany_then_getCompany_witness :
  ∃ c w1,
    CompanyService.createCompany Sample.calm Cases.new_company "u2" Sample.world0
    = (Ok c, w1)
    ∧ CompanyService.getCompany Sample.calm (co_id c) "u2" w1
      = (Ok c, logged (EvDb (SelectCompany (co_id c) "u2")) w1)
    ∧ CompanyService.getCompany Sample.calm (co_id c) "u1" w1
      = (Throw (ApiError 404 "Company not found"),
         logged (EvDb (SelectCompany (co_id c) "u1")) w1).
Proof.
  destruct (CompanyService.createCompany Sample.calm Cases.new_company "u2"
              Sample.world0) as [[c|e] w1] eqn:Hrun;
    [|vm_compute in Hrun; discriminate].
  destruct (createCompany_then_getCompany Sample.calm Cases.new_company "u2"
              Sample.world0 c w1 Hrun) as (_ & _ & _ & _ & Hget & Hother).
  - intros x Hx. apply list_elem_of_singleton in Hx. subst x.
    vm_compute in Hrun. injection Hrun as <- _. discriminate.
  - intros u. reflexivity.
  - exists c, w1. split; [reflexivity|]. split; [exact Hget|].
    apply Hother. discriminate.
Defined.

Lemma cc_store_run {A} E q
    (perform : CompanyController.world
               → CompanyController.response A * CompanyController.world) w :
  CompanyController.store E q perform w
  = let w1 := {| CompanyController.db := CompanyController.db w;
                 CompanyController.issued := CompanyController.issued w;
                 CompanyController.trace := CompanyController.trace w ++ [q] |} in
    match CompanyController.db_refuses E (CompanyController.db w) q with
    | Some e => (Ok (CompanyController.Failure e), w1)
    | None => let '(r, w') := perform w1 in (Ok r, w')
    end.
Proof. reflexivity. Qed.

Lemma single_cc_Answer {A} (l : list A) x :
  CompanyController.single l = CompanyController.Answer x → l = [x].
Proof. destruct l as [|y [|z l]]; simpl; intros; by simplify_eq. Qed.

(** The part of the routed [createCompany] that creates the company and
    links the caller, run when the search found nothing. *)
Lemma routed_create_new E userId body (w0 w : CompanyController.world) c w' :
  CompanyController.db w0 = CompanyController.db w →
  ((CompanyController.insert_company E (name body) (cuit body) (address body)
      (industry body)
    ≫= (λ created,
          match created with
          | CompanyController.Failure e0 =>
              throw (ApiError 400 (CompanyController.message e0))
          | CompanyController.Answer newCompany => mret newCompany
          end))
   ≫= λ company,
        CompanyController.insert_association E userId
          (CompanyController.company_id company)
        ≫= λ a, match a with
                | CompanyController.Failure e0 =>
                    throw (ApiError 400 (CompanyController.message e0))
                | CompanyController.Answer _ => mret company
                end) w0 = (Ok c, w') →
  to_string (CompanyController.company_cuit c) = to_string (cuit body)
  ∧ c ∈ CompanyController.companies (CompanyController.db w')
  ∧ CompanyController.user_companies (CompanyController.db w')
    = CompanyController.user_companies (CompanyController.db w)
      ++ [{| CompanyController.assoc_user_id := userId;
             CompanyController.assoc_company_id :=
               CompanyController.company_id c |}]
  ∧ ((c ∈ CompanyController.companies (CompanyController.db w)
      ∧ CompanyController.companies (CompanyController.db w')
        = CompanyController.companies (CompanyController.db w))
     ∨ (CompanyController.companies (CompanyController.db w')
        = CompanyController.companies (CompanyController.db w) ++ [c]
        ∧ CompanyController.company_name c = name body
        ∧ CompanyController.company_cuit c = cuit body
        ∧ CompanyController.company_address c = address body
        ∧ CompanyController.company_industry c = industry body)).
Proof.
  intros Hdb H.
  apply bind_Ok in H as (company & w1 & Hc & H).
  apply bind_Ok in Hc as (created & w2 & Hins & Hc).
  destruct created as [newCompany|]; [|discriminate].
  rewrite run_ret in Hc. simplify_eq.
  apply bind_Ok in H as (a & w3 & Ha & H).
  destruct a as [[]|]; [|discriminate]. rewrite run_ret in H. simplify_eq.
  unfold CompanyController.insert_company in Hins. rewrite cc_store_run in Hins.
  cbv zeta in Hins.
  destruct (CompanyController.db_refuses E (CompanyController.db w0) _);
    [discriminate|].
  simpl in Hins. simplify_eq.
  unfold CompanyController.insert_association in Ha. rewrite cc_store_run in Ha.
  cbv zeta in Ha. simpl in Ha.
  destruct (CompanyController.db_refuses E _
              (CompanyController.InsertAssociation _ _)); [discriminate|].
  simplify_eq. simpl. rewrite Hdb.
  split; [done|]. split; [apply elem_of_app; right; by left|].
  split; [done|]. right. done.
Qed.

(** X22.  Whenever the routed [createCompany] returns a company, that
    company has the tax id sent, it is in table [companies], and exactly one
    association, of the caller with the company, was appended to table
    [user_companies].  Either the company was stored before and table
    [companies] is as before, or it is the one row appended to the table and
    carries the four fields sent. *)
Theorem routed_createCompany_links_caller E userId body w c w' :
  CompanyController.createCompany E userId body w = (Ok c, w') →
  to_string (CompanyController.company_cuit c) = to_string (cuit body)
  ∧ c ∈ CompanyController.companies (CompanyController.db w')
  ∧ CompanyController.user_companies (CompanyController.db w')
    = CompanyController.user_companies (CompanyController.db w)
      ++ [{| CompanyController.assoc_user_id := userId;
             CompanyController.assoc_company_id :=
               CompanyController.company_id c |}]
  ∧ ((c ∈ CompanyController.companies (CompanyController.db w)
      ∧ CompanyController.companies (CompanyController.db w')
        = CompanyController.companies (CompanyController.db w))
     ∨ (CompanyController.companies (CompanyController.db w')
        = CompanyController.companies (CompanyController.db w) ++ [c]
        ∧ CompanyController.company_name c = name body
        ∧ CompanyController.company_cuit c = cuit body
        ∧ CompanyController.company_address c = address body
        ∧ CompanyController.company_industry c = industry body)).
Proof.
  unfold CompanyController.createCompany.
  destruct (_ || _); [by rewrite run_throw|].
  rewrite run_bind. unfold CompanyController.select_by_cuit.
  rewrite cc_store_run. cbv zeta.
  destruct (CompanyController.db_refuses E (CompanyController.db w)
              (CompanyController.SelectByCuit (cuit body))) as [e|] eqn:Hsel.
  - destruct (CompanyController.search_failed (CompanyController.Failure e))
      eqn:Hfail; [by rewrite run_throw|].
    intros H. eapply routed_create_new; [|exact H]. done.
  - cbv beta iota.
    destruct (CompanyController.single _) as [existing|e] eqn:Hone.
    + cbn [CompanyController.search_failed]. rewrite run_bind, run_ret.
      cbv beta iota. rewrite run_bind.
      unfold CompanyController.insert_association. rewrite cc_store_run.
      cbv zeta.
      cbn [CompanyController.db CompanyController.issued CompanyController.trace].
      destruct (CompanyController.db_refuses E _
                  (CompanyController.InsertAssociation _ _));
        [by rewrite run_throw|].
      cbv beta iota. rewrite run_ret. intros [= <- <-]. simpl.
      apply single_cc_Answer in Hone. cbn [CompanyController.db] in Hone.
      assert (existing
              ∈ filter (λ x, to_string (CompanyController.company_cuit x)
                             = to_string (cuit body))
                       (CompanyController.companies (CompanyController.db w)))
        as Hin by (rewrite Hone; by left).
      apply list_elem_of_filter in Hin as [Hcuit Hin].
      split; [done|]. split; [done|]. split; [done|]. by left.
    + destruct (CompanyController.search_failed (CompanyController.Failure e))
        eqn:Hfail; [by rewrite run_throw|].
      intros H. eapply routed_create_new; [|exact H]. done.
Qed.

Lemma routed_createCompany_links_caller_witness :
  ∃ c w',
    CompanyController.createCompany Sample.shared_store "u2" Sample.same_cuit
      Sample.shared_world = (Ok c, w')
    ∧ CompanyController.company_name c = VStr "Acme SA"
    ∧ CompanyController.user_companies (CompanyController.db w')
      = CompanyController.user_companies (CompanyController.db Sample.shared_world)
        ++ [{| CompanyController.assoc_user_id := "u2";
               CompanyController.assoc_company_id :=
                 CompanyController.company_id c |}].
Proof.
  destruct (CompanyController.createCompany Sample.shared_store "u2"
              Sample.same_cuit Sample.shared_world) as [[c|e] w'] eqn:Hrun;
    [|vm_compute in Hrun; discriminate].
  destruct (routed_createCompany_links_caller Sample.shared_store "u2"
              Sample.same_cuit Sample.shared_world c w' Hrun)
    as (_ & _ & Hlinks & _).
  exists c, w'. split; [reflexivity|]. split; [|exact Hlinks].
  vm_compute in Hrun. by injection Hrun as <- _.
Defined.

(** X23.  The routed handler of [DELETE /api/companies/:id] answers with
    its success message whenever the store accepts the delete, also when
    the caller was never linked to the company or the company does not
    exist.  Table [companies] is as before; the associations left are the
    former ones except those of the caller with that company; and when the
    caller had none, the tables are as before. *)
Theorem removeCompanyAssociation_unlinks_only_the_caller E companyId userId w :
  CompanyController.db_refuses E (CompanyController.db w)
    (CompanyController.DeleteAssociation companyId userId) = None →
  ∃ w',
    CompanyController.removeCompanyAssociation E companyId userId w
    = (Ok "Company association removed successfully", w')
    ∧ CompanyController.companies (CompanyController.db w')
      = CompanyController.companies (CompanyController.db w)
    ∧ (∀ a, a ∈ CompanyController.user_companies (CompanyController.db w')
            ↔ a ∈ CompanyController.user_companies (CompanyController.db w)
              ∧ ¬ (CompanyController.assoc_company_id a = companyId
                   ∧ CompanyController.assoc_user_id a = userId))
    ∧ ((∀ a, a ∈ CompanyController.user_companies (CompanyController.db w) →
             ¬ (CompanyController.assoc_company_id a = companyId
                ∧ CompanyController.assoc_user_id a = userId)) →
       CompanyController.db w' = CompanyController.db w).
Proof.
  intros Hacc. unfold CompanyController.removeCompanyAssociation.
  rewrite run_bind. unfold CompanyController.delete_association.
  rewrite cc_store_run. cbv zeta. rewrite Hacc.
  cbv beta iota. rewrite run_ret. eexists. split; [reflexivity|]. simpl.
  split; [done|]. split.
  - intros a. rewrite list_elem_of_filter. tauto.
  - intros Hnone. destruct (CompanyController.db w) as [cs us]. simpl in *.
    f_equal. apply filter_all. by apply Forall_forall.
Qed.

Lemma removeCompanyAssociation_witness :
  ∃ w',
    CompanyController.removeCompanyAssociation Sample.shared_store "c1" "u2"
      Sample.shared_world
    = (Ok "Company association removed successfully", w')
    ∧ CompanyController.db w' = CompanyController.db Sample.shared_world.
Proof.
  destruct (removeCompanyAssociation_unlinks_only_the_caller Sample.shared_store
              "c1" "u2" Sample.shared_world eq_refl)
    as (w' & Hrun & _ & _ & Hsame).
  exists w'. split; [exact Hrun|]. apply Hsame.
  intros a Ha. apply list_elem_of_singleton in Ha. subst a.
  intros [_ Hu]. discriminate Hu.
Defined.

(** ** The authentication middleware *)

Lemma prefix_app a b : String.prefix a (a +:+ b) = true.
Proof.
  induction a as [|x a IH]; simpl; [by destruct b|].
  destruct (Ascii.ascii_dec x x); [done | congruence].
Qed.

Lemma prefix_inv a s : String.prefix a s = true → ∃ b, s = a +:+ b.
Proof.
  revert s. induction a as [|x a IH]; intros s.
  - intros _. exists s. reflexivity.
  - destruct s as [|y s]; simpl; [done|].
    destruct (Ascii.ascii_dec x y) as [->|]; [|done].
    intros H. destruct (IH s H) as [b ->]. exists b. reflexivity.
Qed.

(** The bearer token of a header: the text between the first space and
    the next one. *)
Lemma bearer_token rest :
  js_index (split_on " " ("Bearer " +:+ rest)) 1
  = VStr (default "" (head (split_on " " rest))).
Proof.
  change ("Bearer " +:+ rest) with ("Bearer" +:+ String " " rest).
  rewrite split_on_app. simpl.
  pose proof (split_on_nonempty " " rest).
  by destruct (split_on " " rest).
Qed.

Lemma head_split_free c t : mentions c t = false → head (split_on c t) = Some t.
Proof. intros H. by rewrite (split_on_free _ _ H). Qed.

Lemma head_split_app c t tail :
  mentions c t = false → head (split_on c (t +:+ String c tail)) = Some t.
Proof. intros H. by rewrite split_on_app, (split_on_free _ _ H). Qed.

Lemma authenticate_run E authorization asked :
  Auth.authenticate E authorization asked
  = match authorization with
    | None => (Ok (Auth.Respond 401 "Unauthorized: No token provided"), asked)
    | Some authHeader =>
        if bool_decide (authHeader = "") || negb (String.prefix "Bearer " authHeader)
        then (Ok (Auth.Respond 401 "Unauthorized: No token provided"), asked)
        else
          let token := js_index (split_on " " authHeader) 1 in
          (Ok match Auth.getUser E token with
              | Auth.GetUserAnswer (Some user) None => Auth.Next user
              | Auth.GetUserAnswer _ _ =>
                  Auth.Respond 401 "Unauthorized: Invalid token"
              | Auth.GetUserThrows _ =>
                  Auth.Respond 500 "Internal server error during authentication"
              end,
           asked ++ [token])
    end.
Proof.
  unfold Auth.authenticate, try_catch. destruct authorization as [h|]; [|done].
  destruct (_ || _); [done|]. rewrite run_bind. unfold Auth.auth_getUser, act.
  destruct (Auth.getUser E _) as [[u|] [e|]|msg]; done.
Qed.

(** X24.  The middleware [authenticate] calls [next()] only for a header
    that starts with ["Bearer "], after it has asked the auth service once
    about the text between that prefix and the next space; the service
    answered with a user and no error, and that user is the one set on the
    request. *)
Theorem authenticate_lets_through_only_resolved_users
    E authorization asked user asked' :
  Auth.authenticate E authorization asked = (Ok (Auth.Next user), asked') →
  ∃ rest token,
    authorization = Some ("Bearer " +:+ rest)
    ∧ head (split_on " " rest) = Some token
    ∧ Auth.getUser E (VStr token) = Auth.GetUserAnswer (Some user) None
    ∧ asked' = asked ++ [VStr token].
Proof.
  rewrite authenticate_run. destruct authorization as [h|]; [|done].
  destruct (bool_decide (h = "")); [done|]. simpl.
  destruct (String.prefix "Bearer " h) eqn:Hp; [|done]. simpl.
  apply prefix_inv in Hp as [rest ->]. rewrite bearer_token.
  pose proof (split_on_nonempty " " rest) as Hne.
  destruct (split_on " " rest) as [|token l] eqn:Hsplit; [done|]. simpl.
  destruct (Auth.getUser E (VStr token)) as [[u|] [e|]|msg] eqn:Hget;
    intros [= <- <-]; try done.
  exists rest, token. by rewrite Hsplit.
Qed.

Lemma authenticate_lets_through_witness :
  Auth.authenticate Cases.one_session (Some "Bearer tok-1") []
  = (Ok (Auth.Next "u1"), [VStr "tok-1"])
  ∧ Auth.getUser Cases.one_session (VStr "tok-1")
    = Auth.GetUserAnswer (Some "u1") None.
Proof.
  assert (Auth.authenticate Cases.one_session (Some "Bearer tok-1") []
          = (Ok (Auth.Next "u1"), [VStr "tok-1"])) as Hrun by reflexivity.
  split; [exact Hrun|].
  destruct (authenticate_lets_through_only_resolved_users Cases.one_session
              (Some "Bearer tok-1") [] "u1" [VStr "tok-1"] Hrun)
    as (rest & token & Hh & Hhead & Hget & Hasked).
  injection Hasked as <-. exact Hget.
Defined.

(** X25.  The token that [authenticate] checks is the second piece of the
    header split at spaces.  For a token without a space the outcome is the
    one the answer of the auth service about that token determines (the
    user, status 401 with ["Unauthorized: Invalid token"], or status 500
    when the service throws), and whatever follows a space after the token
    is ignored: the outcome and the question asked are the same. *)
Theorem authenticate_token_is_the_first_word E t tail asked :
  mentions " " t = false →
  let outcome_of := λ token,
    match Auth.getUser E token with
    | Auth.GetUserAnswer (Some user) None => Auth.Next user
    | Auth.GetUserAnswer _ _ => Auth.Respond 401 "Unauthorized: Invalid token"
    | Auth.GetUserThrows _ =>
        Auth.Respond 500 "Internal server error during authentication"
    end in
  Auth.authenticate E (Some ("Bearer " +:+ t)) asked
  = (Ok (outcome_of (VStr t)), asked ++ [VStr t])
  ∧ Auth.authenticate E (Some ("Bearer " +:+ t +:+ " " +:+ tail)) asked
    = (Ok (outcome_of (VStr t)), asked ++ [VStr t]).
Proof.
  intros Ht outcome_of.
  assert (∀ rest, Auth.authenticate E (Some ("Bearer " +:+ rest)) asked
                  = (Ok (outcome_of (VStr (default "" (head (split_on " " rest))))),
                     asked ++ [VStr (default "" (head (split_on " " rest)))]))
    as Hrun.
  { intros rest. rewrite authenticate_run, prefix_app.
    rewrite bool_decide_eq_false_2 by done. cbn [negb orb]. cbv zeta.
    by rewrite bearer_token. }
  split.
  - by rewrite Hrun, (head_split_free _ _ Ht).
  - change ("Bearer " +:+ t +:+ " " +:+ tail)
      with ("Bearer " +:+ (t +:+ String " " tail)).
    by rewrite Hrun, (head_split_app _ _ tail Ht).
Qed.

Lemma authenticate_token_witness :
  Auth.authenticate Cases.one_session (Some "Bearer tok-1 trailing words") []
  = (Ok (Auth.Next "u1"), [VStr "tok-1"]).
Proof.
  destruct (authenticate_token_is_the_first_word Cases.one_session "tok-1"
              "trailing words" [] eq_refl) as [_ Hrun].
  exact Hrun.
Defined.

(** X26.  A request without an [authorization] header, or with one that
    does not start with ["Bearer "], is answered by [authenticate] with
    status 401 and ["Unauthorized: No token provided"]; the auth service is
    not asked. *)
Theorem authenticate_rejects_without_asking E authorization asked :
  (∀ rest, authorization ≠ Some ("Bearer " +:+ rest)) →
  Auth.authenticate E authorization asked
  = (Ok (Auth.Respond 401 "Unauthorized: No token provided"), asked).
Proof.
  intros Hno. rewrite authenticate_run. destruct authorization as [h|]; [|done].
  destruct (bool_decide (h = "")); [done|]. simpl.
  destruct (String.prefix "Bearer " h) eqn:Hp; [|done].
  apply prefix_inv in Hp as [rest ->]. by destruct (Hno rest).
Qed.

Lemma authenticate_rejects_witness :
  Auth.authenticate Cases.one_session (Some "Basic dTE6cHc=") []
  = (Ok (Auth.Respond 401 "Unauthorized: No token provided"), [])
  ∧ Auth.authenticate Cases.one_session (Some "bearer tok-1") []
    = (Ok (Auth.Respond 401 "Unauthorized: No token provided"), []).
Proof.
  split.
  - apply (authenticate_rejects_without_asking Cases.one_session
             (Some "Basic dTE6cHc=") []). intros rest. discriminate.
  - apply (authenticate_rejects_without_asking Cases.one_session
             (Some "bearer tok-1") []). intros rest. discriminate.
Defined.

(** ** The routed update call on the files that the route delivers *)

(** A world differs from another by readings of the clock only. *)
Lemma temp_key_quiet E obs w :
  ∃ k w', temp_key E obs w = (Ok k, w')
          ∧ db w' = db w ∧ bucket w' = bucket w ∧ issued w' = issued w
          ∧ trace w' = trace w.
Proof.
  unfold temp_key. destruct (truthy (tempId obs)).
  - by eexists _, _.
  - rewrite run_bind. unfold Date_now. simpl. rewrite run_ret. by eexists _, _.
Qed.

Lemma find_new_image_unpaired E obs (l : list upload_file) : ∀ w,
  Forall (λ f, fieldname f = "images") l →
  ∃ w', find_new_image E obs l w = (Ok None, w')
        ∧ db w' = db w ∧ bucket w' = bucket w ∧ issued w' = issued w
        ∧ trace w' = trace w.
Proof.
  induction l as [|f l IH]; intros w Hall.
  - by eexists.
  - apply Forall_cons in Hall as [Hf Hall]. simpl. rewrite run_bind.
    destruct (temp_key_quiet E obs w) as (k & w1 & -> & Hdb & Hb & Hi & Htr).
    rewrite bool_decide_eq_false_2.
    + destruct (IH w1 Hall) as (w' & -> & Hdb' & Hb' & Hi' & Htr').
      exists w'. split; [done|]. repeat split; congruence.
    + rewrite Hf. intros H. vm_compute in H. discriminate.
Qed.

Lemma find_field_images name (l : list upload_file) file :
  Forall (λ f, fieldname f = "images") l →
  find_field name l = Some file → name = "images".
Proof.
  intros Hall Hfind. unfold find_field in Hfind.
  apply find_some in Hfind as [Hin Hname].
  apply bool_decide_eq_true in Hname.
  rewrite Forall_forall in Hall. rewrite <- Hname. apply Hall.
  by apply list_elem_of_In.
Qed.

Lemma image_key_s (v : jsval) : "image_" +:+ to_string v = "images" → to_string v = "s".
Proof. intros H. vm_compute in H. by injection H. Qed.

Section Unpaired.
Variable E : env.
Variables (reportId userId : string) (files : option (list upload_file)).
Variable existingObsMap : gmap string observation_row.
Hypothesis served : uploaded_as_images files.
Hypothesis no_s : existingObsMap !! "s" = None.

(** On such files no entry is paired with a file: the object computed for
    an entry is [unpaired_object], nothing is read and nothing is asked. *)
Lemma controller_step_unpaired obs w :
  ∃ w',
    ReportController.process_observation E reportId userId files existingObsMap obs w
    = (Ok (unpaired_object reportId existingObsMap obs), w')
    ∧ db w' = db w ∧ bucket w' = bucket w ∧ issued w' = issued w
    ∧ trace w' = trace w.
Proof.
  unfold ReportController.process_observation, unpaired_object.
  destruct (found_of existingObsMap obs) as [existing|] eqn:Hfound; rewrite run_bind.
  - unfold ReportController.existing_image.
    assert (find_field ("image_" +:+ to_string (entry_id obs)) (files_list files)
            = None) as Hnone.
    { destruct (find_field _ _) as [file|] eqn:Hfind; [|done]. exfalso.
      apply (find_field_images _ _ _ served) in Hfind. apply image_key_s in Hfind.
      unfold found_of in Hfound. destruct (truthy (entry_id obs)); [|done].
      rewrite Hfind in Hfound. unfold js_get in Hfound. rewrite no_s in Hfound.
      vm_compute in Hfound. discriminate. }
    rewrite Hnone. destruct (_ && _); rewrite run_ret; by eexists.
  - unfold ReportController.new_image. destruct (has_files files).
    + rewrite run_bind.
      destruct (find_new_image_unpaired E obs (files_list files) w served)
        as (w' & -> & Hdb & Hb & Hi & Htr).
      rewrite !run_ret. by exists w'.
    + rewrite !run_ret. by eexists.
Qed.

Lemma controller_steps_unpaired (entries : list edit_entry) : ∀ w,
  ∃ w',
    map_all entries
      (ReportController.process_observation E reportId userId files existingObsMap) w
    = (Ok (unpaired_object reportId existingObsMap <$> entries), w')
    ∧ db w' = db w ∧ bucket w' = bucket w ∧ issued w' = issued w
    ∧ trace w' = trace w.
Proof.
  induction entries as [|obs entries IH]; intros w.
  - by eexists.
  - simpl. rewrite run_bind.
    destruct (controller_step_unpaired obs w) as (w1 & -> & Hdb & Hb & Hi & Htr).
    rewrite run_bind.
    destruct (IH w1) as (w' & -> & Hdb' & Hb' & Hi' & Htr').
    rewrite run_ret. exists w'. split; [done|]. repeat split; congruence.
Qed.
End Unpaired.

Lemma apply_update_run E reportId (o : ReportController.processed_observation) w :
  store_accepts E →
  ∃ w',
    ReportController.apply_update E reportId o w = (Ok tt, w')
    ∧ trace w' = trace w ++ [update_request reportId o]
    ∧ tbl_reports (db w') = tbl_reports (db w)
    ∧ tbl_companies (db w') = tbl_companies (db w)
    ∧ bucket w' = bucket w.
Proof.
  intros Hacc. unfold ReportController.apply_update.
  rewrite run_bind. unfold update_observation. rewrite store_run.
  cbn [db emit snd]. rewrite Hacc. cbv beta iota zeta.
  eexists. split; [reflexivity|]. done.
Qed.

Lemma update_loop_run E reportId (us : list ReportController.processed_observation) :
  store_accepts E → ∀ w,
  ∃ w',
    for_of us (ReportController.apply_update E reportId) w = (Ok tt, w')
    ∧ trace w' = trace w ++ (update_request reportId <$> us)
    ∧ tbl_reports (db w') = tbl_reports (db w)
    ∧ tbl_companies (db w') = tbl_companies (db w)
    ∧ bucket w' = bucket w.
Proof.
  intros Hacc. induction us as [|o us IH]; intros w.
  - exists w. simpl. by rewrite app_nil_r.
  - simpl. rewrite run_bind.
    destruct (apply_update_run E reportId o w Hacc) as (w1 & -> & Htr1 & Hr1 & Hc1 & Hb1).
    destruct (IH w1) as (w' & -> & Htr & Hrep & Hco & Hb).
    exists w'. split; [done|].
    rewrite Htr, Htr1, <- app_assoc. repeat split; congruence.
Qed.

Lemma update_row_id reportId userId u r : rp_id (update_row reportId userId u r) = rp_id r.
Proof. unfold update_row. by destruct (decide _). Qed.

Lemma by_id_after_update reportId userId u (rows : list report_row) :
  filter (λ r, rp_id r = reportId) (update_row reportId userId u <$> rows)
  = update_row reportId userId u <$> filter (λ r, rp_id r = reportId) rows.
Proof.
  induction rows as [|x rows IH]; [done|].
  rewrite fmap_cons, !filter_cons, IH, update_row_id.
  by destruct (decide (rp_id x = reportId)).
Qed.

(** The routed update call of the owner of a report, on the files that the
    route delivers and with a store that performs its requests: it returns
    the report as it is after its requests, which are the read of the
    report, the update of its fields, and when there are entries the read of
    the existing observations and the writes for the objects computed from
    the entries, then the final read.  No file is read. *)
Lemma controller_updateReport_run E reportId userId body files w r entries :
  store_accepts E →
  uploaded_as_images files →
  index_by_id (observations_of reportId (db w)) !! "s" = None →
  owned_reports reportId userId (db w) = [r] →
  filter (λ x, rp_id x = reportId) (tbl_reports (db w)) = [r] →
  body_entries E (observations body) = Some entries →
  ∃ w',
    ReportController.updateReport E reportId userId body files w
    = (Ok (with_observations (db w')
             (update_row reportId userId (build_updates body) r)), w')
    ∧ added w w'
      = [EvDb (SelectReport reportId userId);
         EvDb (UpdateReport reportId userId (build_updates body))]
        ++ match entries with
           | [] => []
           | _ :: _ =>
               EvDb (SelectObservations reportId)
               :: observation_writes reportId
                    (unpaired_object reportId
                       (index_by_id (observations_of reportId (db w))) <$> entries)
           end
        ++ [EvDb (SelectReportById reportId)]
    ∧ bucket w' = bucket w.
Proof.
  intros Hacc Hserved Hs Hown Hone Hparse.
  unfold ReportController.updateReport, ReportController.parse_body_observations.
  rewrite Hparse, run_bind, run_ret. cbv beta iota. rewrite run_bind.
  rewrite (select_report_owned _ _ _ _ _ Hown (Hacc _ _)).
  cbv beta iota. rewrite run_bind. unfold update_report. rewrite store_run.
  cbn [db logged emit snd]. rewrite Hacc.
  cbv beta iota zeta. cbn [fst snd].
  unfold ReportController.updated_single.
  rewrite (owned_after_update reportId userId).
  pose proof Hown as Hown'. unfold owned_reports in Hown'. rewrite Hown'.
  cbn [fmap list_fmap single].
  rewrite run_bind.
  set (w2 := set_db _ _).
  assert (observations_of reportId (db w2) = observations_of reportId (db w)) as Hrows
    by reflexivity.
  set (m := index_by_id (observations_of reportId (db w))) in *.
  assert (∃ w3,
    (match entries with
     | [] => mret tt
     | _ :: _ => ReportController.process_observations E reportId userId files entries
     end) w2 = (Ok tt, w3)
    ∧ trace w3 = trace w2
        ++ match entries with
           | [] => []
           | _ :: _ =>
               EvDb (SelectObservations reportId)
               :: observation_writes reportId (unpaired_object reportId m <$> entries)
           end
    ∧ tbl_reports (db w3) = tbl_reports (db w2)
    ∧ bucket w3 = bucket w2) as (w3 & Hblock & Htr3 & Hrep3 & Hb3).
  { destruct entries as [|obs0 rest] eqn:Hentries.
    { exists w2. rewrite run_ret, app_nil_r. done. }
    rewrite <- Hentries. clear Hentries.
    unfold ReportController.process_observations. rewrite run_bind.
    rewrite (select_observations_accepted _ _ _ (Hacc _ _)). cbn [data default].
    unfold id. rewrite Hrows. fold m. rewrite run_bind.
    destruct (controller_steps_unpaired E reportId userId files m Hserved Hs entries
                (logged (EvDb (SelectObservations reportId)) w2))
      as (wa & -> & Hdba & Hba & _ & Htra).
    set (ps := unpaired_object reportId m <$> entries).
    rewrite run_bind.
    destruct (update_loop_run E reportId (ReportController.observationsToUpdate ps)
                Hacc wa) as (wb & -> & Htrb & Hrepb & _ & Hbb).
    unfold observation_writes.
    destruct (ReportController.observationsToInsert ps) as [|o l] eqn:Hins.
    - rewrite run_ret. exists wb. split; [done|]. rewrite app_nil_r.
      split; [rewrite Htrb, Htra; simpl; by rewrite <- app_assoc|].
      split; [by rewrite Hrepb, Hdba|]. by rewrite Hbb, Hba.
    - rewrite run_bind. unfold insert_observations. rewrite store_run. simpl.
      rewrite Hacc. simpl. rewrite run_ret. eexists. split; [reflexivity|]. simpl.
      split; [rewrite Htrb, Htra; simpl; by rewrite <- !app_assoc|].
      split; [by rewrite Hrepb, Hdba|]. by rewrite Hbb, Hba. }
  rewrite Hblock. rewrite run_bind. unfold select_report_by_id.
  rewrite store_run. simpl. rewrite Hacc. simpl.
  rewrite Hrep3. unfold w2 at 1. simpl.
  rewrite by_id_after_update, Hone. simpl. rewrite run_ret.
  exists (logged (EvDb (SelectReportById reportId)) w3).
  split; [reflexivity|]. simpl. split; [|by rewrite Hb3].
  apply added_app. simpl. rewrite Htr3. unfold w2. simpl. by rewrite <- !app_assoc.
Qed.

(** ** The order of the writes of the routed update call *)

Lemma respects_seq {A B} (R1 R2 R3 : relation world) (m : M world A)
    (f : A → M world B) :
  (∀ w1 w2, R1 w1 w2 → R3 w1 w2) →
  (∀ w1 w2 w3, R1 w1 w2 → R2 w2 w3 → R3 w1 w3) →
  respects R1 m → (∀ a, respects R2 (f a)) → respects R3 (m ≫= f).
Proof.
  intros Hstop Hcomp Hm Hf w. unfold respects in *. rewrite run_bind.
  specialize (Hm w). destruct (m w) as [[a|e] w1]; simpl in *.
  - eapply Hcomp; [exact Hm | apply Hf].
  - by apply Hstop.
Qed.

Lemma quiet_updates w w' : writes [] w w' → writes_updates w w'.
Proof. intros H. by exists 0. Qed.

Lemma updates_insert w w' : writes_updates w w' → writes_updates_insert w w'.
Proof. intros [k H]. exists k, false. by rewrite app_nil_r. Qed.

Lemma quiet_then w1 w2 w3 :
  writes [] w1 w2 → writes_updates_insert w2 w3 → writes_updates_insert w1 w3.
Proof.
  intros H1 (k & b & H2). exists k, b.
  exact (writes_trans [] _ _ _ _ H1 H2).
Qed.

Lemma then_quiet w1 w2 w3 :
  writes_updates_insert w1 w2 → writes [] w2 w3 → writes_updates_insert w1 w3.
Proof.
  intros (k & b & H1) H2. exists k, b.
  pose proof (writes_trans _ [] _ _ _ H1 H2) as H. by rewrite app_nil_r in H.
Qed.

#[global] Instance writes_updates_preorder : PreOrder writes_updates.
Proof.
  split.
  - intros w. exists 0. apply writes_refl.
  - intros w1 w2 w3 [k1 H1] [k2 H2]. exists (k1 + k2).
    pose proof (writes_trans _ _ _ _ _ H1 H2) as H.
    by rewrite <- replicate_add in H.
Qed.

#[global] Instance writes_quiet_preorder : PreOrder (writes []).
Proof.
  split; [exact writes_refl|]. intros w1 w2 w3 H1 H2.
  exact (writes_trans [] [] _ _ _ H1 H2).
Qed.

Lemma adds_quiet {A} (P : event → Prop) (m : M world A) :
  (∀ ev, P ev → obs_op_of ev = None) →
  respects (adds P) m → respects (writes []) m.
Proof. intros HP H w. eapply adds_writes_nil; [exact HP | apply H]. Qed.

Lemma adds_updates (P : event → Prop) w w' :
  (∀ ev, P ev → obs_op_of ev = Some OpUpdate) → adds P w w' → writes_updates w w'.
Proof.
  intros HP (evs & Htr & Hall). exists (length evs). exists evs. split; [done|].
  clear Htr. induction Hall as [|ev evs Hev _ IH]; [done|].
  change (obs_ops (ev :: evs))
    with (match obs_op_of ev with
          | Some y => y :: obs_ops evs
          | None => obs_ops evs
          end).
  rewrite (HP _ Hev), IH. done.
Qed.

Lemma insert_observations_trace E rows w :
  trace (insert_observations E rows w).2 = trace w ++ [EvDb (InsertObservations rows)].
Proof.
  unfold insert_observations. rewrite store_run. simpl.
  by destruct (db_refuses E (db w) _).
Qed.

Section RoutedOrder.
Variable E : env.
Variables (reportId userId : string) (files : option (list upload_file)).

Lemma apply_update_updates o :
  respects writes_updates (ReportController.apply_update E reportId o).
Proof.
  intros w. eapply (adds_updates (λ ev, ∃ i p, ev = EvDb (UpdateObservation i reportId p))).
  { by intros ev (i & p & ->). }
  revert w. unfold ReportController.apply_update. rbind.
  - apply update_observation_adds. by eexists _, _.
  - destruct a; rret.
Qed.

Lemma insert_part_writes (toInsert : list ReportController.processed_observation) :
  respects (λ w w', ∃ b : bool, writes (if b then [OpInsert] else []) w w')
    (match toInsert with
     | [] => mret tt
     | p :: l =>
         r ← insert_observations E (ReportController.insert_of <$> p :: l);
         match r with
         | Failure msg => throw (ApiError 400 msg)
         | Answer _ => mret tt
         end
     end).
Proof.
  intros w. destruct toInsert as [|o l].
  - exists false. apply writes_refl.
  - exists true. rewrite run_bind.
    pose proof (insert_observations_trace E (ReportController.insert_of <$> o :: l) w)
      as Htr.
    destruct (insert_observations E _ w) as [[[]|msg] w1]; simpl in *;
      eexists; (split; [exact Htr | reflexivity]).
Qed.

Lemma controller_block_order parsed :
  respects writes_updates_insert
    (ReportController.process_observations E reportId userId files parsed).
Proof.
  unfold ReportController.process_observations.
  apply (respects_seq (writes []) writes_updates_insert writes_updates_insert).
  { intros w1 w2 H. apply updates_insert. by apply quiet_updates. }
  { apply quiet_then. }
  { eapply (adds_quiet (λ ev, ev = EvDb (SelectObservations reportId)));
      [by intros ev -> | by apply select_observations_adds]. }
  intros existingObs.
  apply (respects_seq (writes []) writes_updates_insert writes_updates_insert).
  { intros w1 w2 H. apply updates_insert. by apply quiet_updates. }
  { apply quiet_then. }
  { eapply adds_quiet; [apply upload_event_not_write|].
    apply respects_map_all; [apply _|]. intros obs _. apply controller_step_adds. }
  intros ps.
  apply (respects_seq writes_updates
           (λ w w', ∃ b : bool, writes (if b then [OpInsert] else []) w w')
           writes_updates_insert).
  { apply updates_insert. }
  { intros w1 w2 w3 [k H1] [b H2]. exists k, b. exact (writes_trans _ _ _ _ _ H1 H2). }
  { apply respects_for_of; [apply _|]. intros o _. apply apply_update_updates. }
  intros []. apply insert_part_writes.
Qed.

(** Every run of the routed update call, returning or throwing: its writes
    on [observations] are updates followed by at most one insert. *)
Lemma controller_updateReport_order body :
  respects writes_updates_insert
    (ReportController.updateReport E reportId userId body files).
Proof.
  unfold ReportController.updateReport.
  apply (respects_seq (writes []) writes_updates_insert writes_updates_insert).
  { intros w1 w2 H. apply updates_insert. by apply quiet_updates. }
  { apply quiet_then. }
  { unfold ReportController.parse_body_observations.
    destruct (body_entries E _); rret. }
  intros parsed.
  apply (respects_seq (writes []) writes_updates_insert writes_updates_insert).
  { intros w1 w2 H. apply updates_insert. by apply quiet_updates. }
  { apply quiet_then. }
  { eapply (adds_quiet (λ ev, ev = EvDb (SelectReport reportId userId)));
      [by intros ev -> | by apply select_report_adds]. }
  intros [v|msg]; [|intros w; apply updates_insert, quiet_updates; apply writes_refl].
  apply (respects_seq (writes []) writes_updates_insert writes_updates_insert).
  { intros w1 w2 H. apply updates_insert. by apply quiet_updates. }
  { apply quiet_then. }
  { eapply (adds_quiet (λ ev, ∃ x, ev = EvDb (UpdateReport reportId userId x)));
      [by intros ev (x & ->) | apply update_report_adds; by eexists]. }
  intros u. destruct (ReportController.updated_single u);
    [|intros w; apply updates_insert, quiet_updates; apply writes_refl].
  apply (respects_seq writes_updates_insert (writes []) writes_updates_insert).
  { done. }
  { apply then_quiet. }
  { destruct parsed; [intros w; apply updates_insert, quiet_updates; apply writes_refl|].
    apply controller_block_order. }
  intros [].
  apply (respects_seq (writes []) (writes []) (writes [])).
  { done. }
  { intros w1 w2 w3 H1 H2. exact (writes_trans [] [] _ _ _ H1 H2). }
  { eapply (adds_quiet (λ ev, ev = EvDb (SelectReportById reportId)));
      [by intros ev -> | by apply select_report_by_id_adds]. }
  intros [v'|msg]; intros w; apply writes_refl.
Qed.
End RoutedOrder.

Lemma updates_insert_ordered k (b : bool) :
  deletes_updates_inserts (replicate k OpUpdate ++ if b then [OpInsert] else []) = true
  ∧ OpDelete ∉ replicate k OpUpdate ++ (if b then [OpInsert] else []).
Proof.
  split.
  - unfold deletes_updates_inserts. induction k as [|k IH]; [by destruct b|].
    simpl. simpl in IH. destruct k; [by destruct b|]. simpl in *. exact IH.
  - intros Hin. apply elem_of_app in Hin as [Hin|Hin].
    + by apply elem_of_replicate in Hin as [? _].
    + destruct b; [|by apply elem_of_nil in Hin].
      by apply list_elem_of_singleton in Hin.
Qed.

(** ** The company handlers of the routes *)

(** C7.  Company creation is idempotent on the tax id.  The handler of
    [POST /api/companies] ([companyController.createCompany]), called with
    the four required fields and a [cuit] that one stored company has, and
    answered by the store on its search: it asks the store for the company
    with that [cuit] and then for the association of the caller with it, and
    for nothing else; table [companies] is as before whatever the store
    answers next; when the store accepts the association the handler
    returns the stored company, with the name it was stored under, and the
    association of the caller with that company is the one row added to
    [user_companies]; when the store refuses it the handler fails with
    status 400 and the tables are as before. *)
Theorem createCompany_links_to_existing_cuit
    (E : CompanyController.env) (userId : string) (body : company_data)
    (w : CompanyController.world) (existing : CompanyController.company) :
  truthy (name body) = true → truthy (cuit body) = true →
  truthy (address body) = true → truthy (industry body) = true →
  filter (λ x, to_string (CompanyController.company_cuit x) = to_string (cuit body))
         (CompanyController.companies (CompanyController.db w)) = [existing] →
  CompanyController.db_refuses E (CompanyController.db w)
    (CompanyController.SelectByCuit (cuit body)) = None →
  let run := CompanyController.createCompany E userId body w in
  CompanyController.companies (CompanyController.db run.2)
  = CompanyController.companies (CompanyController.db w)
  ∧ company_requests w run.2
    = [CompanyController.SelectByCuit (cuit body);
       CompanyController.InsertAssociation userId
         (CompanyController.company_id existing)]
  ∧ match CompanyController.db_refuses E (CompanyController.db w)
            (CompanyController.InsertAssociation userId
               (CompanyController.company_id existing)) with
    | None =>
        run.1 = Ok existing
        ∧ CompanyController.user_companies (CompanyController.db run.2)
          = CompanyController.user_companies (CompanyController.db w)
            ++ [{| CompanyController.assoc_user_id := userId;
                   CompanyController.assoc_company_id :=
                     CompanyController.company_id existing |}]
    | Some e =>
        run.1 = Throw (ApiError 400 (CompanyController.message e))
        ∧ CompanyController.db run.2 = CompanyController.db w
    end.
Proof.
  intros Hn Hc Ha Hi Hfound Hsel run. subst run.
  unfold CompanyController.createCompany. rewrite Hn, Hc, Ha, Hi.
  cbn [negb orb]. rewrite run_bind.
  unfold CompanyController.select_by_cuit. rewrite cc_store_run. cbv zeta.
  rewrite Hsel. cbv beta iota.
  cbn [CompanyController.db]. rewrite Hfound.
  cbn [CompanyController.single CompanyController.search_failed].
  rewrite run_bind, run_ret. cbv beta iota. rewrite run_bind.
  unfold CompanyController.insert_association. rewrite cc_store_run. cbv zeta.
  cbn [CompanyController.db CompanyController.issued CompanyController.trace].
  unfold company_requests.
  destruct (CompanyController.db_refuses E (CompanyController.db w)
              (CompanyController.InsertAssociation userId
                 (CompanyController.company_id existing))) as [e|];
    cbv beta iota; rewrite ?run_ret, ?run_throw; cbn [fst snd];
    cbn [CompanyController.db CompanyController.trace
         CompanyController.companies CompanyController.user_companies];
    rewrite <- app_assoc, drop_app_length; done.
Qed.

Lemma createCompany_links_to_existing_cuit_witness :
  let run := CompanyController.createCompany Sample.shared_store "u2"
               Sample.same_cuit Sample.shared_world in
  name Sample.same_cuit = VStr "Acme Norte"
  ∧ run.1 = Ok Sample.shared_c1
  ∧ CompanyController.company_name Sample.shared_c1 = VStr "Acme SA"
  ∧ CompanyController.companies (CompanyController.db run.2) = [Sample.shared_c1]
  ∧ CompanyController.user_companies (CompanyController.db run.2)
    = [{| CompanyController.assoc_user_id := "u1";
          CompanyController.assoc_company_id := "c1" |};
       {| CompanyController.assoc_user_id := "u2";
          CompanyController.assoc_company_id := "c1" |}].
Proof.
  pose proof (createCompany_links_to_existing_cuit Sample.shared_store "u2"
                Sample.same_cuit Sample.shared_world Sample.shared_c1
                eq_refl eq_refl eq_refl eq_refl eq_refl eq_refl)
    as (Hcompanies & _ & Hrun & Hlinks).
  split; [reflexivity|]. split; [exact Hrun|]. split; [reflexivity|].
  split; [exact Hcompanies | exact Hlinks].
Defined.

(** C8.  The handler of [DELETE /api/companies/:id]
    ([companyController.removeCompanyAssociation]) sends one request, the
    deletion of the rows of [user_companies] that link the caller to the
    company.  Table [companies] is as before in every run, so the company
    row is never deleted; every association of another user or with another
    company is kept; when the store accepts the request the handler answers
    with its message and the associations left are the former ones without
    those of the caller with the company; when the store refuses it the
    handler fails with status 400 and the tables are as before. *)
Theorem delete_company_removes_only_the_association
    (E : CompanyController.env) (companyId userId : string)
    (w : CompanyController.world) :
  let run := CompanyController.removeCompanyAssociation E companyId userId w in
  CompanyController.companies (CompanyController.db run.2)
  = CompanyController.companies (CompanyController.db w)
  ∧ company_requests w run.2 = [CompanyController.DeleteAssociation companyId userId]
  ∧ (∀ a, a ∈ CompanyController.user_companies (CompanyController.db w) →
          ¬ (CompanyController.assoc_company_id a = companyId
             ∧ CompanyController.assoc_user_id a = userId) →
          a ∈ CompanyController.user_companies (CompanyController.db run.2))
  ∧ match CompanyController.db_refuses E (CompanyController.db w)
            (CompanyController.DeleteAssociation companyId userId) with
    | None =>
        run.1 = Ok "Company association removed successfully"
        ∧ CompanyController.user_companies (CompanyController.db run.2)
          = filter (λ a, ¬ (CompanyController.assoc_company_id a = companyId
                            ∧ CompanyController.assoc_user_id a = userId))
                   (CompanyController.user_companies (CompanyController.db w))
    | Some e =>
        run.1 = Throw (ApiError 400 (CompanyController.message e))
        ∧ CompanyController.db run.2 = CompanyController.db w
    end.
Proof.
  intros run. subst run. unfold CompanyController.removeCompanyAssociation.
  rewrite run_bind. unfold CompanyController.delete_association.
  rewrite cc_store_run. cbv zeta. unfold company_requests.
  destruct (CompanyController.db_refuses E (CompanyController.db w)
              (CompanyController.DeleteAssociation companyId userId)) as [e|];
    cbv beta iota; rewrite ?run_ret, ?run_throw; cbn [fst snd];
    cbn [CompanyController.db CompanyController.trace
         CompanyController.companies CompanyController.user_companies];
    rewrite drop_app_length; (split; [done|]); (split; [done|]);
    (split; [|done]); intros a Ha Hother; [done|].
  apply list_elem_of_filter. done.
Qed.

(** ** The flag [visit_confirmation] of a created report *)

Lemma visit_confirmed_exactly (v : jsval) :
  visit_confirmed v = true ↔ v = VBool true ∨ v = VStr "true".
Proof.
  unfold visit_confirmed, strict_eq_string, strict_eq_true.
  destruct v as [| |[]| |s|]; simpl;
    try (split; [discriminate | intros [?|?]; discriminate]).
  - split; [by left | done].
  - rewrite orb_false_r, bool_decide_eq_true. split.
    + intros ->. by right.
    + intros [?|?]; by simplify_eq.
Qed.

(** Every run of the routed [createReport], returning or throwing, leaves
    table [reports] as it was or with one more row, whose fields are the
    ones of [newReport]. *)
Lemma controller_createReport_reports E userId body files w :
  let w' := (ReportController.createReport E userId body files w).2 in
  tbl_reports (db w') = tbl_reports (db w)
  ∨ ∃ row, tbl_reports (db w') = tbl_reports (db w) ++ [row]
           ∧ rp_fields row = newReport body userId.
Proof.
  cbv zeta. unfold ReportController.createReport,
    ReportController.parse_body_observations.
  destruct (body_entries E (observations body)) as [parsed|];
    [|rewrite run_bind, run_throw; by left].
  rewrite run_bind, run_ret. cbv beta iota.
  destruct (_ || _); [rewrite run_throw; by left|].
  rewrite run_bind.
  pose proof (select_company_on_db E unchanged
                (to_string (companyId body)) userId w) as Hdb1.
  destruct (select_company E (to_string (companyId body)) userId w)
    as [[[c|msg]|e] w1]; unfold on_db, unchanged in Hdb1; simpl in Hdb1;
    [|rewrite run_throw; left; simpl; by rewrite Hdb1 | left; simpl; by rewrite Hdb1].
  rewrite run_bind.
  destruct (insert_report E (newReport body userId) w1) as [[[row|msg]|e] w2] eqn:Hins.
  - apply insert_report_appends in Hins as [Hrows Hrow].
    right. exists row. split; [|done]. rewrite <- Hdb1, <- Hrows.
    set (tail := _ ≫= _).
    assert (respects (on_db same_reports) tail) as Htail.
    { unfold tail. rbind; [apply controller_items_keep_reports|].
      rbind; [apply insert_items_keep_reports | rret]. }
    exact (Htail w2).
  - left. unfold insert_report in Hins. rewrite store_run in Hins. simpl in Hins.
    destruct (db_refuses E (db w1) _); simplify_eq. rewrite run_throw. simpl.
    by rewrite Hdb1.
  - unfold insert_report in Hins. rewrite store_run in Hins. simpl in Hins.
    destruct (db_refuses E (db w1) _); simplify_eq.
Qed.

(** C10.  The persisted [visit_confirmation] of a created report is [true]
    exactly when the submitted [visitConfirmation] is the boolean [true] or
    the string ["true"].  For the handler of [POST /api/reports]
    ([createReport] of the report controller): every run, returning or
    throwing, leaves table [reports] as it was or with one more row, and the
    flag of that row is [true] exactly for these two values; a run that
    answers has added the row it answers with; and the request of an owner
    of the company is answered when the body has the required fields, its
    observations parse, the store performs its requests, the storage serves
    the uploads and the temporary files are distinct. *)
Theorem routed_visit_confirmation_is_exactly_true
    (E : env) (userId : string) (body : report_data)
    (files : option (list upload_file)) (w : world) :
  let run := ReportController.createReport E userId body files w in
  let submitted_true :=
    visitConfirmation body = VBool true ∨ visitConfirmation body = VStr "true" in
  (tbl_reports (db run.2) = tbl_reports (db w)
   ∨ ∃ row, tbl_reports (db run.2) = tbl_reports (db w) ++ [row]
            ∧ (rp_visit_confirmation (rp_fields row) = true ↔ submitted_true))
  ∧ (∀ row items,
       run.1 = Ok (row, items) →
       tbl_reports (db run.2) = tbl_reports (db w) ++ [row]
       ∧ (rp_visit_confirmation (rp_fields row) = true ↔ submitted_true))
  ∧ (∀ c parsed,
       store_accepts E → storage_reliable E →
       NoDup (file_path <$> files_list files) →
       owned_companies (to_string (companyId body)) userId (db w) = [c] →
       body_entries E (observations body) = Some parsed →
       truthy (companyId body) = true → truthy (date body) = true →
       truthy (description body) = true →
       ∃ row items,
         run.1 = Ok (row, items)
         ∧ tbl_reports (db run.2) = tbl_reports (db w) ++ [row]
         ∧ (rp_visit_confirmation (rp_fields row) = true ↔ submitted_true)).
Proof.
  intros run submitted_true. subst run submitted_true.
  assert (∀ row, rp_fields row = newReport body userId →
                 rp_visit_confirmation (rp_fields row) = true
                 ↔ visitConfirmation body = VBool true
                   ∨ visitConfirmation body = VStr "true") as Hflag.
  { intros row ->. apply visit_confirmed_exactly. }
  split; [|split].
  - destruct (controller_createReport_reports E userId body files w)
      as [Hsame|(row & Hrows & Hrow)]; [by left|].
    right. exists row. split; [exact Hrows | by apply Hflag].
  - intros row items Hrun.
    destruct (ReportController.createReport E userId body files w) as [res w'] eqn:H.
    simpl in *. subst res.
    apply controller_createReport_persists in H as [Hrows Hrow].
    split; [exact Hrows | by apply Hflag].
  - intros c parsed Hacc Hrel _ Hown Hparse Hc Hd Hdesc.
    destruct (controller_createReport_run E body files userId w c parsed
                Hacc Hrel Hown Hparse Hc Hd Hdesc)
      as (items & w' & Hrun & Hrows & _).
    rewrite Hrun. eexists _, items. split; [reflexivity|].
    split; [exact Hrows|]. by apply (Hflag (Build_report_row _ _)).
Qed.

Lemma routed_visit_confirmation_witness :
  (∃ row items,
     (ReportController.createReport Sample.calm "u1"
        (Sample.body (VStr "true") ObsAbsent IdsAbsent) None Sample.world0).1
     = Ok (row, items)
     ∧ rp_visit_confirmation (rp_fields row) = true)
  ∧ (∃ row items,
       (ReportController.createReport Sample.calm "u1"
          (Sample.body (VStr "True") ObsAbsent IdsAbsent) None Sample.world0).1
       = Ok (row, items)
       ∧ rp_visit_confirmation (rp_fields row) = false)
  ∧ (∃ row items,
       (ReportController.createReport Sample.calm "u1"
          (Sample.body VUndefined ObsAbsent IdsAbsent) None Sample.world0).1
       = Ok (row, items)
       ∧ rp_visit_confirmation (rp_fields row) = false).
Proof.
  assert (∀ v,
    ∃ row items,
      (ReportController.createReport Sample.calm "u1"
         (Sample.body v ObsAbsent IdsAbsent) None Sample.world0).1 = Ok (row, items)
      ∧ (rp_visit_confirmation (rp_fields row) = true
         ↔ v = VBool true ∨ v = VStr "true")) as Hrun.
  { intros v.
    destruct (routed_visit_confirmation_is_exactly_true Sample.calm "u1"
                (Sample.body v ObsAbsent IdsAbsent) None Sample.world0)
      as (_ & _ & Htotal).
    destruct (Htotal Sample.company_c1 []) as (row & items & Hrun & _ & Hflag);
      try reflexivity.
    - intros t q. reflexivity.
    - split; intros p; reflexivity.
    - constructor.
    - by exists row, items. }
  split; [|split].
  - destruct (Hrun (VStr "true")) as (row & items & H & Hflag).
    exists row, items. split; [exact H|]. apply Hflag. by right.
  - destruct (Hrun (VStr "True")) as (row & items & H & Hflag).
    exists row, items. split; [exact H|].
    destruct (rp_visit_confirmation (rp_fields row)); [|done].
    destruct Hflag as [Hflag _]. by destruct (Hflag eq_refl).
  - destruct (Hrun VUndefined) as (row & items & H & Hflag).
    exists row, items. split; [exact H|].
    destruct (rp_visit_confirmation (rp_fields row)); [|done].
    destruct Hflag as [Hflag _]. by destruct (Hflag eq_refl).
Defined.

(** ** What the routed update call never asks *)

Lemma controller_updateReport_adds E (P : event → Prop) reportId userId body files :
  (∀ q, P (EvDb q)) → (∀ p, P (EvReadFile p)) → (∀ p, P (EvUpload p)) →
  respects (adds P) (ReportController.updateReport E reportId userId body files).
Proof.
  intros Hdb Hread Hup. unfold ReportController.updateReport. rbind.
  { unfold ReportController.parse_body_observations.
    destruct (body_entries E _); rret. }
  rbind; [by apply select_report_adds|].
  rcase; [|rret].
  rbind; [by apply update_report_adds|].
  rcase; [|rret].
  rbind.
  { rcase; [rret|]. unfold ReportController.process_observations.
    rbind; [by apply select_observations_adds|].
    rbind.
    { apply respects_map_all; [apply _|]. intros obs _.
      eapply respects_adds_mono; [|apply controller_step_adds].
      intros [q|p|p|ps]; simpl; try done. }
    rbind.
    { apply respects_for_of; [apply _|]. intros o _.
      unfold ReportController.apply_update.
      rbind; [by apply update_observation_adds|]. rcase; rret. }
    rcase; [rret|].
    rbind; [by apply insert_observations_adds|]. rcase; rret. }
  rbind; [by apply select_report_by_id_adds|].
  rcase; rret.
Qed.

Lemma removals_none evs :
  Forall (λ ev, ∀ ps, ev ≠ EvRemove ps) evs → removals evs = [].
Proof.
  induction 1 as [|ev evs Hev _ IH]; [done|].
  destruct ev as [q|p|p|ps]; try exact IH. by destruct (Hev ps).
Qed.

(** ** The deletion ids of an update call *)

(** C3.  The deletion ids of an update call are not acted upon.  The
    handler of [PUT /api/reports/:id] never reads [observationsToDelete]:
    its run is the same whatever the field holds, and no run of it asks for
    the deletion of an observation or for the removal of a blob.  So the
    call of the owner of report [r1] with the deletion id [obs-1] returns
    the report with the observation [obs-1] still in it and its image still
    in the bucket, with an empty entry list as well as with an entry for
    another observation.  The function [updateReport] of
    [services/reportService.js] reads the deletion ids inside the block that
    it runs for a non-empty [observations] only: the same call with no
    entries returns the report with [obs-1] in it. *)
Theorem deletion_ids_are_not_acted_upon :
  (∀ E reportId userId body files d,
     ReportController.updateReport E reportId userId (with_deletions d body) files
     = ReportController.updateReport E reportId userId body files)
  ∧ (∀ E reportId userId body files w,
       let w' := (ReportController.updateReport E reportId userId body files w).2 in
       (OpDelete ∉ obs_ops (added w w')) ∧ removals (added w w') = [])
  ∧ (let run := ReportController.updateReport Sample.calm "r1" "u1"
                  (Sample.body VUndefined ObsAbsent (IdsArray [VStr "obs-1"]))
                  None Sample.world0 in
     view_observations <$> returned run = Some [Sample.obs_1; Sample.obs_2]
     ∧ tbl_observations (db run.2) = [Sample.obs_1; Sample.obs_2]
     ∧ bucket run.2 = ["u1/a.png"; "u1/b.png"])
  ∧ (let run := ReportController.updateReport Sample.calm "r1" "u1"
                  (Sample.body VUndefined
                     (ObsArray [Sample.entry (VStr "obs-2") "Signage fixed"])
                     (IdsArray [VStr "obs-1"]))
                  None Sample.world0 in
     ob_id <$> default [] (view_observations <$> returned run) = ["obs-1"; "obs-2"]
     ∧ ob_id <$> tbl_observations (db run.2) = ["obs-1"; "obs-2"]
     ∧ bucket run.2 = ["u1/a.png"; "u1/b.png"])
  ∧ (let run := ReportService.updateReport Sample.calm "r1"
                  (Sample.body VUndefined ObsAbsent (IdsArray [VStr "obs-1"]))
                  None "u1" Sample.world0 in
     view_observations <$> returned run = Some [Sample.obs_1; Sample.obs_2]
     ∧ obs_ops (trace run.2) = [])
  ∧ (let run := ReportService.updateReport Sample.calm "r1"
                  (Sample.body VUndefined (ObsArray []) (IdsArray [VStr "obs-1"]))
                  None "u1" Sample.world0 in
     view_observations <$> returned run = Some [Sample.obs_1; Sample.obs_2]
     ∧ obs_ops (trace run.2) = []).
Proof.
  split; [reflexivity|]. split.
  { intros E reportId userId body files w w'. subst w'. split.
    - destruct (controller_updateReport_order E reportId userId files body w)
        as (k & b & Hw).
      rewrite (writes_added _ _ _ Hw). apply updates_insert_ordered.
    - apply removals_none.
      pose proof (controller_updateReport_adds E (λ ev, ∀ ps, ev ≠ EvRemove ps)
                    reportId userId body files) as H.
      specialize (H ltac:(done) ltac:(done) ltac:(done) w).
      by apply adds_added in H as [_ H]. }
  vm_compute. repeat split.
Qed.

(** ** An entry whose id is the name of an inherited member *)

(** C1.  An entry whose id is no id of the report but the name of a member
    that every object inherits is applied as an update.  The id
    ["constructor"] names no observation of report [r1]; the lookup
    [existingObsMap[obs.id]] of both variants of [updateReport] finds
    [Object.prototype.constructor] under it, so the entry takes the branch
    of the existing observations: the one write of the call is an update of
    the observation with id ["constructor"], no row is inserted and the
    report returned holds the two observations it had. *)
Theorem inherited_name_entry_is_updated :
  existing_of (index_by_id [Sample.obs_1; Sample.obs_2]) Cases.constructor_entry = None
  ∧ (let run := ReportController.updateReport Sample.calm "r1" "u1"
                  (Sample.body VUndefined (ObsArray [Cases.constructor_entry])
                     IdsAbsent)
                  None Sample.world0 in
     view_observations <$> returned run = Some [Sample.obs_1; Sample.obs_2]
     ∧ tbl_observations (db run.2) = [Sample.obs_1; Sample.obs_2]
     ∧ filter (λ ev, is_Some (obs_op_of ev)) (trace run.2)
       = [EvDb (UpdateObservation "constructor" "r1"
                  {| set_observation := VStr "Loose cable";
                     set_risk_level := VUndefined;
                     set_image_url := VUndefined |})])
  ∧ (let run := ReportService.updateReport Sample.calm "r1"
                  (Sample.body VUndefined (ObsArray [Cases.constructor_entry])
                     IdsAbsent)
                  None "u1" Sample.world0 in
     view_observations <$> returned run = Some [Sample.obs_1; Sample.obs_2]
     ∧ tbl_observations (db run.2) = [Sample.obs_1; Sample.obs_2]
     ∧ filter (λ ev, is_Some (obs_op_of ev)) (trace run.2)
       = [EvDb (UpdateObservation "constructor" "r1"
                  {| set_observation := VStr "Loose cable";
                     set_risk_level := VUndefined;
                     set_image_url := VUndefined |})]).
Proof. vm_compute. repeat split. Qed.

(** ** A failing cleanup of the images of a deleted report *)

(** C9.  A failing cleanup aborts the handler of [DELETE /api/reports/:id]
    after the report is deleted.  With an observation whose stored image is
    the text ["pending"], which is not a URL, the call of the owner throws
    while it builds the image paths: the report and its observations are
    gone, no removal was asked.  With a storage whose request fails on the
    network the call throws the error of the request, the report and its
    observations gone as well.  Only an error that the storage answers is
    passed over: the call then answers with its message.  The function
    [deleteReport] of [services/reportService.js], which cleans up through
    [deleteImage], returns [true] in the first two cases. *)
Theorem routed_cleanup_failure_aborts_delete :
  (let run := ReportController.deleteReport Sample.calm Cases.removes_all "r1" "u1"
                Cases.world_pending in
   run.1 = Throw (JsError "Invalid URL")
   ∧ tbl_reports (db run.2) = [] ∧ tbl_observations (db run.2) = []
   ∧ removals (trace run.2) = [])
  ∧ (let run := ReportController.deleteReport Sample.calm Cases.unreachable "r1" "u1"
                  Sample.world0 in
     run.1 = Throw (JsError "fetch failed")
     ∧ tbl_reports (db run.2) = [] ∧ tbl_observations (db run.2) = []
     ∧ bucket run.2 = ["u1/a.png"; "u1/b.png"])
  ∧ (let run := ReportController.deleteReport Sample.calm Cases.denies "r1" "u1"
                  Sample.world0 in
     run.1 = Ok "Report deleted successfully"
     ∧ tbl_reports (db run.2) = [] ∧ tbl_observations (db run.2) = []
     ∧ bucket run.2 = ["u1/a.png"; "u1/b.png"])
  ∧ (ReportService.deleteReport Sample.calm "r1" "u1" Cases.world_pending).1 = Ok true
  ∧ (ReportService.deleteReport Sample.no_cleanup "r1" "u1" Sample.world0).1 = Ok true.
Proof. vm_compute. repeat split. Qed.




(** ** An id that is edited and deleted in one call *)

(** The entries of a body that the routed handler goes through are the ones
    the service goes through. *)
Lemma entries_provided E (o : observations_field) entries obs :
  body_entries E o = Some entries → obs ∈ entries →
  ReportService.observations_provided o = true ∧ parse_entries E o = Some entries.
Proof.
  intros Hparse Hin. destruct o as [|s|l]; simpl in *.
  - simplify_eq. by apply elem_of_nil in Hin.
  - destruct s as [|c s]; [simplify_eq; by apply elem_of_nil in Hin|]. done.
  - simplify_eq. split; [|done]. destruct entries; [by apply elem_of_nil in Hin|done].
Qed.

Lemma js_or_null (a b : jsval) : js_or (js_or a VNull) b = js_or a b.
Proof. unfold js_or. by destruct (truthy a) eqn:Ha; simpl; rewrite ?Ha. Qed.

Lemma existing_unpaired reportId (existingObsMap : gmap string observation_row)
    obs existing :
  existing_of existingObsMap obs = Some existing →
  unpaired_object reportId existingObsMap obs
  = {| ReportController.p_id := entry_id obs;
       ReportController.p_report_id := VUndefined;
       ReportController.p_observation :=
         js_or (entry_observation obs) (ob_observation existing);
       ReportController.p_risk_level :=
         js_or (riskLevel obs) (ob_risk_level existing);
       ReportController.p_image_url :=
         js_or (imageUrl obs) (ob_image_url existing) |}
  ∧ truthy (entry_id obs) = true.
Proof.
  intros Hex. unfold unpaired_object. rewrite (existing_found _ _ _ Hex).
  rewrite js_or_null. split; [done|].
  unfold existing_of in Hex. by destruct (truthy (entry_id obs)).
Qed.

(** The writes of the routed call hold the update of every object with an
    id and the insert of every object without. *)
Lemma update_request_written reportId (ps : list ReportController.processed_observation) o :
  o ∈ ps → truthy (ReportController.p_id o) = true →
  update_request reportId o ∈ observation_writes reportId ps.
Proof.
  intros Hin Hid. unfold observation_writes. apply elem_of_app. left.
  apply list_elem_of_fmap. exists o. split; [done|].
  unfold ReportController.observationsToUpdate. by apply list_elem_of_filter.
Qed.

Lemma insert_request_written reportId (ps : list ReportController.processed_observation) o :
  o ∈ ps → truthy (ReportController.p_id o) = false →
  ∃ rows, EvDb (InsertObservations rows) ∈ observation_writes reportId ps
          ∧ ReportController.insert_of o ∈ rows.
Proof.
  intros Hin Hid. unfold observation_writes.
  assert (o ∈ ReportController.observationsToInsert ps) as Ho
    by (unfold ReportController.observationsToInsert; by apply list_elem_of_filter).
  destruct (ReportController.observationsToInsert ps) as [|x l] eqn:Hins;
    [by apply elem_of_nil in Ho|].
  eexists. split.
  - apply elem_of_app. right. by left.
  - apply list_elem_of_fmap. by exists o.
Qed.

(** C4, as the code has it.  An update call whose deletion ids contain the
    id of an entry that names an existing observation is not rejected: no
    check compares the two lists.  With a store that performs its requests
    the call of the owner of the report returns.  The handler of
    [PUT /api/reports/:id], on the files that the route delivers, applies
    the entry as an update of that observation.  The function
    [updateReport] of [services/reportService.js], with a storage that
    serves the uploads, updates the observation from the entry and then
    deletes it as the deletion id asks, so the observation is absent from
    the report it returns. *)
Theorem edited_and_deleted_is_not_rejected
    (E : env) (reportId userId : string) (body : report_data)
    (files : option (list upload_file)) (w : world) (r : report_row)
    (entries : list edit_entry) (ids : list jsval) (obs : edit_entry) (d : jsval)
    (existing : observation_row) :
  store_accepts E →
  owned_reports reportId userId (db w) = [r] →
  body_entries E (observations body) = Some entries →
  parse_ids E (observationsToDelete body) = Some ids →
  obs ∈ entries →
  d ∈ ids →
  existing_of (index_by_id (observations_of reportId (db w))) obs = Some existing →
  to_string d = to_string (entry_id obs) →
  (uploaded_as_images files →
   index_by_id (observations_of reportId (db w)) !! "s" = None →
   filter (λ x, rp_id x = reportId) (tbl_reports (db w)) = [r] →
   ∃ view w',
     ReportController.updateReport E reportId userId body files w = (Ok view, w')
     ∧ EvDb (UpdateObservation (to_string d) reportId
               {| set_observation :=
                    js_or (entry_observation obs) (ob_observation existing);
                  set_risk_level := js_or (riskLevel obs) (ob_risk_level existing);
                  set_image_url := js_or (imageUrl obs) (ob_image_url existing) |})
       ∈ added w w')
  ∧ (storage_reliable E →
     ReportService.deletions_specified (observationsToDelete body) = true →
     ∃ view w',
       ReportService.updateReport E reportId body files userId w = (Ok view, w')
       ∧ (∃ p pre mid post,
            added w w'
            = pre ++ EvDb (UpdateObservation (to_string d) reportId p)
                  :: mid ++ EvDb (DeleteObservation (to_string d) reportId) :: post)
       ∧ (∀ row, row ∈ view_observations view → ob_id row ≠ to_string d)).
Proof.
  intros Hacc Hown Hbody Hids Hobs Hd Hex Heq.
  set (m := index_by_id (observations_of reportId (db w))) in *.
  split.
  - intros Hserved Hs Hone.
    destruct (controller_updateReport_run E reportId userId body files w r entries
                Hacc Hserved Hs Hown Hone Hbody) as (w' & Hrun & Hadded & _).
    eexists _, w'. split; [exact Hrun|]. rewrite Hadded, Heq. fold m.
    destruct (existing_unpaired reportId m obs existing Hex) as [Hobj Hid].
    apply elem_of_app. right. apply elem_of_app. left.
    destruct entries as [|e0 rest] eqn:He; [by apply elem_of_nil in Hobs|].
    rewrite <- He in *. right.
    pose proof (update_request_written reportId (unpaired_object reportId m <$> entries)
                  (unpaired_object reportId m obs)) as Hw.
    rewrite Hobj in Hw at 2 3. apply Hw; [|exact Hid].
    apply list_elem_of_fmap. by exists obs.
  - intros Hrel Hspec.
    destruct (entries_provided E _ _ _ Hbody Hobs) as [Hprov Hentries].
    pose proof (existing_found _ _ _ Hex) as Hfound.
    assert (effective_entries E body = entries) as Ee
      by (unfold effective_entries; by rewrite Hprov, Hentries).
    assert (effective_deletions E body = ids) as Ed
      by (unfold effective_deletions; by rewrite Hprov, Hspec, Hids).
    assert (js_get m (to_string d) = Some existing) as Hm.
    { unfold existing_of in Hex. destruct (truthy (entry_id obs)); [|discriminate].
      rewrite Heq. unfold js_get. by rewrite Hex. }
    destruct (updateReport_total E reportId userId body files w r)
      as (view & w' & Hrun); try done; try (by eexists).
    exists view, w'. split; [exact Hrun|]. split.
    + apply updateReport_Ok in Hrun as (v0 & w1 & w2 & w3 & H0 & H1 & H2 & H3).
      pose proof (rows_at_block _ _ _ _ _ _ _ _ H0 H1) as Hrows.
      apply (observations_block_Ok _ _ _ _ _ _ _ (λ t, Hacc t _)) in H2
        as (wa & wb & _ & (e3 & T3 & _) & Hloop1 & Hloop2).
      rewrite Hrows, Ee in Hloop1. rewrite Hrows, Ed in Hloop2. fold m in Hloop1, Hloop2.
      apply getReport_Ok in H0 as (_ & _ & _ & T1).
      pose proof (update_fields_adds E reportId userId body w1) as (e2 & T2 & _).
      rewrite H1 in T2. simpl in T2.
      apply getReport_Ok in H3 as (_ & _ & _ & T6).
      destruct (for_of_emitted entries
                  (ReportService.process_observation E reportId userId files m) obs
                  (λ ev, ∃ p, ev = EvDb (UpdateObservation
                                           (to_string (entry_id obs)) reportId p))
                  wa wb) as (e4 & T4 & X4); try done.
      { intros y. by apply service_step_adds. }
      { intros wx wy. apply update_step_emitted. by eexists. }
      destruct (for_of_emitted ids
                  (ReportService.process_deletion E reportId m) d
                  (λ ev, ev = EvDb (DeleteObservation (to_string d) reportId))
                  wb w3) as (e5 & T5 & X5); try done.
      { intros y. by apply deletion_adds. }
      { intros wx wy Hstep.
        destruct (deletion_requests_delete E reportId m d existing wx Hm)
          as (wz & evs & Hz & Tz).
        rewrite Hz in Hstep. simplify_eq. eexists. split; [exact Tz|].
        apply Exists_app. right. by constructor. }
      apply Exists_exists in X4 as (ev4 & Hin4 & p & ->).
      apply Exists_exists in X5 as (ev5 & Hin5 & ->).
      apply list_elem_of_split in Hin4 as (a4 & b4 & ->).
      apply list_elem_of_split in Hin5 as (a5 & b5 & ->).
      rewrite <- Heq in *.
      exists p, ([EvDb (SelectReport reportId userId)] ++ e2 ++ e3 ++ a4),
        (b4 ++ a5), (b5 ++ [EvDb (SelectReport reportId userId)]).
      unfold added. rewrite T6, T5, T4, T3, T2, T1.
      rewrite <- !app_assoc, drop_app_length. simpl.
      rewrite <- ?app_assoc. simpl. reflexivity.
    + apply (updateReport_deleted E reportId userId body files w view w' d Hrun);
        [by rewrite Ed | by eexists | intros t; apply Hacc | intros t; apply Hacc].
Qed.

Lemma edited_and_deleted_witness :
  let body :=
    Sample.body VUndefined (ObsArray [Sample.entry (VStr "obs-1") "x"])
      (IdsArray [VStr "obs-1"]) in
  (∃ view w',
     ReportController.updateReport Sample.calm "r1" "u1" body Cases.one_photo
       Sample.world0 = (Ok view, w')
     ∧ EvDb (UpdateObservation "obs-1" "r1"
               {| set_observation := VStr "x"; set_risk_level := VStr "high";
                  set_image_url := ob_image_url Sample.obs_1 |})
       ∈ added Sample.world0 w')
  ∧ ∃ view w',
      ReportService.updateReport Sample.calm "r1" body None "u1" Sample.world0
      = (Ok view, w')
      ∧ (∃ p pre mid post,
           added Sample.world0 w'
           = pre ++ EvDb (UpdateObservation "obs-1" "r1" p)
                 :: mid ++ EvDb (DeleteObservation "obs-1" "r1") :: post)
      ∧ (∀ row, row ∈ view_observations view → ob_id row ≠ "obs-1").
Proof.
  intros body.
  assert (store_accepts Sample.calm) as Hacc by (intros t q; reflexivity).
  split.
  - destruct (edited_and_deleted_is_not_rejected Sample.calm "r1" "u1" body
                Cases.one_photo Sample.world0 Sample.report_r1
                [Sample.entry (VStr "obs-1") "x"] [VStr "obs-1"]
                (Sample.entry (VStr "obs-1") "x") (VStr "obs-1") Sample.obs_1)
      as [Hrouted _]; try reflexivity; try (by left); [exact Hacc|].
    apply Hrouted; [repeat constructor | reflexivity | reflexivity].
  - destruct (edited_and_deleted_is_not_rejected Sample.calm "r1" "u1" body
                None Sample.world0 Sample.report_r1
                [Sample.entry (VStr "obs-1") "x"] [VStr "obs-1"]
                (Sample.entry (VStr "obs-1") "x") (VStr "obs-1") Sample.obs_1)
      as [_ Hservice]; try reflexivity; try (by left); [exact Hacc|].
    apply Hservice; [split; intros p; reflexivity | reflexivity].
Defined.

(** C4, as stated, fails: the call of the owner with
    [observationsToDelete: ["obs-1"]] and the entry
    [{id: "obs-1", observation: "x"}] on an existing observation is not
    rejected.  The handler of [PUT /api/reports/:id] returns the report with
    the observation updated; the function of the service returns it after
    it has updated and then deleted the observation. *)
Lemma edited_and_deleted_counterexample :
  ob_observation <$> default [] (view_observations <$> returned
    (ReportController.updateReport Sample.calm "r1" "u1"
       (Sample.body VUndefined (ObsArray [Sample.entry (VStr "obs-1") "x"])
          (IdsArray [VStr "obs-1"]))
       None Sample.world0)) = [VStr "x"; VStr "Missing signage"]
  ∧ filter (λ ev, is_Some (obs_op_of ev))
      (trace (ReportController.updateReport Sample.calm "r1" "u1"
                (Sample.body VUndefined (ObsArray [Sample.entry (VStr "obs-1") "x"])
                   (IdsArray [VStr "obs-1"]))
                None Sample.world0).2)
    = [EvDb (UpdateObservation "obs-1" "r1"
               {| set_observation := VStr "x"; set_risk_level := VStr "high";
                  set_image_url := ob_image_url Sample.obs_1 |})]
  ∧ ob_id <$> default [Sample.obs_1] (view_observations <$> returned
      (ReportService.updateReport Sample.calm "r1"
         (Sample.body VUndefined (ObsArray [Sample.entry (VStr "obs-1") "x"])
            (IdsArray [VStr "obs-1"]))
         None "u1" Sample.world0)) = ["obs-2"]
  ∧ filter (λ ev, is_Some (obs_op_of ev))
      (trace (ReportService.updateReport Sample.calm "r1"
                (Sample.body VUndefined (ObsArray [Sample.entry (VStr "obs-1") "x"])
                   (IdsArray [VStr "obs-1"]))
                None "u1" Sample.world0).2)
    = [EvDb (UpdateObservation "obs-1" "r1"
               {| set_observation := VStr "x"; set_risk_level := VStr "high";
                  set_image_url := ob_image_url Sample.obs_1 |});
       EvDb (DeleteObservation "obs-1" "r1")]
  ∧ removals
      (trace (ReportService.updateReport Sample.calm "r1"
                (Sample.body VUndefined (ObsArray [Sample.entry (VStr "obs-1") "x"])
                   (IdsArray [VStr "obs-1"]))
                None "u1" Sample.world0).2)
    = [["u1/a.png"]].
Proof. vm_compute. repeat split. Qed.

(** ** Pairing uploaded files with new entries *)

Lemma new_unpaired reportId (existingObsMap : gmap string observation_row) obs :
  found_of existingObsMap obs = None →
  ReportController.insert_of (unpaired_object reportId existingObsMap obs)
  = {| report_id := reportId; observation := entry_observation obs;
       risk_level := js_or (riskLevel obs) (VStr "low");
       image_url := js_or (imageUrl obs) VNull |}
  ∧ truthy (ReportController.p_id (unpaired_object reportId existingObsMap obs))
    = false.
Proof. intros Hnone. unfold unpaired_object. by rewrite Hnone. Qed.

Lemma observation_writes_db reportId ps :
  Forall (λ ev, ∃ q, ev = EvDb q) (observation_writes reportId ps).
Proof.
  unfold observation_writes. apply Forall_app. split.
  - apply Forall_fmap, Forall_forall. intros o _. by eexists.
  - destruct (ReportController.observationsToInsert ps); [done|].
    constructor; [by eexists | done].
Qed.

(** C6, as the code has it.  In the function [updateReport] of
    [services/reportService.js], an entry that the lookup does not find,
    that carries a truthy [tempId] and that comes with a file whose field
    name is [image_new_<tempId>] gets the URL of that file: the pass of the
    loop uploads the first such file and, when the upload returns a URL,
    inserts the row with that URL (the row is appended when the store
    accepts); when the upload throws, the pass throws the same error and
    inserts nothing; and every returning call that goes through the entry
    has inserted a row carrying the URL returned by an upload of that file.
    Nothing is stated for an entry without a truthy [tempId].  The handler
    of [PUT /api/reports/:id] receives files of the field [images] only: on
    such files no file is paired with the entry, and the call of the owner
    inserts it with the [imageUrl] it supplies, or [null], without reading a
    file. *)
Theorem paired_file_url_is_inserted
    (E : env) (reportId userId : string) (files : option (list upload_file))
    (existingObsMap : gmap string observation_row) (obs : edit_entry)
    (file : upload_file) :
  found_of existingObsMap obs = None →
  truthy (tempId obs) = true →
  find_field ("image_new_" +:+ to_string (tempId obs)) (files_list files) = Some file →
  (∀ w,
     match ImageUtils.uploadImageFromPath E (file_path file) userId w with
     | (Ok url, w1) =>
         ∃ w',
           ReportService.process_observation E reportId userId files
             existingObsMap obs w = (Ok tt, w')
           ∧ trace w' = trace w1
               ++ [EvDb (InsertObservations
                           [{| report_id := reportId;
                               observation := entry_observation obs;
                               risk_level := js_or (riskLevel obs) (VStr "low");
                               image_url := VStr url |}])]
           ∧ (db_refuses E (db w)
                (InsertObservations
                   [{| report_id := reportId;
                       observation := entry_observation obs;
                       risk_level := js_or (riskLevel obs) (VStr "low");
                       image_url := VStr url |}]) = None →
              ∃ id,
                tbl_observations (db w')
                = tbl_observations (db w)
                  ++ [{| ob_id := id; ob_report_id := reportId;
                         ob_observation := entry_observation obs;
                         ob_risk_level := js_or (riskLevel obs) (VStr "low");
                         ob_image_url := VStr url |}])
     | (Throw e, w1) =>
         ReportService.process_observation E reportId userId files
           existingObsMap obs w = (Throw e, w1)
     end)
  ∧ (∀ reportData w view w',
       existingObsMap = index_by_id (observations_of reportId (db w)) →
       (∀ t, db_refuses E t (SelectObservations reportId) = None) →
       obs ∈ effective_entries E reportData →
       ReportService.updateReport E reportId reportData files userId w
       = (Ok view, w') →
       ∃ w0 url w1,
         ImageUtils.uploadImageFromPath E (file_path file) userId w0 = (Ok url, w1)
         ∧ EvDb (InsertObservations
                   [{| report_id := reportId;
                       observation := entry_observation obs;
                       risk_level := js_or (riskLevel obs) (VStr "low");
                       image_url := VStr url |}])
           ∈ added w w')
  ∧ (∀ routed_files body w r entries,
       uploaded_as_images routed_files →
       store_accepts E →
       existingObsMap = index_by_id (observations_of reportId (db w)) →
       existingObsMap !! "s" = None →
       owned_reports reportId userId (db w) = [r] →
       filter (λ x, rp_id x = reportId) (tbl_reports (db w)) = [r] →
       body_entries E (observations body) = Some entries →
       obs ∈ entries →
       find_field ("image_new_" +:+ to_string (tempId obs)) (files_list routed_files)
       = None
       ∧ ∃ view w' rows,
           ReportController.updateReport E reportId userId body routed_files w
           = (Ok view, w')
           ∧ EvDb (InsertObservations rows) ∈ added w w'
           ∧ {| report_id := reportId;
                observation := entry_observation obs;
                risk_level := js_or (riskLevel obs) (VStr "low");
                image_url := js_or (imageUrl obs) VNull |} ∈ rows
           ∧ files_read (added w w') = []).
Proof.
  intros Hnone Htemp Hfind. split; [|split].
  - intros w.
    pose proof (paired_step_run E reportId userId files existingObsMap obs file w
                  Hnone Htemp Hfind) as H.
    destruct (ImageUtils.uploadImageFromPath E (file_path file) userId w)
      as [[url|e] w1]; [|exact H].
    destruct H as (w' & Hrun & Htr & Hrows).
    exists w'. split; [exact Hrun|]. split; [exact Htr|].
    intros Hok. eexists. exact (Hrows Hok).
  - intros reportData w view w' Hmap Hsel Hin Hrun. subst existingObsMap.
    assert (Exists (λ ev, ∃ w0 url w1,
                      ImageUtils.uploadImageFromPath E (file_path file) userId w0
                      = (Ok url, w1)
                      ∧ ev = EvDb (InsertObservations
                                     [ReportService.row_for reportId obs (VStr url)]))
              (added w w')) as Hev.
    { apply (updateReport_entry_emitted E reportId userId reportData files w view
               w' obs); try done.
      intros w1 w2 Hstep.
      pose proof (paired_step_run E reportId userId files _ obs file w1
                    Hnone Htemp Hfind) as H.
      pose proof (uploadImageFromPath_adds E (λ _, True) (file_path file) userId
                    (λ _, I) (λ _, I) w1) as (e1 & T1 & _).
      destruct (ImageUtils.uploadImageFromPath E (file_path file) userId w1)
        as [[url|e] wa] eqn:Hup; [|by rewrite Hstep in H].
      destruct H as (w2' & Hrun' & Htr & _). rewrite Hstep in Hrun'.
      simplify_eq. simpl in T1.
      eexists. split; [by rewrite Htr, T1, <- app_assoc|].
      apply Exists_app. right. constructor. by exists w1, url, wa. }
    apply Exists_exists in Hev as (ev & Hev & w0 & url & w1 & Hup & ->).
    by exists w0, url, w1.
  - intros routed_files body w r entries Hserved Hacc Hmap Hs Hown Hone Hparse Hin.
    split.
    { destruct (find_field _ (files_list routed_files)) as [f|] eqn:Hf; [|done].
      apply (find_field_images _ _ _ Hserved) in Hf. vm_compute in Hf.
      discriminate. }
    subst existingObsMap.
    destruct (controller_updateReport_run E reportId userId body routed_files w r
                entries Hacc Hserved Hs Hown Hone Hparse) as (w' & Hrun & Hadded & _).
    destruct (new_unpaired reportId _ obs Hnone) as [Hrow Hid].
    destruct (insert_request_written reportId
                (unpaired_object reportId
                   (index_by_id (observations_of reportId (db w))) <$> entries)
                (unpaired_object reportId
                   (index_by_id (observations_of reportId (db w))) obs))
      as (rows & Hreq & Hrows); [apply list_elem_of_fmap; by exists obs | exact Hid|].
    rewrite Hrow in Hrows.
    eexists _, w', rows. split; [exact Hrun|].
    destruct entries as [|e0 rest] eqn:He; [by apply elem_of_nil in Hin|].
    rewrite <- He in *. clear He. rewrite Hadded. split; [|split; [exact Hrows|]].
    + apply elem_of_app. right. apply elem_of_app. left. by right.
    + apply files_read_db. apply Forall_app. split; [repeat constructor; by eexists|].
      apply Forall_app. split; [|repeat constructor; by eexists].
      constructor; [by eexists | apply observation_writes_db].
Qed.

Lemma paired_file_url_witness :
  (∃ w' url id,
     ReportService.process_observation Sample.calm "r1" "u1"
       (Some [Sample.photo "image_new_t7" "uploads/3f9c"])
       (index_by_id [Sample.obs_1; Sample.obs_2]) Cases.keyed_entry Sample.world0
     = (Ok tt, w')
     ∧ tbl_observations (db w')
       = [Sample.obs_1; Sample.obs_2;
          {| ob_id := id; ob_report_id := "r1";
             ob_observation := VStr "Frayed sling"; ob_risk_level := VStr "medium";
             ob_image_url := VStr url |}])
  ∧ ∃ view w' rows,
      ReportController.updateReport Sample.calm "r1" "u1"
        (Sample.body VUndefined (ObsArray [Cases.keyed_entry]) IdsAbsent)
        Cases.one_photo Sample.world0 = (Ok view, w')
      ∧ EvDb (InsertObservations rows) ∈ added Sample.world0 w'
      ∧ {| report_id := "r1"; observation := VStr "Frayed sling";
           risk_level := VStr "medium"; image_url := VNull |} ∈ rows
      ∧ files_read (added Sample.world0 w') = [].
Proof.
  pose proof (paired_file_url_is_inserted Sample.calm "r1" "u1"
                (Some [Sample.photo "image_new_t7" "uploads/3f9c"])
                (index_by_id [Sample.obs_1; Sample.obs_2]) Cases.keyed_entry
                (Sample.photo "image_new_t7" "uploads/3f9c")
                eq_refl eq_refl eq_refl) as (Hservice & _ & Hrouted).
  split.
  - specialize (Hservice Sample.world0).
    destruct (ImageUtils.uploadImageFromPath Sample.calm
                (file_path (Sample.photo "image_new_t7" "uploads/3f9c")) "u1"
                Sample.world0) as [[url|e] w1] eqn:Hup;
      [|vm_compute in Hup; discriminate].
    destruct Hservice as (w' & Hrun & _ & Hrows).
    destruct (Hrows eq_refl) as (id & Hid).
    exists w', url, id. split; [exact Hrun | exact Hid].
  - destruct (Hrouted Cases.one_photo
                (Sample.body VUndefined (ObsArray [Cases.keyed_entry]) IdsAbsent)
                Sample.world0 Sample.report_r1 [Cases.keyed_entry])
      as (_ & H); try reflexivity.
    + repeat constructor.
    + intros t q. reflexivity.
    + by left.
    + exact H.
Defined.

(** C6, as stated, fails.  The handler of [PUT /api/reports/:id], called
    with two new entries and two uploaded files, inserts both observations
    without image and reads no file: the uploaded images are dropped; the
    same happens to an entry sent with a [tempId].  In the function of the
    service, with a clock that stands still within the request, two entries
    without [tempId] sent with the files [image_new_0] and [image_new_1] are
    inserted without image, and sent with one file named after the clock
    reading they are keyed alike: the same file is uploaded for each. *)
Lemma omitted_tempId_counterexample :
  (ob_image_url <$>
     default [] (view_observations <$> returned
       (ReportController.updateReport Sample.calm "r1" "u1"
          (Sample.body VUndefined Sample.two_new IdsAbsent)
          (Some [Sample.photo "images" "uploads/f0";
                 Sample.photo "images" "uploads/f1"])
          Sample.world0)))
  = [ob_image_url Sample.obs_1; ob_image_url Sample.obs_2; VNull; VNull]
  ∧ files_read
      (trace (ReportController.updateReport Sample.calm "r1" "u1"
                (Sample.body VUndefined Sample.two_new IdsAbsent)
                (Some [Sample.photo "images" "uploads/f0";
                       Sample.photo "images" "uploads/f1"])
                Sample.world0).2) = []
  ∧ (ob_image_url <$>
       default [] (view_observations <$> returned
         (ReportController.updateReport Sample.calm "r1" "u1"
            (Sample.body VUndefined (ObsArray [Cases.keyed_entry]) IdsAbsent)
            Cases.one_photo Sample.world0)))
    = [ob_image_url Sample.obs_1; ob_image_url Sample.obs_2; VNull]
  ∧ (ob_image_url <$>
       default [] (view_observations <$> returned
         (ReportService.updateReport Sample.calm "r1"
            (Sample.body VUndefined Sample.two_new IdsAbsent)
            (Some [Sample.photo "image_new_0" "uploads/f0";
                   Sample.photo "image_new_1" "uploads/f1"])
            "u1" Sample.world0)))
    = [ob_image_url Sample.obs_1; ob_image_url Sample.obs_2; VNull; VNull]
  ∧ files_read
      (trace (ReportService.updateReport Sample.calm "r1"
                (Sample.body VUndefined Sample.two_new IdsAbsent)
                (Some [Sample.photo "image_new_0" "uploads/f0";
                       Sample.photo "image_new_1" "uploads/f1"])
                "u1" Sample.world0).2) = []
  ∧ files_read
      (trace (ReportService.updateReport Sample.calm "r1"
                (Sample.body VUndefined Sample.two_new IdsAbsent)
                (Some [Sample.photo "image_new_1748362800000" "uploads/f0"])
                "u1" Sample.world0).2) = ["uploads/f0"; "uploads/f0"].
Proof. vm_compute. repeat split. Qed.
